(** * AI Knowledge Assistant: a shallow embedding of the backend services

    The development follows the layout of [backend/app]:
    - [Py]                : the fragments of Python's runtime the services rely on
                            (exceptions, [round], [str] methods, text decoding);
    - [Config]            : [app/core/config.py];
    - [Sha256]            : [hashlib.sha256], which the mock embedding calls;
    - [DocumentProcessor] : [app/services/document_processor.py];
    - [VectorStore]       : [app/services/vector_store.py], over a reference
                            model of the similarity index;
    - [LLM]               : [app/services/llm_service.py];
    - [Documents]         : [app/api/routes/documents.py];
    - [Chat]              : [app/api/routes/chat.py];
    - [Health]            : [app/api/routes/health.py].

    Conventions.  Python [float]s are read as exact rationals ([Q], so a
    zero has no sign); a Python [str] is the Rocq [string] of its UTF-8
    encoding and [bytes] are a [list byte]; a call that may
    raise returns a [result]; services outside the repository (database,
    disk, similarity index, embedding and chat APIs, wall clock) are either
    state that is passed explicitly or section variables. *)

From Stdlib Require Import ZArith QArith Qround List String Ascii Bool Lia.
From Stdlib Require Import Strings.Byte Lqa.
From Stdlib Require Import Sorting.Sorted Sorting.Permutation.
From stdpp Require Import gmap strings.
Import ListNotations.

Local Open Scope string_scope.
Local Open Scope list_scope.
Local Open Scope Z_scope.

(* ===================================================================== *)
(** * Python runtime fragments                                            *)
(* ===================================================================== *)

Module Py.

(** An exception object; [str(e)] is its message.  [HTTPException] is the
    subclass of [Exception] the routes raise. *)
Inductive exn : Type :=
| Exception (msg : string)
| HTTPException (status_code : Z) (detail : string).

(** The outcome of a call that may raise. *)
Inductive result (A : Type) : Type :=
| Ok (a : A)
| Raise (e : exn).
Arguments Ok {A} a.
Arguments Raise {A} e.

(** Sequencing: the first exception ends the computation. *)
Definition bind {A B} (r : result A) (k : A -> result B) : result B :=
  match r with
  | Ok a => k a
  | Raise e => Raise e
  end.

(** ** Code that mutates state [S] and may raise.  What was mutated before
    an exception stays mutated. *)
Definition M (S A : Type) : Type := S -> result A * S.

Definition ret {S A} (a : A) : M S A := fun s => (Ok a, s).
Definition raise {S A} (e : exn) : M S A := fun s => (Raise e, s).
Definition lift {S A} (r : result A) : M S A := fun s => (r, s).
Definition gets {S A} (f : S -> A) : M S A := fun s => (Ok (f s), s).
Definition modify {S} (f : S -> S) : M S unit := fun s => (Ok tt, f s).

Definition bindM {S A B} (m : M S A) (k : A -> M S B) : M S B :=
  fun s =>
    match m s with
    | (Ok a, s') => k a s'
    | (Raise e, s') => (Raise e, s')
    end.

(** [try: body / except Exception as e: handler e] with state. *)
Definition try_exceptM {S A} (body : M S A) (handler : exn -> M S A) : M S A :=
  fun s =>
    match body s with
    | (Ok a, s') => (Ok a, s')
    | (Raise e, s') => handler e s'
    end.

(** Run a computation of a component on the state that holds the component. *)
Definition zoom {S T A} (get : S -> T) (set : T -> S -> S) (m : M T A) : M S A :=
  fun s => let '(r, t') := m (get s) in (r, set t' s).

(** [[f x for x in xs]] when [f] may raise. *)
Fixpoint map_result {A B} (f : A -> result B) (xs : list A) : result (list B) :=
  match xs with
  | [] => Ok []
  | x :: rest => bind (f x) (fun y => bind (map_result f rest) (fun ys => Ok (y :: ys)))
  end.

(** [xs[i]], raising [IndexError] out of range. *)
Definition index {A} (xs : list A) (i : nat) : result A :=
  match nth_error xs i with
  | Some x => Ok x
  | None => Raise (Exception "list index out of range")
  end.

(** ** [round(x, ndigits)]: to the nearest multiple of [10^-ndigits], ties to
    the even multiple. *)
Definition round_half_even (x : Q) : Z :=
  let f := Qfloor x in
  match Qcompare (x - inject_Z f)%Q (1 # 2)%Q with
  | Lt => f
  | Gt => f + 1
  | Eq => if Z.even f then f else f + 1
  end.

Definition pow10 (n : nat) : Z := 10 ^ Z.of_nat n.

Definition round (x : Q) (ndigits : nat) : Q :=
  Qred (Qmake (round_half_even (x * inject_Z (pow10 ndigits))%Q)
              (Z.to_pos (pow10 ndigits))).

(** ** [str] helpers.  A Rocq [string] holds the UTF-8 encoding of the
    Python [str], and a character is a lead byte with the continuation
    bytes that follow it: lengths, slices and white space are counted in
    characters.  [lower] is exact on ASCII letters, which is where the
    case distinctions the services look at live. *)
Definition lower_ascii (c : ascii) : ascii :=
  let n := nat_of_ascii c in
  if ((65 <=? n) && (n <=? 90))%nat then ascii_of_nat (n + 32) else c.

Fixpoint lower (s : string) : string :=
  match s with
  | EmptyString => EmptyString
  | String c s' => String (lower_ascii c) (lower s')
  end.

Definition code (c : ascii) : nat := nat_of_ascii c.

(** A byte of the form [10xxxxxx] continues the character that the
    nearest byte of another form before it starts. *)
Definition is_continuation (c : ascii) : bool :=
  ((128 <=? code c) && (code c <? 192))%nat.

(** The characters of a [str], each as the bytes that encode it. *)
Fixpoint chars (s : string) : list string :=
  match s with
  | EmptyString => []
  | String c s' =>
      match chars s' with
      | String d t :: rest =>
          if is_continuation d then String c (String d t) :: rest
          else String c EmptyString :: String d t :: rest
      | _ => [String c EmptyString]
      end
  end.

(** The [str] made of the given characters. *)
Definition of_chars (l : list string) : string :=
  fold_right String.append EmptyString l.

(** [len(s)]. *)
Definition len (s : string) : nat := length (chars s).

(** [s[:n]]. *)
Definition prefix (n : nat) (s : string) : string := of_chars (firstn n (chars s)).

(** [str.isspace] on an ASCII character: white space and the separators
    FS, GS, RS, US. *)
Definition is_space (c : ascii) : bool :=
  let n := nat_of_ascii c in
  (((9 <=? n) && (n <=? 13)) || ((28 <=? n) && (n <=? 32)))%nat.

(** [str.isspace] on any character: the ASCII ones, U+0085 and U+00A0
    (two bytes), U+1680, U+2000 to U+200A, U+2028, U+2029, U+202F, U+205F
    and U+3000 (three bytes). *)
Definition is_space_char (ch : string) : bool :=
  match ch with
  | String c EmptyString => is_space c
  | String c1 (String c2 EmptyString) =>
      (code c1 =? 194)%nat && ((code c2 =? 133) || (code c2 =? 160))%nat
  | String c1 (String c2 (String c3 EmptyString)) =>
      ((code c1 =? 225) && (code c2 =? 154) && (code c3 =? 128))%nat
      || ((code c1 =? 226) && (code c2 =? 128)
          && (((128 <=? code c3) && (code c3 <=? 138))
              || (code c3 =? 168) || (code c3 =? 169) || (code c3 =? 175)))%nat
      || ((code c1 =? 226) && (code c2 =? 129) && (code c3 =? 159))%nat
      || ((code c1 =? 227) && (code c2 =? 128) && (code c3 =? 128))%nat
  | _ => false
  end.

(** The characters that are left once the white space in front is gone. *)
Fixpoint drop_spaces (l : list string) : list string :=
  match l with
  | ch :: l' => if is_space_char ch then drop_spaces l' else l
  | [] => []
  end.

Definition lstrip (s : string) : string := of_chars (drop_spaces (chars s)).

Definition rstrip (s : string) : string :=
  of_chars (rev (drop_spaces (rev (chars s)))).

(** [s.strip()]. *)
Definition strip (s : string) : string :=
  of_chars (rev (drop_spaces (rev (drop_spaces (chars s))))).

Fixpoint rev_string (s acc : string) : string :=
  match s with
  | EmptyString => acc
  | String c s' => rev_string s' (String c acc)
  end.

(** The characters the source writes as escapes. *)
Definition nl : string := String (ascii_of_nat 10) EmptyString.
Definition dquote : string := String (ascii_of_nat 34) EmptyString.

(** Truthiness of a [str]. *)
Definition truthy (s : string) : bool :=
  match s with EmptyString => false | _ => true end.

(** ** [bytes.decode('utf-8', errors='ignore')] and text mode *)

Definition byte_code (b : byte) : Z := Z.of_N (Byte.to_N b).

Definition continues (b : byte) : bool :=
  (0x80 <=? byte_code b) && (byte_code b <=? 0xBF).

(** The second byte that may follow the lead byte [b1] of a character of
    three and of four bytes: a continuation byte, without the encodings
    that are longer than needed, the surrogates and the values above
    U+10FFFF. *)
Definition second_of_three (b1 b2 : byte) : bool :=
  continues b2
  && negb ((byte_code b1 =? 0xE0) && (byte_code b2 <? 0xA0))
  && negb ((byte_code b1 =? 0xED) && (0xA0 <=? byte_code b2)).

Definition second_of_four (b1 b2 : byte) : bool :=
  continues b2
  && negb ((byte_code b1 =? 0xF0) && (byte_code b2 <? 0x90))
  && negb ((byte_code b1 =? 0xF4) && (0x90 <=? byte_code b2)).

(** With [errors='ignore'] the bytes up to the one at which a sequence
    turns out to be invalid are dropped and decoding goes on from that
    byte; a sequence that the end of the data cuts short is dropped. *)
Fixpoint decode_ignore (bs : list byte) : string :=
  match bs with
  | [] => EmptyString
  | b1 :: r1 =>
      let n1 := byte_code b1 in
      if n1 <? 0x80 then String (ascii_of_byte b1) (decode_ignore r1)
      else if n1 <? 0xC2 then decode_ignore r1
      else if n1 <? 0xE0 then
        match r1 with
        | [] => EmptyString
        | b2 :: r2 =>
            if continues b2
            then String (ascii_of_byte b1) (String (ascii_of_byte b2) (decode_ignore r2))
            else decode_ignore r1
        end
      else if n1 <? 0xF0 then
        match r1 with
        | [] => EmptyString
        | b2 :: r2 =>
            if second_of_three b1 b2 then
              match r2 with
              | [] => EmptyString
              | b3 :: r3 =>
                  if continues b3
                  then String (ascii_of_byte b1) (String (ascii_of_byte b2)
                         (String (ascii_of_byte b3) (decode_ignore r3)))
                  else decode_ignore r2
              end
            else decode_ignore r1
        end
      else if n1 <? 0xF5 then
        match r1 with
        | [] => EmptyString
        | b2 :: r2 =>
            if second_of_four b1 b2 then
              match r2 with
              | [] => EmptyString
              | b3 :: r3 =>
                  if continues b3 then
                    match r3 with
                    | [] => EmptyString
                    | b4 :: r4 =>
                        if continues b4
                        then String (ascii_of_byte b1) (String (ascii_of_byte b2)
                               (String (ascii_of_byte b3) (String (ascii_of_byte b4)
                                  (decode_ignore r4))))
                        else decode_ignore r3
                    end
                  else decode_ignore r2
              end
            else decode_ignore r1
        end
      else decode_ignore r1
  end.

(** Text mode with the default [newline=None]: a carriage return, with the
    line feed that follows it if there is one, is read as one line feed. *)
Fixpoint universal_newlines (s : string) : string :=
  match s with
  | EmptyString => EmptyString
  | String c s' =>
      if (code c =? 13)%nat then
        match s' with
        | String d s'' =>
            if (code d =? 10)%nat then String d (universal_newlines s'')
            else String (ascii_of_nat 10) (universal_newlines s')
        | EmptyString => String (ascii_of_nat 10) EmptyString
        end
      else String c (universal_newlines s')
  end.

(** [open(path, 'r', encoding='utf-8', errors='ignore').read()] on a file
    that holds the bytes [bs]. *)
Definition read_text (bs : list byte) : string :=
  universal_newlines (decode_ignore bs).

(** [sep.join(parts)]. *)
Fixpoint join (sep : string) (parts : list string) : string :=
  match parts with
  | [] => EmptyString
  | [p] => p
  | p :: rest => p +:+ sep +:+ join sep rest
  end.

(** ** Decimal rendering of integers ([str(n)]). *)
Definition digit (d : Z) : ascii := ascii_of_nat (48 + Z.to_nat d).

Fixpoint digits_fuel (fuel : nat) (n : Z) (acc : string) : string :=
  match fuel with
  | O => acc
  | S fuel' =>
      let acc' := String (digit (n mod 10)) acc in
      if n / 10 =? 0 then acc' else digits_fuel fuel' (n / 10) acc'
  end.

Definition str_nonneg (n : Z) : string :=
  digits_fuel (S (Z.to_nat (Z.log2 n))) n EmptyString.

Definition str_Z (n : Z) : string :=
  if n <? 0 then "-" +:+ str_nonneg (- n) else str_nonneg n.

(** [str(e)]. *)
Definition str_exn (e : exn) : string :=
  match e with
  | Exception m => m
  | HTTPException c d => str_Z c +:+ ": " +:+ d
  end.

(** [n] rendered with at least [w] digits, zero padded. *)
Fixpoint zero_pad (w : nat) (s : string) : string :=
  match w with
  | O => s
  | S w' => if (String.length s <? w)%nat then zero_pad w' ("0" +:+ s) else s
  end.

(** [format(x, '.2%')]: the value times one hundred, two decimals. *)
Definition format_percent2 (x : Q) : string :=
  let h := round_half_even (x * 10000)%Q in
  let a := Z.abs h in
  (if h <? 0 then "-" else EmptyString)
    +:+ str_nonneg (a / 100) +:+ "." +:+ zero_pad 2 (str_nonneg (a mod 100)) +:+ "%".

End Py.

Import Py.

Declare Scope py_scope.
Delimit Scope py_scope with py.
Notation "x <- m ;; k" := (bindM m (fun x => k))
  (at level 100, m at next level, right associativity) : py_scope.
Notation "m ;;; k" := (bindM m (fun _ => k))
  (at level 100, right associativity) : py_scope.

(* ===================================================================== *)
(** * [app/core/config.py]                                                *)
(* ===================================================================== *)

Module Config.

(** The fields of [Settings] that the services read.  Every field can be
    overridden from the environment, so statements quantify over
    [Settings] and use [default_settings] only for examples. *)
Record Settings : Type := {
  LLM_PROVIDER : string;
  OPENAI_API_KEY : string;
  OPENAI_MODEL : string;
  OPENAI_EMBEDDING_MODEL : string;
  ANTHROPIC_API_KEY : string;
  ANTHROPIC_MODEL : string;
  VECTOR_STORE_PATH : string;
  CHUNK_SIZE : Z;
  CHUNK_OVERLAP : Z;
  UPLOAD_DIR : string;
  MAX_FILE_SIZE : Z;
  ALLOWED_EXTENSIONS : list string
}.

Definition default_settings : Settings := {|
  LLM_PROVIDER := "anthropic";
  OPENAI_API_KEY := EmptyString;
  OPENAI_MODEL := "gpt-3.5-turbo";
  OPENAI_EMBEDDING_MODEL := "text-embedding-3-small";
  ANTHROPIC_API_KEY := EmptyString;
  ANTHROPIC_MODEL := "claude-haiku-4-5-20251001";
  VECTOR_STORE_PATH := "./vector_store";
  CHUNK_SIZE := 1000;
  CHUNK_OVERLAP := 200;
  UPLOAD_DIR := "./uploads";
  MAX_FILE_SIZE := 10 * 1024 * 1024;
  ALLOWED_EXTENSIONS := [".txt"; ".pdf"]
|}.

End Config.

(* ===================================================================== *)
(** * [hashlib.sha256] (FIPS 180-4), on 32-bit words held in [Z]          *)
(* ===================================================================== *)

Module Sha256.

Definition mask32 : Z := 0xFFFFFFFF.
Definition add32 (x y : Z) : Z := (x + y) mod 2 ^ 32.
Definition rotr (n x : Z) : Z :=
  Z.lor (Z.shiftr x n) (Z.land (Z.shiftl x (32 - n)) mask32).
Definition not32 (x : Z) : Z := Z.lxor x mask32.

Definition Ch (x y z : Z) : Z := Z.lxor (Z.land x y) (Z.land (not32 x) z).
Definition Maj (x y z : Z) : Z :=
  Z.lxor (Z.lxor (Z.land x y) (Z.land x z)) (Z.land y z).
Definition Sigma0 (x : Z) : Z := Z.lxor (Z.lxor (rotr 2 x) (rotr 13 x)) (rotr 22 x).
Definition Sigma1 (x : Z) : Z := Z.lxor (Z.lxor (rotr 6 x) (rotr 11 x)) (rotr 25 x).
Definition sigma0 (x : Z) : Z := Z.lxor (Z.lxor (rotr 7 x) (rotr 18 x)) (Z.shiftr x 3).
Definition sigma1 (x : Z) : Z := Z.lxor (Z.lxor (rotr 17 x) (rotr 19 x)) (Z.shiftr x 10).

(** The first 64 primes, by trial division. *)
Definition is_prime (n : nat) : bool :=
  forallb (fun d => negb (n mod d =? 0)%nat) (seq 2 (n - 2)).

Definition primes64 : list Z :=
  Eval vm_compute in map Z.of_nat (List.filter is_prime (seq 2 310)).

(** The integer cube root, one bit at a time from bit [k - 1] down. *)
Fixpoint cube_root_bits (k : nat) (n r : Z) : Z :=
  match k with
  | O => r
  | S k' =>
      let c := r + 2 ^ Z.of_nat k' in
      if c * c * c <=? n then cube_root_bits k' n c else cube_root_bits k' n r
  end.

(** The round constants: the first 32 bits of the fractional parts of the
    cube roots of the first 64 primes. *)
Definition K : list Z :=
  Eval vm_compute in
    map (fun p => cube_root_bits 40 (p * 2 ^ 96) 0 mod 2 ^ 32) primes64.

(** The eight working variables, also the chaining value. *)
Record State : Type := mkState { sa : Z; sb : Z; sc : Z; sd : Z; se : Z; sf : Z; sg : Z; sh : Z }.

(** The initial value: the first 32 bits of the fractional parts of the
    square roots of the first eight primes. *)
Definition frac_sqrt (p : Z) : Z := Z.sqrt (p * 2 ^ 64) mod 2 ^ 32.

Definition H0 : State :=
  Eval vm_compute in
    mkState (frac_sqrt 2) (frac_sqrt 3) (frac_sqrt 5) (frac_sqrt 7)
            (frac_sqrt 11) (frac_sqrt 13) (frac_sqrt 17) (frac_sqrt 19).

(** Big-endian rendering of a [nbytes]-byte integer. *)
Fixpoint be_bytes (nbytes : nat) (x : Z) : list Z :=
  match nbytes with
  | O => []
  | S n => (Z.shiftr x (8 * Z.of_nat n)) mod 256 :: be_bytes n x
  end.

Definition pad (msg : list Z) : list Z :=
  let len := Z.of_nat (length msg) in
  msg ++ [0x80] ++ repeat 0 (Z.to_nat ((55 - len) mod 64)) ++ be_bytes 8 (8 * len).

Fixpoint be_words (fuel : nat) (bs : list Z) : list Z :=
  match fuel, bs with
  | S n, b3 :: b2 :: b1 :: b0 :: rest =>
      (Z.shiftl b3 24 + Z.shiftl b2 16 + Z.shiftl b1 8 + b0) :: be_words n rest
  | _, _ => []
  end.

(** The message schedule, newest word first while it is being extended. *)
Fixpoint extend (n : nat) (rw : list Z) : list Z :=
  match n with
  | O => rw
  | S n' =>
      let w := add32 (add32 (sigma1 (nth 1 rw 0)) (nth 6 rw 0))
                     (add32 (sigma0 (nth 14 rw 0)) (nth 15 rw 0)) in
      extend n' (w :: rw)
  end.

Definition schedule (block : list Z) : list Z :=
  rev (extend 48 (rev (be_words 16 block))).

Definition round_step (s : State) (kw : Z * Z) : State :=
  let t1 := add32 (add32 (add32 (sh s) (Sigma1 (se s))) (Ch (se s) (sf s) (sg s)))
                  (add32 (fst kw) (snd kw)) in
  let t2 := add32 (Sigma0 (sa s)) (Maj (sa s) (sb s) (sc s)) in
  mkState (add32 t1 t2) (sa s) (sb s) (sc s) (add32 (sd s) t1) (se s) (sf s) (sg s).

Definition compress (h : State) (block : list Z) : State :=
  let s := fold_left round_step (combine K (schedule block)) h in
  mkState (add32 (sa h) (sa s)) (add32 (sb h) (sb s)) (add32 (sc h) (sc s))
          (add32 (sd h) (sd s)) (add32 (se h) (se s)) (add32 (sf h) (sf s))
          (add32 (sg h) (sg s)) (add32 (sh h) (sh s)).

Fixpoint blocks (fuel : nat) (bs : list Z) (h : State) : State :=
  match fuel with
  | O => h
  | S n => blocks n (skipn 64 bs) (compress h (firstn 64 bs))
  end.

Definition byte_of_Z (z : Z) : byte :=
  match Byte.of_N (Z.to_N (z mod 256)) with
  | Some b => b
  | None => x00
  end.

Definition Z_of_byte (b : byte) : Z := Z.of_N (Byte.to_N b).

Definition word_bytes (w : Z) : list byte := map byte_of_Z (be_bytes 4 w).

(** [hashlib.sha256(data).digest()]. *)
Definition digest (data : list byte) : list byte :=
  let p := pad (map Z_of_byte data) in
  let h := blocks (length p / 64) p H0 in
  word_bytes (sa h) ++ word_bytes (sb h) ++ word_bytes (sc h) ++ word_bytes (sd h)
    ++ word_bytes (se h) ++ word_bytes (sf h) ++ word_bytes (sg h) ++ word_bytes (sh h).

End Sha256.

(* ===================================================================== *)
(** * [app/services/document_processor.py]                                *)
(* ===================================================================== *)

Module DocumentProcessor.
Import Config.

(** ** [pathlib.Path(filename).suffix] (POSIX flavour) *)

(** The text between the ['/'] separators. *)
Fixpoint components (s : string) : list string :=
  match s with
  | EmptyString => [EmptyString]
  | String c s' =>
      if Ascii.eqb c "/" then EmptyString :: components s'
      else match components s' with
           | h :: t => String c h :: t
           | [] => [String c EmptyString]
           end
  end.

Definition is_part (p : string) : bool :=
  negb (String.eqb p EmptyString) && negb (String.eqb p ".").

(** [Path(s).name]: the last component, empty and ["."] components dropped. *)
Definition name (s : string) : string :=
  List.last (List.filter is_part (components s)) EmptyString.

(** [str.rfind('.')]. *)
Fixpoint rfind_dot (s : string) : option nat :=
  match s with
  | EmptyString => None
  | String c s' =>
      match rfind_dot s' with
      | Some i => Some (S i)
      | None => if Ascii.eqb c "." then Some O else None
      end
  end.

Definition suffix (filename : string) : string :=
  let n := name filename in
  match rfind_dot n with
  | Some i =>
      if ((0 <? i) && (i <? String.length n - 1))%nat
      then String.substring i (String.length n - i) n
      else EmptyString
  | None => EmptyString
  end.

(** [os.path.join(a, b)]. *)
Definition ends_with_slash (a : string) : bool :=
  match rev_string a EmptyString with
  | String c _ => Ascii.eqb c "/"
  | EmptyString => false
  end.

Definition os_path_join (a b : string) : string :=
  match b with
  | String "/" _ => b
  | _ => if negb (truthy a) || ends_with_slash a then a +:+ b else a +:+ "/" +:+ b
  end.

(** ** The upload directory *)

(** The disk as the service sees it: the stored files, the exception that
    opening a path raises when no file is stored under it (a
    [FileNotFoundError], whose text quotes the path), the outcome of each
    successive write ([None]: it succeeds), and the stream of
    [uuid.uuid4().hex] values. *)
Record Storage : Type := {
  files : gmap string (list byte);
  missing_file : string -> exn;
  write_fault : nat -> option exn;
  writes : nat;
  uuid4_hex : nat -> string;
  uuids_drawn : nat
}.

(** The reason [validate_file] gives; the source renders it into a message. *)
Inductive rejection : Type :=
| TypeNotAllowed (file_ext : string) (allowed : list string)
| SizeExceeds (max_bytes : Z).

Section Service.

Variable settings : Settings.

(** [RecursiveCharacterTextSplitter(chunk_size, chunk_overlap, ...).split_text]. *)
Variable text_splitter : Z -> Z -> string -> list string.

(** [PdfReader(path).pages], each page through [extract_text()]. *)
Variable pdf_pages : list byte -> result (list string).

Definition validate_file (filename : string) (file_size : Z) : bool * option rejection :=
  let file_ext := lower (suffix filename) in
  if negb (existsb (String.eqb file_ext) (ALLOWED_EXTENSIONS settings))
  then (false, Some (TypeNotAllowed file_ext (ALLOWED_EXTENSIONS settings)))
  else if MAX_FILE_SIZE settings <? file_size
  then (false, Some (SizeExceeds (MAX_FILE_SIZE settings)))
  else (true, None).

Definition save_file (file_content : list byte) (original_filename : string)
    (st : Storage) : result (string * string) * Storage :=
  let file_ext := lower (suffix original_filename) in
  let unique_filename := uuid4_hex st (uuids_drawn st) +:+ file_ext in
  let file_path := os_path_join (UPLOAD_DIR settings) unique_filename in
  let st1 := {| files := files st; missing_file := missing_file st;
                write_fault := write_fault st; writes := S (writes st);
                uuid4_hex := uuid4_hex st; uuids_drawn := S (uuids_drawn st) |} in
  match write_fault st (writes st) with
  | Some e => (Raise e, st1)
  | None =>
      (Ok (unique_filename, file_path),
       {| files := <[file_path := file_content]> (files st1);
          missing_file := missing_file st1;
          write_fault := write_fault st1; writes := writes st1;
          uuid4_hex := uuid4_hex st1; uuids_drawn := uuids_drawn st1 |})
  end.

(** Opening a file that is not there raises; the file is read in text
    mode, as UTF-8 with undecodable bytes ignored. *)
Definition _extract_text_from_txt (file_path : string) (st : Storage) : result string :=
  match files st !! file_path with
  | Some content => Ok (strip (read_text content))
  | None => Raise (missing_file st file_path)
  end.

Definition _extract_text_from_pdf (file_path : string) (st : Storage) : result string :=
  let reader :=
    match files st !! file_path with
    | Some content => pdf_pages content
    | None => Raise (missing_file st file_path)
    end in
  match reader with
  | Ok pages => Ok (strip (join (nl +:+ nl) (List.filter truthy pages)))
  | Raise e => Raise (Exception ("Failed to extract text from PDF: " +:+ str_exn e))
  end.

Definition extract_text (file_path file_type : string) (st : Storage) : result string :=
  let file_type := lower file_type in
  if String.eqb file_type ".txt" then _extract_text_from_txt file_path st
  else if String.eqb file_type ".pdf" then _extract_text_from_pdf file_path st
  else Raise (Exception ("Unsupported file type: " +:+ file_type)).

Definition split_text (text : string) : list string :=
  if negb (truthy (strip text)) then []
  else text_splitter (CHUNK_SIZE settings) (CHUNK_OVERLAP settings) text.

Definition get_content_preview (text : string) : string :=
  if (len text <=? 500)%nat then text else prefix 500 text +:+ "...".

(** [os.remove] is a write to the upload directory: its outcome is the next
    one in the schedule of writes.  Nothing is attempted when the file is
    not there; an exception turns into [False]. *)
Definition delete_file (file_path : string) (st : Storage) : bool * Storage :=
  match files st !! file_path with
  | None => (true, st)
  | Some _ =>
      let st1 := {| files := files st; missing_file := missing_file st;
                    write_fault := write_fault st; writes := S (writes st);
                    uuid4_hex := uuid4_hex st; uuids_drawn := uuids_drawn st |} in
      match write_fault st (writes st) with
      | Some _ => (false, st1)
      | None =>
          (true,
           {| files := delete file_path (files st1);
              missing_file := missing_file st1;
              write_fault := write_fault st1; writes := writes st1;
              uuid4_hex := uuid4_hex st1; uuids_drawn := uuids_drawn st1 |})
      end
  end.

End Service.

End DocumentProcessor.

(* ===================================================================== *)
(** * [app/services/vector_store.py]                                      *)
(* ===================================================================== *)

Module VectorStore.
Import Config.

(** The metadata dictionary attached to every chunk. *)
Record Metadata : Type := {
  document_id : Z;
  document_name : string;
  user_id : Z;
  chunk_index : Z;
  created_at : Q
}.

(** One entry of the collection. *)
Record Entry : Type := {
  id : string;
  document : string;
  embedding : list Q;
  metadata : Metadata
}.

(** What [collection.query] returns: one inner list per query embedding. *)
Record QueryResult : Type := {
  ids : list (list string);
  documents : option (list (list string));
  metadatas : option (list (list Metadata));
  distances : option (list (list Q))
}.

(** One formatted search hit; [hit_metadata = None] is the empty dict. *)
Record Hit : Type := {
  hit_id : string;
  content : string;
  hit_metadata : option Metadata;
  relevance_score : Q
}.

(** What the service asks of the index client, with the arguments it
    passes. *)
Inductive Request : Type :=
| Open (path : string)
| Count
| Query (query_embedding : list Q) (n_results : Z) (where_user_id : Z)
| Add (entries : list Entry)
| GetWhereDocument (where_document_id : Z)
| GetWhereUser (where_user_id : Z)
| Delete (ids : list string).

(** The singleton service together with the persistent collection
    ["knowledge_base"] it talks to.  [fault_at k] is the outcome of the
    [k]-th call to the index client ([None]: it succeeds) and [requests]
    are the calls made so far, oldest first; [clock_at k] is the [k]-th
    reading of the wall clock, which the services above share. *)
Record State : Type := {
  _initialized : bool;
  _embeddings : bool;
  collection : list Entry;
  fault_at : nat -> option exn;
  calls : nat;
  requests : list Request;
  clock_at : nat -> Q;
  clock_reads : nat
}.

Definition set_collection (c : list Entry) (s : State) : State :=
  {| _initialized := _initialized s; _embeddings := _embeddings s;
     collection := c; fault_at := fault_at s; calls := calls s;
     requests := requests s;
     clock_at := clock_at s; clock_reads := clock_reads s |}.

Definition set_initialized (emb : bool) (s : State) : State :=
  {| _initialized := true; _embeddings := emb;
     collection := collection s; fault_at := fault_at s; calls := calls s;
     requests := requests s;
     clock_at := clock_at s; clock_reads := clock_reads s |}.

Definition tick_call (r : Request) (s : State) : State :=
  {| _initialized := _initialized s; _embeddings := _embeddings s;
     collection := collection s; fault_at := fault_at s; calls := S (calls s);
     requests := requests s ++ [r];
     clock_at := clock_at s; clock_reads := clock_reads s |}.

Definition tick_clock (s : State) : State :=
  {| _initialized := _initialized s; _embeddings := _embeddings s;
     collection := collection s; fault_at := fault_at s; calls := calls s;
     requests := requests s;
     clock_at := clock_at s; clock_reads := S (clock_reads s) |}.

(** One round trip to the index client. *)
Definition client_call (r : Request) : M State unit :=
  fun s =>
    match fault_at s (calls s) with
    | Some e => (Raise e, tick_call r s)
    | None => (Ok tt, tick_call r s)
    end.

(** One reading of the wall clock ([time.time()], [datetime.utcnow()]). *)
Definition wall_clock : M State Q :=
  fun s => (Ok (clock_at s (clock_reads s)), tick_clock s).

Section Service.

Variable settings : Settings.

(** The distance of the collection's space ([hnsw:space = cosine]). *)
Variable distance : list Q -> list Q -> Q.

(** [OpenAIEmbeddings.embed_query]: a remote call. *)
Variable embed_api : string -> result (list Q).

Local Open Scope py_scope.

(** Creating the directory, the client and the collection is one round
    trip to the index client; [_embeddings] records whether an
    [OpenAIEmbeddings] object is held (an OpenAI key is configured). *)
Definition _ensure_initialized : M State unit :=
  fun s =>
    if _initialized s then (Ok tt, s)
    else (client_call (Open (VECTOR_STORE_PATH settings)) ;;;
          modify (set_initialized (truthy (OPENAI_API_KEY settings)))) s.

(** The loop appends one value per dimension to an initially empty list. *)
Definition _get_mock_embedding (text : string) : list Q :=
  let hash_bytes := Sha256.digest (list_byte_of_string text) in
  fold_left
    (fun embedding i =>
       let byte_idx := (i mod length hash_bytes)%nat in
       embedding
         ++ [(inject_Z (Sha256.Z_of_byte (nth byte_idx hash_bytes x00)) / 255 * 2 - 1)%Q])
    (seq 0 1536) [].

(** ** The index client *)

(** [collection.count()]. *)
Definition count : M State Z :=
  client_call Count ;;; gets (fun s => Z.of_nat (length (collection s))).

(** The index ranks the entries that pass the filter by their distance to
    the query embedding, nearest first (ties in insertion order). *)
Fixpoint insert_by_distance (x : Q * Entry) (l : list (Q * Entry)) : list (Q * Entry) :=
  match l with
  | [] => [x]
  | y :: l' =>
      if Qle_bool (fst x) (fst y) then x :: l else y :: insert_by_distance x l'
  end.

Definition nearest_first (q : list Q) (es : list Entry) : list (Q * Entry) :=
  fold_right insert_by_distance [] (map (fun e => (distance q (embedding e), e)) es).

(** [collection.query(query_embeddings=[q], n_results=n, where={"user_id": u},
    include=["documents", "metadatas", "distances"])]. *)
Definition query (q : list Q) (n_results : Z) (where_user_id : Z) : M State QueryResult :=
  client_call (Query q n_results where_user_id) ;;;
  if n_results <=? 0
  then raise (Exception "Number of requested results cannot be negative, or zero.")
  else
    entries <- gets collection ;;
    let found :=
      firstn (Z.to_nat n_results)
        (nearest_first q
           (List.filter (fun e => user_id (metadata e) =? where_user_id) entries)) in
    ret {| ids := [map (fun de => id (snd de)) found];
           documents := Some [map (fun de => document (snd de)) found];
           metadatas := Some [map (fun de => metadata (snd de)) found];
           distances := Some [map fst found] |}.

(** [collection.add]: ids already present are left alone. *)
Definition add (new : list Entry) : M State unit :=
  client_call (Add new) ;;;
  modify (fun s =>
    set_collection
      (collection s
         ++ List.filter
              (fun e => negb (existsb (fun e' => String.eqb (id e') (id e)) (collection s)))
              new) s).

(** [collection.get(where={"document_id": d})["ids"]]. *)
Definition get_ids (where_document_id : Z) : M State (list string) :=
  client_call (GetWhereDocument where_document_id) ;;;
  gets (fun s =>
    map id (List.filter (fun e => document_id (metadata e) =? where_document_id)
              (collection s))).

(** [collection.delete(ids=...)]. *)
Definition delete (gone : list string) : M State unit :=
  client_call (Delete gone) ;;;
  modify (fun s =>
    set_collection
      (List.filter (fun e => negb (existsb (String.eqb (id e)) gone)) (collection s)) s).

(** ** The service *)

(** [f"doc_{document_id}_chunk_{i}"]. *)
Definition chunk_id (document_id i : Z) : string :=
  "doc_" +:+ str_Z document_id +:+ "_chunk_" +:+ str_Z i.

(** The ids, documents, embeddings and metadatas passed to [collection.add],
    entry by entry; each metadata reads the clock for [created_at]. *)
Fixpoint build_entries (chunks : list string) (embeddings : list (list Q))
    (i : Z) (document_id : Z) (document_name : string) (user_id : Z)
    : M State (list Entry) :=
  match chunks, embeddings with
  | c :: chunks', v :: embeddings' =>
      now <- wall_clock ;;
      rest <- build_entries chunks' embeddings' (i + 1) document_id document_name user_id ;;
      ret ({| id := chunk_id document_id i; document := c; embedding := v;
              metadata := {| document_id := document_id; document_name := document_name;
                             user_id := user_id; chunk_index := i; created_at := now |} |}
             :: rest)
  | _, _ => ret []
  end.

(** The [except] block of [add_documents] logs and re-raises, so its [try]
    block is plain sequencing. *)
Definition add_documents (chunks : list string) (document_id : Z)
    (document_name : string) (user_id : Z) : M State Z :=
  _ensure_initialized ;;;
  match chunks with
  | [] => ret 0
  | _ =>
      embeddings <- (fun s =>
        if _embeddings s then lift (map_result embed_api chunks) s
        else ret (map _get_mock_embedding chunks) s) ;;
      entries <- build_entries chunks embeddings 0 document_id document_name user_id ;;
      add entries ;;;
      ret (Z.of_nat (length chunks))
  end.

(** [min(n_results, total_count) if total_count > 0 else 1]. *)
Definition actual_n_results (n_results total_count : Z) : Z :=
  if 0 <? total_count then Z.min n_results total_count else 1.

(** The loop that turns the raw result into hits. *)
Fixpoint format_results (results : QueryResult) (i : nat) (ids0 : list string)
    : result (list Hit) :=
  match ids0 with
  | [] => Ok []
  | doc_id :: rest =>
      bind (match distances results with
            | Some (d :: ds) => bind (index (d :: ds) 0) (fun row => index row i)
            | _ => Ok 0%Q
            end) (fun distance =>
      let similarity := (1 - distance)%Q in
      bind (match documents results with
            | Some (d :: ds) => bind (index (d :: ds) 0) (fun row => index row i)
            | _ => Ok EmptyString
            end) (fun content =>
      bind (match metadatas results with
            | Some (m :: ms) =>
                bind (index (m :: ms) 0) (fun row => bind (index row i) (fun x => Ok (Some x)))
            | _ => Ok None
            end) (fun metadata =>
      bind (format_results results (S i) rest) (fun formatted =>
      Ok ({| hit_id := doc_id; content := content; hit_metadata := metadata;
             relevance_score := round similarity 4 |} :: formatted)))))
  end.

(** [_ensure_initialized] runs before the [try]; every exception inside
    the [try] turns into an empty result. *)
Definition search (query_text : string) (user_id : Z) (n_results : Z) : M State (list Hit) :=
  _ensure_initialized ;;;
  try_exceptM
    (query_embedding <- (fun s =>
        if _embeddings s then lift (embed_api query_text) s
        else ret (_get_mock_embedding query_text) s) ;;
     total_count <- count ;;
     results <- query query_embedding (actual_n_results n_results total_count) user_id ;;
     match ids results with
     | (doc_id :: rest) :: _ => lift (format_results results 0 (doc_id :: rest))
     | _ => ret []
     end)
    (fun _ => ret []).

(** Returns [True], or [False] when the index client raises. *)
Definition delete_document (document_id : Z) : M State bool :=
  _ensure_initialized ;;;
  try_exceptM
    (found <- get_ids document_id ;;
     match found with
     | [] => ret true
     | _ => delete found ;;; ret true
     end)
    (fun _ => ret false).

(** [collection.get(where={"user_id": u}, include=[])["ids"]]. *)
Definition get_ids_of_user (where_user_id : Z) : M State (list string) :=
  client_call (GetWhereUser where_user_id) ;;;
  gets (fun s =>
    map id (List.filter (fun e => user_id (metadata e) =? where_user_id)
              (collection s))).

(** The number of chunks of one user, or 0 when the index client raises. *)
Definition get_document_count (user_id : Z) : M State Z :=
  _ensure_initialized ;;;
  try_exceptM
    (found <- get_ids_of_user user_id ;;
     ret (match found with
          | [] => 0
          | _ => Z.of_nat (length found)
          end))
    (fun _ => ret 0).

(** The number of chunks in the store, or 0 when the index client raises. *)
Definition get_total_count : M State Z :=
  _ensure_initialized ;;;
  try_exceptM count (fun _ => ret 0).

End Service.

End VectorStore.

(* ===================================================================== *)
(** * [app/services/llm_service.py]                                       *)
(* ===================================================================== *)

Module LLM.
Import Config.

(** [ChatAnthropic(...)] and [ChatOpenAI(...)] as configured objects. *)
Inductive ChatModel : Type :=
| ChatAnthropic (anthropic_api_key model : string) (temperature : Q) (max_tokens : Z)
| ChatOpenAI (openai_api_key model : string) (temperature : Q) (max_tokens : Z).

Record LLMService : Type := {
  _llm : option ChatModel;
  _initialized : bool;
  _provider : option string;
  _model_name : option string
}.

(** [LLMService.__init__]. *)
Definition new_service : LLMService :=
  {| _llm := None; _initialized := false; _provider := None; _model_name := None |}.

(** [schemas.chat.SourceDocument]. *)
Record SourceDocument : Type := {
  content : string;
  document_name : string;
  chunk_index : Z;
  relevance_score : Q
}.

(** The dictionary [answer_question] returns. *)
Record Answer : Type := {
  answer : string;
  sources : list SourceDocument;
  processing_time : Q;
  question : string
}.

(** The dictionary [health_check] returns. *)
Record Health : Type := {
  llm_available : bool;
  provider : option string;
  model : option string;
  embedding_model : string
}.

(** The singleton service and what it imports. *)
Record State : Type := {
  service : LLMService;
  vector_store : VectorStore.State
}.

Definition set_service (x : LLMService) (s : State) : State :=
  {| service := x; vector_store := vector_store s |}.
Definition set_vector_store (x : VectorStore.State) (s : State) : State :=
  {| service := service s; vector_store := x |}.

Definition SYSTEM_PROMPT_head : string :=
  "You are a helpful AI knowledge assistant. Your role is to answer questions based on the provided context from uploaded documents.

IMPORTANT INSTRUCTIONS:
1. Only use information from the provided context to answer questions.
2. If the context doesn't contain relevant information, say so clearly.
3. Be concise but comprehensive in your answers.
4. When referencing information, mention which document it came from.
5. If you're uncertain about something, acknowledge the uncertainty.

CONTEXT FROM DOCUMENTS:
".

Definition SYSTEM_PROMPT_tail : string :=
  "

---

Please answer the user's question based on the above context. If the context doesn't contain relevant information, let the user know and suggest they upload more relevant documents.".

(** [SYSTEM_PROMPT.format(context=context)]. *)
Definition SYSTEM_PROMPT_format (context : string) : string :=
  SYSTEM_PROMPT_head +:+ context +:+ SYSTEM_PROMPT_tail.

Section Service.

Variable settings : Settings.
Variable distance : list Q -> list Q -> Q.
Variable embed_api : string -> result (list Q).

(** [self._llm.invoke([SystemMessage(system), HumanMessage(human)]).content]:
    a remote call. *)
Variable invoke : ChatModel -> string -> string -> result string.

Local Open Scope py_scope.

(** The three outcomes of the selection.  [ChatAnthropic(...)] and
    [ChatOpenAI(...)] only build a client object; no request is sent. *)
Definition use_anthropic : LLMService :=
  {| _llm := Some (ChatAnthropic (ANTHROPIC_API_KEY settings) (ANTHROPIC_MODEL settings)
                     (7 # 10) 1024);
     _initialized := true;
     _provider := Some "anthropic";
     _model_name := Some (ANTHROPIC_MODEL settings) |}.

Definition use_openai : LLMService :=
  {| _llm := Some (ChatOpenAI (OPENAI_API_KEY settings) (OPENAI_MODEL settings)
                     (7 # 10) 1000);
     _initialized := true;
     _provider := Some "openai";
     _model_name := Some (OPENAI_MODEL settings) |}.

Definition use_mock : LLMService :=
  {| _llm := None; _initialized := true;
     _provider := Some "mock"; _model_name := Some "mock" |}.

Definition _ensure_initialized (self : LLMService) : LLMService :=
  if _initialized self then self
  else
    let provider := lower (LLM_PROVIDER settings) in
    if String.eqb provider "anthropic" && truthy (ANTHROPIC_API_KEY settings)
    then use_anthropic
    else if String.eqb provider "openai" && truthy (OPENAI_API_KEY settings)
    then use_openai
    else if truthy (ANTHROPIC_API_KEY settings) then use_anthropic
    else if truthy (OPENAI_API_KEY settings) then use_openai
    else use_mock.

(** The answer given when no backend is configured. *)
Definition _get_mock_response (question context : string) : string :=
  if negb (truthy (strip context))
  then "I don't have any relevant information in the uploaded documents to answer your question. Please upload documents that contain information related to your query."
  else
    "Based on the uploaded documents, I found relevant information to answer your question.

**Summary:**
The documents contain information that may be relevant to your query about "
    +:+ dquote +:+ prefix 50 question +:+ "..." +:+ dquote +:+ ". 

**Key Points from Documents:**
" +:+ prefix 500 context +:+ "...

**Note:** This is a mock response. Connect an OpenAI API key for intelligent answers based on document content.".

(** [metadata.get('document_name', 'Unknown')] and
    [metadata.get('chunk_index', 0)]. *)
Definition metadata_document_name (m : option VectorStore.Metadata) : string :=
  match m with
  | Some md => VectorStore.document_name md
  | None => "Unknown"
  end.

Definition metadata_chunk_index (m : option VectorStore.Metadata) : Z :=
  match m with
  | Some md => VectorStore.chunk_index md
  | None => 0
  end.

(** One block per hit, numbered from [i]. *)
Fixpoint context_parts (i : Z) (search_results : list VectorStore.Hit) : list string :=
  match search_results with
  | [] => []
  | result :: rest =>
      ("[Source " +:+ str_Z i +:+ ": "
         +:+ metadata_document_name (VectorStore.hit_metadata result)
         +:+ " (Relevance: " +:+ format_percent2 (VectorStore.relevance_score result)
         +:+ ")]" +:+ nl +:+ VectorStore.content result)
        :: context_parts (i + 1) rest
  end.

Definition _format_context (search_results : list VectorStore.Hit) : string :=
  match search_results with
  | [] => EmptyString
  | _ => join (nl +:+ nl +:+ "---" +:+ nl +:+ nl) (context_parts 1 search_results)
  end.

(** The [SourceDocument] built for one hit. *)
Definition source_of (result : VectorStore.Hit) : SourceDocument :=
  {| content := prefix 500 (VectorStore.content result);
     document_name := metadata_document_name (VectorStore.hit_metadata result);
     chunk_index := metadata_chunk_index (VectorStore.hit_metadata result);
     relevance_score := VectorStore.relevance_score result |}.

(** [time.time()]. *)
Definition time : M State Q :=
  zoom vector_store set_vector_store VectorStore.wall_clock.

(** The body of the [try] block of [answer_question]. *)
Definition answer_body (question : string) (user_id n_sources : Z) (start_time : Q)
    : M State Answer :=
  search_results <-
    zoom vector_store set_vector_store
      (VectorStore.search settings distance embed_api question user_id n_sources) ;;
  let context := _format_context search_results in
  llm <- gets (fun s => _llm (service s)) ;;
  answer <- match llm with
            | Some m => lift (invoke m (SYSTEM_PROMPT_format context) question)
            | None => ret (_get_mock_response question context)
            end ;;
  let sources := map source_of search_results in
  now <- time ;;
  ret {| answer := answer; sources := sources;
         processing_time := round (now - start_time) 3; question := question |}.

(** The [except Exception as e] block of [answer_question]. *)
Definition answer_error (question : string) (start_time : Q) (e : exn) : M State Answer :=
  now <- time ;;
  ret {| answer := "I encountered an error while processing your question: "
                     +:+ str_exn e +:+ ". Please try again.";
         sources := [];
         processing_time := round (now - start_time) 3;
         question := question |}.

Definition answer_question (question : string) (user_id n_sources : Z) : M State Answer :=
  modify (fun s => set_service (_ensure_initialized (service s)) s) ;;;
  start_time <- time ;;
  try_exceptM (answer_body question user_id n_sources start_time)
              (answer_error question start_time).

Definition health_check : M State Health :=
  modify (fun s => set_service (_ensure_initialized (service s)) s) ;;;
  self <- gets service ;;
  ret {| llm_available := match _llm self with Some _ => true | None => false end;
         provider := _provider self;
         model := _model_name self;
         embedding_model := OPENAI_EMBEDDING_MODEL settings |}.

End Service.

End LLM.

(* ===================================================================== *)
(** * [app/models/document.py] and [app/api/routes/documents.py]          *)
(* ===================================================================== *)

Module Documents.
Import Config.

Inductive DocumentStatus : Type := PENDING | PROCESSING | COMPLETED | FAILED.

Definition status_value (s : DocumentStatus) : string :=
  match s with
  | PENDING => "pending"
  | PROCESSING => "processing"
  | COMPLETED => "completed"
  | FAILED => "failed"
  end.

(** A row of the [documents] table. *)
Record Document : Type := {
  id : Z;
  filename : string;
  original_filename : string;
  file_path : string;
  file_type : string;
  file_size : Z;
  status : DocumentStatus;
  chunk_count : Z;
  embedding_count : Z;
  content_preview : option string;
  error_message : option string;
  created_at : Q;
  processed_at : option Q;
  user_id : Z
}.

(** [schemas.document.DocumentResponse]. *)
Record DocumentResponse : Type := {
  r_id : Z;
  r_filename : string;
  r_file_type : string;
  r_file_size : Z;
  r_status : string;
  r_chunk_count : Z;
  r_embedding_count : Z;
  r_content_preview : option string;
  r_created_at : Q;
  r_processed_at : option Q;
  r_error_message : option string
}.

Record UploadResponse : Type := {
  message : string;
  documents_out : list DocumentResponse;
  total_uploaded : Z;
  successful : Z;
  failed : Z
}.

(** [schemas.document.DocumentListResponse]. *)
Record DocumentListResponse : Type := {
  l_documents : list DocumentResponse;
  l_total : Z;
  l_total_chunks : Z;
  l_total_embeddings : Z
}.

(** A multipart file as the handler receives it. *)
Record UploadFile : Type := {
  upload_filename : string;
  upload_body : list byte
}.

(** The arguments of one scheduled [process_document_background]. *)
Record Task : Type := {
  task_document_id : Z;
  task_file_path : string;
  task_file_type : string;
  task_user_id : Z;
  task_document_name : string
}.

(** The relational store, the services the routes import, and the tasks
    scheduled so far.  [db_fault_at k] is the outcome of the [k]-th database
    round trip ([None]: it succeeds).  [journal] lists every version of a
    row in the order it was written, which is what a client polling the
    documents can observe. *)
Record State : Type := {
  documents : gmap Z Document;
  next_id : Z;
  journal : list Document;
  db_fault_at : nat -> option exn;
  db_calls : nat;
  storage : DocumentProcessor.Storage;
  vector_store : VectorStore.State;
  background_tasks : list Task
}.

Definition set_storage (x : DocumentProcessor.Storage) (s : State) : State :=
  {| documents := documents s; next_id := next_id s; journal := journal s;
     db_fault_at := db_fault_at s; db_calls := db_calls s;
     storage := x; vector_store := vector_store s;
     background_tasks := background_tasks s |}.

Definition set_vector_store (x : VectorStore.State) (s : State) : State :=
  {| documents := documents s; next_id := next_id s; journal := journal s;
     db_fault_at := db_fault_at s; db_calls := db_calls s;
     storage := storage s; vector_store := x;
     background_tasks := background_tasks s |}.

Definition tick_db (s : State) : State :=
  {| documents := documents s; next_id := next_id s; journal := journal s;
     db_fault_at := db_fault_at s; db_calls := S (db_calls s);
     storage := storage s; vector_store := vector_store s;
     background_tasks := background_tasks s |}.

(** Write one row (an INSERT or an UPDATE of the row with that id). *)
Definition write_row (d : Document) (s : State) : State :=
  {| documents := <[id d := d]> (documents s);
     next_id := Z.max (next_id s) (id d + 1);
     journal := journal s ++ [d];
     db_fault_at := db_fault_at s; db_calls := db_calls s;
     storage := storage s; vector_store := vector_store s;
     background_tasks := background_tasks s |}.

Definition add_task (t : Task) (s : State) : State :=
  {| documents := documents s; next_id := next_id s; journal := journal s;
     db_fault_at := db_fault_at s; db_calls := db_calls s;
     storage := storage s; vector_store := vector_store s;
     background_tasks := background_tasks s ++ [t] |}.

(** Remove one row (the DELETE of the row with that id). *)
Definition delete_row (d : Document) (s : State) : State :=
  {| documents := delete (id d) (documents s);
     next_id := next_id s; journal := journal s;
     db_fault_at := db_fault_at s; db_calls := db_calls s;
     storage := storage s; vector_store := vector_store s;
     background_tasks := background_tasks s |}.

(** Field updates of one [Document] object. *)
Definition with_status (st : DocumentStatus) (d : Document) : Document :=
  {| id := id d; filename := filename d; original_filename := original_filename d;
     file_path := file_path d; file_type := file_type d; file_size := file_size d;
     status := st; chunk_count := chunk_count d; embedding_count := embedding_count d;
     content_preview := content_preview d; error_message := error_message d;
     created_at := created_at d; processed_at := processed_at d; user_id := user_id d |}.

Definition with_error_message (m : option string) (d : Document) : Document :=
  {| id := id d; filename := filename d; original_filename := original_filename d;
     file_path := file_path d; file_type := file_type d; file_size := file_size d;
     status := status d; chunk_count := chunk_count d; embedding_count := embedding_count d;
     content_preview := content_preview d; error_message := m;
     created_at := created_at d; processed_at := processed_at d; user_id := user_id d |}.

Definition with_counts (chunks embeddings : Z) (d : Document) : Document :=
  {| id := id d; filename := filename d; original_filename := original_filename d;
     file_path := file_path d; file_type := file_type d; file_size := file_size d;
     status := status d; chunk_count := chunks; embedding_count := embeddings;
     content_preview := content_preview d; error_message := error_message d;
     created_at := created_at d; processed_at := processed_at d; user_id := user_id d |}.

Definition with_content_preview (p : option string) (d : Document) : Document :=
  {| id := id d; filename := filename d; original_filename := original_filename d;
     file_path := file_path d; file_type := file_type d; file_size := file_size d;
     status := status d; chunk_count := chunk_count d; embedding_count := embedding_count d;
     content_preview := p; error_message := error_message d;
     created_at := created_at d; processed_at := processed_at d; user_id := user_id d |}.

Definition with_processed_at (t : option Q) (d : Document) : Document :=
  {| id := id d; filename := filename d; original_filename := original_filename d;
     file_path := file_path d; file_type := file_type d; file_size := file_size d;
     status := status d; chunk_count := chunk_count d; embedding_count := embedding_count d;
     content_preview := content_preview d; error_message := error_message d;
     created_at := created_at d; processed_at := t; user_id := user_id d |}.

(** [DocumentResponse.model_validate(document)]. *)
Definition model_validate (d : Document) : DocumentResponse :=
  {| r_id := id d; r_filename := filename d; r_file_type := file_type d;
     r_file_size := file_size d; r_status := status_value (status d);
     r_chunk_count := chunk_count d; r_embedding_count := embedding_count d;
     r_content_preview := content_preview d; r_created_at := created_at d;
     r_processed_at := processed_at d; r_error_message := error_message d |}.

Local Open Scope py_scope.

(** ** The session *)

Definition db_call : M State unit :=
  fun s =>
    match db_fault_at s (db_calls s) with
    | Some e => (Raise e, tick_db s)
    | None => (Ok tt, tick_db s)
    end.

(** [select(Document).where(Document.id == document_id)], [scalar_one_or_none]. *)
Definition select_document (document_id : Z) : M State (option Document) :=
  db_call ;;; gets (fun s => documents s !! document_id).

(** The same with [Document.user_id == current_user.id]. *)
Definition select_owned (document_id current_user_id : Z) : M State (option Document) :=
  found <- select_document document_id ;;
  ret (match found with
       | Some d => if user_id d =? current_user_id then Some d else None
       | None => None
       end).

(** [await db.commit()] with the changes made to [document]: nothing is
    written when the round trip fails. *)
Definition commit (document : Document) : M State unit :=
  db_call ;;; modify (write_row document).

Definition utcnow : M State Q :=
  zoom vector_store set_vector_store VectorStore.wall_clock.

(** [db.add(document); await db.flush()]: the INSERT assigns the primary key
    and the column defaults. *)
Definition add_and_flush (unique_filename original file_path file_ext : string)
    (size : Z) (owner : Z) : M State Document :=
  db_call ;;;
  now <- utcnow ;;
  new_id <- gets next_id ;;
  let document :=
    {| id := new_id; filename := unique_filename; original_filename := original;
       file_path := file_path; file_type := file_ext; file_size := size;
       status := PENDING; chunk_count := 0; embedding_count := 0;
       content_preview := None; error_message := None;
       created_at := now; processed_at := None; user_id := owner |} in
  modify (write_row document) ;;;
  ret document.

(** [await db.refresh(document)]. *)
Definition refresh (document : Document) : M State Document :=
  found <- select_document (id document) ;;
  match found with
  | Some d => ret d
  | None => raise (Exception "Could not refresh instance")
  end.

(** [ORDER BY created_at DESC]: the rows from the latest to the earliest
    (rows created at the same instant in the order the table gives them). *)
Fixpoint insert_by_created_at (d : Document) (l : list Document) : list Document :=
  match l with
  | [] => [d]
  | y :: l' =>
      if Qle_bool (created_at y) (created_at d) then d :: l
      else y :: insert_by_created_at d l'
  end.

Definition newest_first (rows : list Document) : list Document :=
  fold_right insert_by_created_at [] rows.

(** [select(Document).where(Document.user_id == current_user.id)
     .order_by(Document.created_at.desc())], [scalars().all()]. *)
Definition select_by_user (current_user_id : Z) : M State (list Document) :=
  db_call ;;;
  gets (fun s =>
    newest_first
      (List.filter (fun d => user_id d =? current_user_id)
         (map snd (map_to_list (documents s))))).

(** [sum(...)]: from 0, adding from left to right. *)
Definition sum (xs : list Z) : Z := fold_left Z.add xs 0.

Section Routes.

Variable settings : Settings.
Variable text_splitter : Z -> Z -> string -> list string.
Variable pdf_pages : list byte -> result (list string).
Variable distance : list Q -> list Q -> Q.
Variable embed_api : string -> result (list Q).

(** The except block of the task: record the failure, swallow a failure of
    the recording itself. *)
Definition record_failure (document_id : Z) (e : exn) : M State unit :=
  try_exceptM
    (found <- select_document document_id ;;
     match found with
     | Some document =>
         commit (with_error_message (Some (str_exn e)) (with_status FAILED document))
     | None => ret tt
     end)
    (fun _ => ret tt).

Definition process_document_background (document_id : Z) (file_path file_type : string)
    (user_id : Z) (document_name : string) : M State unit :=
  try_exceptM
    (found <- select_document document_id ;;
     match found with
     | None => ret tt
     | Some document =>
         let document := with_status PROCESSING document in
         commit document ;;;
         text <- (fun s =>
           lift (DocumentProcessor.extract_text pdf_pages file_path file_type (storage s)) s) ;;
         if negb (truthy (strip text))
         then commit (with_error_message
                        (Some "No text content could be extracted from the file")
                        (with_status FAILED document))
         else
           let chunks := DocumentProcessor.split_text settings text_splitter text in
           match chunks with
           | [] => commit (with_error_message
                             (Some "Failed to split document into chunks")
                             (with_status FAILED document))
           | _ =>
               embedding_count <-
                 zoom vector_store set_vector_store
                   (VectorStore.add_documents settings embed_api
                      chunks document_id document_name user_id) ;;
               now <- utcnow ;;
               commit (with_processed_at (Some now)
                         (with_content_preview
                            (Some (DocumentProcessor.get_content_preview text))
                            (with_counts (Z.of_nat (length chunks)) embedding_count
                               (with_status COMPLETED document))))
           end
     end)
    (record_failure document_id).

Record Tally : Type := {
  uploaded_documents : list DocumentResponse;
  n_successful : Z;
  n_failed : Z
}.

Definition count_failed (t : Tally) : Tally :=
  {| uploaded_documents := uploaded_documents t;
     n_successful := n_successful t; n_failed := n_failed t + 1 |}.

Definition count_successful (r : DocumentResponse) (t : Tally) : Tally :=
  {| uploaded_documents := uploaded_documents t ++ [r];
     n_successful := n_successful t + 1; n_failed := n_failed t |}.

(** The body of [for file in files]. *)
Definition upload_one (current_user_id : Z) (file : UploadFile) (t : Tally) : M State Tally :=
  try_exceptM
    (let content := upload_body file in
     let file_ext := lower (DocumentProcessor.suffix (upload_filename file)) in
     let '(is_valid, error_msg) :=
       DocumentProcessor.validate_file settings (upload_filename file)
         (Z.of_nat (length content)) in
     if negb is_valid then ret (count_failed t)
     else
       saved <- zoom storage set_storage
                  (DocumentProcessor.save_file settings content (upload_filename file)) ;;
       let '(unique_filename, file_path) := saved in
       document <- add_and_flush unique_filename (upload_filename file) file_path file_ext
                     (Z.of_nat (length content)) current_user_id ;;
       document <- refresh document ;;
       modify (add_task {| task_document_id := id document; task_file_path := file_path;
                           task_file_type := file_ext; task_user_id := current_user_id;
                           task_document_name := upload_filename file |}) ;;;
       ret (count_successful (model_validate document) t))
    (fun _ => ret (count_failed t)).

Fixpoint upload_loop (current_user_id : Z) (files : list UploadFile) (t : Tally)
    : M State Tally :=
  match files with
  | [] => ret t
  | file :: rest =>
      t' <- upload_one current_user_id file t ;;
      upload_loop current_user_id rest t'
  end.

Definition upload_documents (files : list UploadFile) (current_user_id : Z)
    : M State UploadResponse :=
  match files with
  | [] => raise (HTTPException 400 "No files provided")
  | _ =>
      t <- upload_loop current_user_id files
             {| uploaded_documents := []; n_successful := 0; n_failed := 0 |} ;;
      ret {| message := "Upload completed: " +:+ str_Z (n_successful t)
                          +:+ " successful, " +:+ str_Z (n_failed t) +:+ " failed";
             documents_out := uploaded_documents t;
             total_uploaded := Z.of_nat (length files);
             successful := n_successful t;
             failed := n_failed t |}
  end.

Definition reprocess_document (document_id current_user_id : Z) : M State string :=
  found <- select_owned document_id current_user_id ;;
  match found with
  | None => raise (HTTPException 404 "Document not found")
  | Some document =>
      zoom vector_store set_vector_store
        (VectorStore.delete_document settings document_id) ;;;
      let document :=
        with_processed_at None
          (with_error_message None
             (with_counts 0 0 (with_status PENDING document))) in
      modify (write_row document) ;;;
      modify (add_task {| task_document_id := id document;
                          task_file_path := file_path document;
                          task_file_type := file_type document;
                          task_user_id := current_user_id;
                          task_document_name := original_filename document |}) ;;;
      ret ("Document '" +:+ original_filename document +:+ "' queued for reprocessing")
  end.

Definition list_documents (current_user_id : Z) : M State DocumentListResponse :=
  documents <- select_by_user current_user_id ;;
  let total_chunks := sum (map chunk_count documents) in
  let total_embeddings := sum (map embedding_count documents) in
  ret {| l_documents := map model_validate documents;
         l_total := Z.of_nat (length documents);
         l_total_chunks := total_chunks;
         l_total_embeddings := total_embeddings |}.

Definition get_document (document_id current_user_id : Z) : M State DocumentResponse :=
  found <- select_owned document_id current_user_id ;;
  match found with
  | None => raise (HTTPException 404 "Document not found")
  | Some document => ret (model_validate document)
  end.

(** The handler looks at neither the flag the vector store returns nor the
    one [delete_file] returns. *)
Definition delete_document (document_id current_user_id : Z) : M State string :=
  found <- select_owned document_id current_user_id ;;
  match found with
  | None => raise (HTTPException 404 "Document not found")
  | Some document =>
      zoom vector_store set_vector_store
        (VectorStore.delete_document settings document_id) ;;;
      zoom storage set_storage
        (fun st =>
           let '(removed, st') := DocumentProcessor.delete_file (file_path document) st in
           (Ok removed, st')) ;;;
      modify (delete_row document) ;;;
      ret ("Document '" +:+ original_filename document +:+ "' deleted successfully")
  end.

(** Running the task that was scheduled first. *)
Definition run_next_task : M State unit :=
  fun s =>
    match background_tasks s with
    | [] => (Ok tt, s)
    | t :: rest =>
        process_document_background
          (task_document_id t) (task_file_path t) (task_file_type t)
          (task_user_id t) (task_document_name t)
          {| documents := documents s; next_id := next_id s; journal := journal s;
             db_fault_at := db_fault_at s; db_calls := db_calls s;
             storage := storage s; vector_store := vector_store s;
             background_tasks := rest |}
    end.

End Routes.


End Documents.

(* ===================================================================== *)
(** * [app/models/chat.py], [app/schemas/chat.py], [app/api/routes/chat.py] *)
(* ===================================================================== *)

Module Chat.
Import Config.

(** A row of the [chat_messages] table.  The JSON column [sources] holds
    either null ([None]) or the list of dumped [SourceDocument]s. *)
Record ChatMessage : Type := {
  id : Z;
  question : string;
  answer : string;
  sources : option (list LLM.SourceDocument);
  processing_time : option Q;
  created_at : Q;
  user_id : Z
}.

Record AskResponse : Type := {
  r_answer : string;
  r_sources : list LLM.SourceDocument;
  r_processing_time : Q;
  r_question : string
}.

Record ChatHistoryItem : Type := {
  h_id : Z;
  h_question : string;
  h_answer : string;
  h_sources : option (list LLM.SourceDocument);
  h_processing_time : option Q;
  h_created_at : Q
}.

Record ChatHistoryResponse : Type := {
  messages : list ChatHistoryItem;
  total : Z
}.

(** The table in the order of insertion, the session, and the answer
    generation service.  [db_fault_at k] is the outcome of the [k]-th
    database round trip ([None]: it succeeds). *)
Record State : Type := {
  chat_messages : list ChatMessage;
  next_id : Z;
  db_fault_at : nat -> option exn;
  db_calls : nat;
  llm : LLM.State
}.

Definition set_llm (x : LLM.State) (s : State) : State :=
  {| chat_messages := chat_messages s; next_id := next_id s;
     db_fault_at := db_fault_at s; db_calls := db_calls s; llm := x |}.

Definition tick_db (s : State) : State :=
  {| chat_messages := chat_messages s; next_id := next_id s;
     db_fault_at := db_fault_at s; db_calls := S (db_calls s); llm := llm s |}.

(** [await db.execute(...)]: one round trip. *)
Definition db_call : M State unit :=
  fun s =>
    match db_fault_at s (db_calls s) with
    | Some e => (Raise e, tick_db s)
    | None => (Ok tt, tick_db s)
    end.

(** [db.add(chat_message)]; the row gets its key and [created_at] when the
    session is flushed at the end of the request. *)
Definition db_add (question answer : string) (sources : option (list LLM.SourceDocument))
    (processing_time : Q) (owner : Z) (now : Q) (s : State) : State :=
  {| chat_messages :=
       chat_messages s
         ++ [{| id := next_id s; question := question; answer := answer;
                sources := sources; processing_time := Some processing_time;
                created_at := now; user_id := owner |}];
     next_id := next_id s + 1;
     db_fault_at := db_fault_at s; db_calls := db_calls s;
     llm := llm s |}.

(** [await db.delete(msg)]: the row with that key goes when the session is
    flushed at the end of the request. *)
Definition db_delete (msg : ChatMessage) (s : State) : State :=
  {| chat_messages := List.filter (fun m => negb (id m =? id msg)) (chat_messages s);
     next_id := next_id s;
     db_fault_at := db_fault_at s; db_calls := db_calls s;
     llm := llm s |}.

(** [ORDER BY created_at DESC]: the rows from the latest to the earliest
    (rows created at the same instant in the order the table gives them). *)
Fixpoint insert_by_created_at (m : ChatMessage) (l : list ChatMessage) : list ChatMessage :=
  match l with
  | [] => [m]
  | y :: l' =>
      if Qle_bool (created_at y) (created_at m) then m :: l
      else y :: insert_by_created_at m l'
  end.

Definition newest_first (rows : list ChatMessage) : list ChatMessage :=
  fold_right insert_by_created_at [] rows.

(** [select(func.count()).select_from(ChatMessage)
     .where(ChatMessage.user_id == current_user.id)], [scalar()]. *)
Definition count_by_user (current_user_id : Z) : M State Z :=
  (db_call ;;;
   gets (fun s =>
     Z.of_nat (length (List.filter (fun m => user_id m =? current_user_id)
                         (chat_messages s)))))%py.

(** [select(ChatMessage).where(ChatMessage.user_id == current_user.id)
     .order_by(ChatMessage.created_at.desc()).offset(offset).limit(limit)],
    [scalars().all()]. *)
Definition select_page (current_user_id : Z) (offset limit : nat) : M State (list ChatMessage) :=
  (db_call ;;;
   gets (fun s =>
     firstn limit
       (skipn offset
          (newest_first
             (List.filter (fun m => user_id m =? current_user_id) (chat_messages s))))))%py.

(** [select(ChatMessage).where(ChatMessage.user_id == current_user.id)],
    [scalars().all()]. *)
Definition select_by_user (current_user_id : Z) : M State (list ChatMessage) :=
  (db_call ;;;
   gets (fun s =>
     List.filter (fun m => user_id m =? current_user_id) (chat_messages s)))%py.

(** [select(ChatMessage).where(ChatMessage.id == message_id,
     ChatMessage.user_id == current_user.id)], [scalar_one_or_none()]. *)
Definition select_owned (message_id current_user_id : Z) : M State (option ChatMessage) :=
  (db_call ;;;
   gets (fun s =>
     List.find (fun m => (id m =? message_id) && (user_id m =? current_user_id))
       (chat_messages s)))%py.

(** Truthiness of a list. *)
Definition nonempty {A} (l : list A) : bool :=
  match l with [] => false | _ => true end.

Section Routes.

Variable settings : Settings.
Variable distance : list Q -> list Q -> Q.
Variable embed_api : string -> result (list Q).
Variable invoke : LLM.ChatModel -> string -> string -> result string.

Local Open Scope py_scope.

Definition ask_question (request_question : string) (current_user_id : Z)
    : M State AskResponse :=
  try_exceptM
    (result <- zoom llm set_llm
                 (LLM.answer_question settings distance embed_api invoke
                    request_question current_user_id 5) ;;
     now <- zoom llm set_llm LLM.time ;;
     modify (db_add request_question (LLM.answer result)
               (if nonempty (LLM.sources result)
                then Some (LLM.sources result) else None)
               (LLM.processing_time result) current_user_id now) ;;;
     ret {| r_answer := LLM.answer result;
            r_sources := LLM.sources result;
            r_processing_time := LLM.processing_time result;
            r_question := LLM.question result |})
    (fun e =>
       raise (HTTPException 500 ("Failed to process question: " +:+ str_exn e))).

(** The conversion loop of [get_chat_history]. *)
Definition history_item (msg : ChatMessage) : ChatHistoryItem :=
  {| h_id := id msg;
     h_question := question msg;
     h_answer := answer msg;
     h_sources := match sources msg with
                  | Some (x :: rest) => Some (x :: rest)
                  | _ => None
                  end;
     h_processing_time := processing_time msg;
     h_created_at := created_at msg |}.

Definition get_chat_history (limit offset : nat) (current_user_id : Z)
    : M State ChatHistoryResponse :=
  total <- count_by_user current_user_id ;;
  messages <- select_page current_user_id offset limit ;;
  ret {| messages := map history_item messages; total := total |}.

Definition clear_chat_history (current_user_id : Z) : M State string :=
  messages <- select_by_user current_user_id ;;
  modify (fun s => fold_left (fun s' msg => db_delete msg s') messages s) ;;;
  ret ("Cleared " +:+ str_Z (Z.of_nat (length messages)) +:+ " messages from chat history").

Definition delete_chat_message (message_id current_user_id : Z) : M State string :=
  found <- select_owned message_id current_user_id ;;
  match found with
  | None => raise (HTTPException 404 "Message not found")
  | Some message =>
      modify (db_delete message) ;;;
      ret "Chat message deleted successfully"
  end.

End Routes.

End Chat.

(* ===================================================================== *)
(** * [app/api/routes/health.py]                                          *)
(* ===================================================================== *)

Module Health.
Import Config.

Record VectorStoreHealth : Type := {
  available : bool;
  total_embeddings : Z
}.

Record Services : Type := {
  llm : LLM.Health;
  vector_store : VectorStoreHealth
}.

Record ConfigReport : Type := {
  chunk_size : Z;
  chunk_overlap : Z;
  max_file_size_mb : Q;
  allowed_extensions : list string
}.

Record Basic : Type := {
  status : string;
  app_name : string;
  version : string
}.

Record Detailed : Type := {
  d_status : string;
  d_app_name : string;
  d_version : string;
  services : Services;
  config : ConfigReport
}.

Section Routes.

Variable settings : Settings.

(** [settings.APP_NAME] and [settings.APP_VERSION], which no service reads. *)
Variable APP_NAME : string.
Variable APP_VERSION : string.

Local Open Scope py_scope.

Definition health_check : Basic :=
  {| status := "healthy"; app_name := APP_NAME; version := APP_VERSION |}.

Definition detailed_health_check : M LLM.State Detailed :=
  llm_health <- LLM.health_check settings ;;
  vector_count <- zoom LLM.vector_store LLM.set_vector_store
                    (VectorStore.get_total_count settings) ;;
  ret {| d_status := "healthy";
         d_app_name := APP_NAME;
         d_version := APP_VERSION;
         services :=
           {| llm := llm_health;
              vector_store := {| available := true; total_embeddings := vector_count |} |};
         config :=
           {| chunk_size := CHUNK_SIZE settings;
              chunk_overlap := CHUNK_OVERLAP settings;
              max_file_size_mb :=
                (inject_Z (MAX_FILE_SIZE settings) / inject_Z (1024 * 1024))%Q;
              allowed_extensions := ALLOWED_EXTENSIONS settings |} |}.

End Routes.

End Health.

(* ===================================================================== *)
(** * Vocabulary of the statements                                        *)
(* ===================================================================== *)

(** The value the loop body appends for digest byte [b]. *)
Definition mock_component (b : byte) : Q :=
  (inject_Z (Sha256.Z_of_byte b) / 255 * 2 - 1)%Q.

(** The hit that [search] builds for an entry found at distance [fst de]. *)
Definition hit_of (de : Q * VectorStore.Entry) : VectorStore.Hit :=
  {| VectorStore.hit_id := VectorStore.id (snd de);
     VectorStore.content := VectorStore.document (snd de);
     VectorStore.hit_metadata := Some (VectorStore.metadata (snd de));
     VectorStore.relevance_score := Py.round (1 - fst de) 4 |}.

(** The raw result the index returns for the entries [found]. *)
Definition result_of (found : list (Q * VectorStore.Entry)) : VectorStore.QueryResult :=
  {| VectorStore.ids := [map (fun de => VectorStore.id (snd de)) found];
     VectorStore.documents := Some [map (fun de => VectorStore.document (snd de)) found];
     VectorStore.metadatas := Some [map (fun de => VectorStore.metadata (snd de)) found];
     VectorStore.distances := Some [map fst found] |}.

Definition ascending (l : list (Q * VectorStore.Entry)) : Prop :=
  StronglySorted (fun a b => (fst a <= fst b)%Q) l.

(** The entries that [search] asks the index for. *)
Definition found_by (distance : list Q -> list Q -> Q) (s : VectorStore.State)
    (q : list Q) (user_id n_results : Z) : list (Q * VectorStore.Entry) :=
  firstn
    (Z.to_nat (VectorStore.actual_n_results n_results
                 (Z.of_nat (length (VectorStore.collection s)))))
    (VectorStore.nearest_first distance q
       (List.filter (fun e => VectorStore.user_id (VectorStore.metadata e) =? user_id)
          (VectorStore.collection s))).

(** The requested count as the claim words it: the caller's count clamped
    to the number of indexed entries, with a minimum of 1 if any entry
    exists. *)
Definition claimed_n_results (n_results total_count : Z) : Z :=
  if 0 <? total_count then Z.max 1 (Z.min n_results total_count)
  else Z.min n_results total_count.

(** Computations of the vector store that do not read the clock. *)
Definition keeps_clock {A} (m : M VectorStore.State A) : Prop :=
  forall s r s',
    m s = (r, s') ->
    VectorStore.clock_at s' = VectorStore.clock_at s
    /\ VectorStore.clock_reads s' = VectorStore.clock_reads s.


(** The state in which the [try] block starts: the backend is chosen and
    the start time has been read. *)
Definition at_try (settings : Config.Settings) (s : LLM.State) : LLM.State :=
  LLM.set_vector_store (VectorStore.tick_clock (LLM.vector_store s))
    (LLM.set_service (LLM._ensure_initialized settings (LLM.service s)) s).

Definition is_valid_upload (settings : Config.Settings) (file : Documents.UploadFile) : bool :=
  fst (DocumentProcessor.validate_file settings (Documents.upload_filename file)
         (Z.of_nat (length (Documents.upload_body file)))).

(** The status changes one run of the task can write: the documented chain
    pending, processing, then completed or failed, and the direct step from
    pending to failed that is taken when the failure is recorded before
    [processing] could be written. *)
Definition task_step (a b : Documents.DocumentStatus) : bool :=
  match a, b with
  | Documents.PENDING, Documents.PROCESSING => true
  | Documents.PROCESSING, Documents.COMPLETED => true
  | Documents.PROCESSING, Documents.FAILED => true
  | Documents.PENDING, Documents.FAILED => true
  | _, _ => false
  end.

Fixpoint follows (from : Documents.DocumentStatus) (l : list Documents.DocumentStatus) : bool :=
  match l with
  | [] => true
  | x :: l' => task_step from x && follows x l'
  end.

Definition counts_zero_unless_completed (d : Documents.Document) : Prop :=
  Documents.status d = Documents.COMPLETED
  \/ (Documents.chunk_count d = 0 /\ Documents.embedding_count d = 0).

(** The row a failed run leaves behind. *)
Definition failed_with (msg : string) (d : Documents.Document) : Documents.Document :=
  Documents.with_error_message (Some msg) (Documents.with_status Documents.FAILED d).

(** The row of a pending document after one run of the task on a database
    that answers every call. *)
Definition ingested (settings : Config.Settings)
    (text_splitter : Z -> Z -> string -> list string)
    (pdf_pages : list byte -> result (list string))
    (embed_api : string -> result (list Q))
    (document_id : Z) (file_path file_type : string)
    (user_id : Z) (document_name : string)
    (s : Documents.State) (d : Documents.Document) : Documents.Document :=
  match DocumentProcessor.extract_text pdf_pages file_path file_type (Documents.storage s) with
  | Raise e => failed_with (str_exn e) d
  | Ok text =>
      if negb (truthy (strip text))
      then failed_with "No text content could be extracted from the file" d
      else
        match DocumentProcessor.split_text settings text_splitter text with
        | [] => failed_with "Failed to split document into chunks" d
        | c :: chunks =>
            match VectorStore.add_documents settings embed_api (c :: chunks)
                    document_id document_name user_id (Documents.vector_store s) with
            | (Raise e, _) => failed_with (str_exn e) d
            | (Ok embedding_count, vs') =>
                Documents.with_processed_at
                  (Some (VectorStore.clock_at vs' (VectorStore.clock_reads vs')))
                  (Documents.with_content_preview
                     (Some (DocumentProcessor.get_content_preview text))
                     (Documents.with_counts (Z.of_nat (length (c :: chunks))) embedding_count
                        (Documents.with_status Documents.COMPLETED d)))
            end
        end
  end.

(** ** Characters

    A string made of continuation bytes only, a string that does not start
    in the middle of a character, and a list of characters as [chars]
    yields them: each a first byte followed by continuation bytes, and each
    but the first starting with a byte that is not a continuation byte. *)
Fixpoint continuation_only (s : string) : bool :=
  match s with
  | EmptyString => true
  | String c s' => is_continuation c && continuation_only s'
  end.

Definition headed (s : string) : Prop :=
  match s with
  | String c _ => is_continuation c = false
  | EmptyString => True
  end.

Definition shaped (l : list string) : Prop :=
  Forall (fun ch => match ch with
                    | String _ t => continuation_only t = true
                    | EmptyString => False
                    end) l
  /\ Forall (fun ch => match ch with
                       | String c _ => is_continuation c = false
                       | EmptyString => False
                       end) (tl l).

(** The characters that are left once the white space at the end is gone. *)
Definition drop_spaces_right (l : list string) : list string :=
  rev (drop_spaces (rev l)).

(** ** Reading decimal numbers back

    The value of a digit character, and of a string of digits read after
    the value [acc]. *)
Definition digit_value (c : ascii) : Z := Z.of_nat (nat_of_ascii c) - 48.

Fixpoint decimal_value (acc : Z) (s : string) : Z :=
  match s with
  | EmptyString => acc
  | String c s' => decimal_value (10 * acc + digit_value c) s'
  end.

(** The characters that [str] of an integer is made of. *)
Definition is_digit (c : ascii) : bool :=
  let n := nat_of_ascii c in ((48 <=? n) && (n <=? 57))%nat.

Fixpoint all_chars (p : ascii -> bool) (s : string) : bool :=
  match s with
  | EmptyString => true
  | String c s' => p c && all_chars p s'
  end.

Definition is_sign_or_digit (c : ascii) : bool := Ascii.eqb c "-" || is_digit c.

(** The text before the first underscore, and the text after it. *)
Fixpoint before_underscore (s : string) : string :=
  match s with
  | EmptyString => EmptyString
  | String c s' => if Ascii.eqb c "_" then EmptyString else String c (before_underscore s')
  end.

Fixpoint after_underscore (s : string) : string :=
  match s with
  | EmptyString => EmptyString
  | String c s' => if Ascii.eqb c "_" then s' else after_underscore s'
  end.

(** Reading back what [str] renders. *)
Definition int_of_str (s : string) : Z :=
  match s with
  | String "-" s' => - decimal_value 0 s'
  | _ => decimal_value 0 s
  end.

(** Computations of the vector store that leave the collection alone. *)
Definition keeps_collection {A} (m : M VectorStore.State A) : Prop :=
  forall s r s', m s = (r, s') -> VectorStore.collection s' = VectorStore.collection s.

(** The answer given without a backend when nothing was retrieved. *)
Definition no_information_text : string :=
  "I don't have any relevant information in the uploaded documents to answer your question. Please upload documents that contain information related to your query.".

(** The messages of one page of a user's history (none when the session
    fails). *)
Definition history_page (limit offset : nat) (current_user_id : Z) (s : Chat.State)
    : list Chat.ChatHistoryItem :=
  match fst (Chat.get_chat_history limit offset current_user_id s) with
  | Ok response => Chat.messages response
  | Raise _ => []
  end.

(** The stored messages of one user, oldest first. *)
Definition history_of (current_user_id : Z) (s : Chat.State) : list Chat.ChatMessage :=
  List.filter (fun m => Chat.user_id m =? current_user_id) (Chat.chat_messages s).

(** The sum of a list of counts. *)
Definition total_of (xs : list Z) : Z := fold_right Z.add 0 xs.

(** A response that shows a document on which no ingestion has run. *)
Definition untouched (r : Documents.DocumentResponse) : Prop :=
  Documents.r_status r = "pending"
  /\ Documents.r_chunk_count r = 0
  /\ Documents.r_embedding_count r = 0
  /\ Documents.r_content_preview r = None
  /\ Documents.r_processed_at r = None
  /\ Documents.r_error_message r = None.

(* ===================================================================== *)
(** * Scenarios: concrete deployments the statements are run on           *)
(* ===================================================================== *)

(** The default settings with the provider and the two keys replaced. *)
Definition settings_with (provider anthropic_key openai_key : string) : Config.Settings :=
  {| Config.LLM_PROVIDER := provider;
     Config.OPENAI_API_KEY := openai_key;
     Config.OPENAI_MODEL := "gpt-3.5-turbo";
     Config.OPENAI_EMBEDDING_MODEL := "text-embedding-3-small";
     Config.ANTHROPIC_API_KEY := anthropic_key;
     Config.ANTHROPIC_MODEL := "claude-haiku-4-5-20251001";
     Config.VECTOR_STORE_PATH := "./vector_store";
     Config.CHUNK_SIZE := 1000;
     Config.CHUNK_OVERLAP := 200;
     Config.UPLOAD_DIR := "./uploads";
     Config.MAX_FILE_SIZE := 10 * 1024 * 1024;
     Config.ALLOWED_EXTENSIONS := [".txt"; ".pdf"] |}.

(** Anthropic is configured (in capitals) but only the OpenAI key is set. *)
Definition openai_only_settings : Config.Settings :=
  settings_with "Anthropic" EmptyString "sk-test".

(** Anthropic is configured and its key is set. *)
Definition anthropic_settings : Config.Settings :=
  settings_with "anthropic" "sk-ant-test" EmptyString.

(** The [FileNotFoundError] for a path that [repr] only has to put between
    quotes. *)
Definition no_such_file (path : string) : exn :=
  Exception ("[Errno 2] No such file or directory: '" +:+ path +:+ "'").

(** An empty upload directory on which every write succeeds. *)
Definition empty_storage : DocumentProcessor.Storage :=
  {| DocumentProcessor.files := ∅;
     DocumentProcessor.missing_file := no_such_file;
     DocumentProcessor.write_fault := fun _ => None;
     DocumentProcessor.writes := 0;
     DocumentProcessor.uuid4_hex := fun k =>
       "9f1c2d3e4b5a69788796a5b4c3d2e1f" +:+ str_Z (Z.of_nat k mod 10);
     DocumentProcessor.uuids_drawn := 0 |}.

(** The cosine distance of two unit vectors is one minus their dot product
    (kept in lowest terms). *)
Fixpoint dot (a b : list Q) : Q :=
  match a, b with
  | x :: a', y :: b' => Qred (x * y + dot a' b')%Q
  | _, _ => 0%Q
  end.

(** Outside unit vectors the value is cut to the range of a cosine
    distance, so that the function is a distance of the kind the index
    computes on every input. *)
Definition unit_cosine_distance (a b : list Q) : Q :=
  let d := Qred (1 - dot a b)%Q in
  if Qle_bool d 0 then 0%Q else if Qle_bool 2 d then 2%Q else d.

Definition unreachable_embed_api (text : string) : result (list Q) :=
  Raise (Exception "Connection error.").

Definition unreachable_llm (m : LLM.ChatModel) (system human : string) : result string :=
  Raise (Exception "Connection error.").

(** An empty collection, an index client that never fails, a clock that
    advances a quarter of a second per reading. *)
Definition empty_index : VectorStore.State :=
  {| VectorStore._initialized := false;
     VectorStore._embeddings := false;
     VectorStore.collection := [];
     VectorStore.fault_at := fun _ => None;
     VectorStore.calls := 0;
     VectorStore.requests := [];
     VectorStore.clock_at := fun k => (inject_Z (Z.of_nat k) / 4)%Q;
     VectorStore.clock_reads := 0 |}.

Definition fresh_llm : LLM.State :=
  {| LLM.service := LLM.new_service; LLM.vector_store := empty_index |}.

Definition fresh_chat : Chat.State :=
  {| Chat.chat_messages := []; Chat.next_id := 1;
     Chat.db_fault_at := fun _ => None; Chat.db_calls := 0;
     Chat.llm := fresh_llm |}.

Definition first_turn : result Chat.AskResponse * Chat.State :=
  Chat.ask_question Config.default_settings unit_cosine_distance
    unreachable_embed_api unreachable_llm "What is in my documents?" 7 fresh_chat.

Definition no_information_response : Chat.AskResponse :=
  {| Chat.r_answer := "I don't have any relevant information in the uploaded documents to answer your question. Please upload documents that contain information related to your query.";
     Chat.r_sources := [];
     Chat.r_processing_time := (1 # 4)%Q;
     Chat.r_question := "What is in my documents?" |}.

Definition report_row : Documents.Document :=
  {| Documents.id := 1;
     Documents.filename := "9f1c2d3e4b5a69788796a5b4c3d2e1f0.txt";
     Documents.original_filename := "report.txt";
     Documents.file_path := "./uploads/9f1c2d3e4b5a69788796a5b4c3d2e1f0.txt";
     Documents.file_type := ".txt";
     Documents.file_size := 58;
     Documents.status := Documents.COMPLETED;
     Documents.chunk_count := 1;
     Documents.embedding_count := 1;
     Documents.content_preview := Some "Quarterly revenue grew by twelve percent.";
     Documents.error_message := None;
     Documents.created_at := 100%Q;
     Documents.processed_at := Some 101%Q;
     Documents.user_id := 7 |}.

Definition running_index : VectorStore.State :=
  {| VectorStore._initialized := true;
     VectorStore._embeddings := false;
     VectorStore.collection :=
       [{| VectorStore.id := "doc_1_chunk_0";
           VectorStore.document := "Quarterly revenue grew by twelve percent.";
           VectorStore.embedding := [1%Q; 0%Q];
           VectorStore.metadata :=
             {| VectorStore.document_id := 1; VectorStore.document_name := "report.txt";
                VectorStore.user_id := 7; VectorStore.chunk_index := 0;
                VectorStore.created_at := 101%Q |} |}];
     VectorStore.fault_at := fun _ => None;
     VectorStore.calls := 1;
     VectorStore.requests := [VectorStore.Open "./vector_store"];
     VectorStore.clock_at := fun k => (inject_Z (Z.of_nat k) / 4)%Q;
     VectorStore.clock_reads := 0 |}.

Definition one_report : Documents.State :=
  {| Documents.documents := {[ 1 := report_row ]};
     Documents.next_id := 2;
     Documents.journal := [];
     Documents.db_fault_at := fun _ => None;
     Documents.db_calls := 0;
     Documents.storage := empty_storage;
     Documents.vector_store := running_index;
     Documents.background_tasks := [] |}.

Definition chunk (chunk_id text : string) (v : list Q) (doc owner idx : Z) : VectorStore.Entry :=
  {| VectorStore.id := chunk_id;
     VectorStore.document := text;
     VectorStore.embedding := v;
     VectorStore.metadata :=
       {| VectorStore.document_id := doc; VectorStore.document_name := "notes.txt";
          VectorStore.user_id := owner; VectorStore.chunk_index := idx;
          VectorStore.created_at := 101%Q |} |}.

(** Unit vectors at growing angles from the query embedding [(3/5, 4/5)];
    the last chunk of user 7 points the opposite way, and user 8 owns the
    chunk nearest to the query. *)
Definition shared_index : VectorStore.State :=
  {| VectorStore._initialized := true;
     VectorStore._embeddings := true;
     VectorStore.collection :=
       [chunk "doc_1_chunk_0" "opposite" [(-3 # 5)%Q; (-4 # 5)%Q] 1 7 0;
        chunk "doc_1_chunk_1" "close" [(4 # 5)%Q; (3 # 5)%Q] 1 7 1;
        chunk "doc_2_chunk_0" "same" [(3 # 5)%Q; (4 # 5)%Q] 2 8 0;
        chunk "doc_1_chunk_2" "orthogonal" [(-4 # 5)%Q; (3 # 5)%Q] 1 7 2];
     VectorStore.fault_at := fun _ => None;
     VectorStore.calls := 1;
     VectorStore.requests := [VectorStore.Open "./vector_store"];
     VectorStore.clock_at := fun k => (inject_Z (Z.of_nat k) / 4)%Q;
     VectorStore.clock_reads := 0 |}.

Definition fixed_embed_api (text : string) : result (list Q) :=
  Ok [(3 # 5)%Q; (4 # 5)%Q].

Definition shared_search (n_results : Z) : result (list VectorStore.Hit) * VectorStore.State :=
  VectorStore.search openai_only_settings unit_cosine_distance fixed_embed_api
    "what changed?" 7 n_results shared_index.

(** An index whose client cannot be created. *)
Definition broken_index : VectorStore.State :=
  {| VectorStore._initialized := false;
     VectorStore._embeddings := false;
     VectorStore.collection := [];
     VectorStore.fault_at := fun _ => Some (Exception "unable to open database file");
     VectorStore.calls := 0;
     VectorStore.requests := [];
     VectorStore.clock_at := fun k => (inject_Z (Z.of_nat k) / 4)%Q;
     VectorStore.clock_reads := 0 |}.

Definition broken_llm : LLM.State :=
  {| LLM.service := LLM.new_service; LLM.vector_store := broken_index |}.

Definition fresh_documents : Documents.State :=
  {| Documents.documents := ∅;
     Documents.next_id := 1;
     Documents.journal := [];
     Documents.db_fault_at := fun _ => None;
     Documents.db_calls := 0;
     Documents.storage := empty_storage;
     Documents.vector_store := empty_index;
     Documents.background_tasks := [] |}.

Definition notes_txt : Documents.UploadFile :=
  {| Documents.upload_filename := "notes.txt";
     Documents.upload_body := list_byte_of_string "Quarterly revenue grew." |}.

Definition slides_docx : Documents.UploadFile :=
  {| Documents.upload_filename := "slides.docx";
     Documents.upload_body := list_byte_of_string "PK" |}.



(** A splitter that keeps a short text as one chunk, and a PDF reader that
    rejects everything it is given. *)
Definition one_chunk_splitter (chunk_size chunk_overlap : Z) (text : string) : list string :=
  [text].

Definition rejecting_pdf_reader (content : list byte) : result (list string) :=
  Raise (Exception "EOF marker not found").

Definition after_upload : Documents.State :=
  snd (Documents.upload_documents Config.default_settings [notes_txt] 7 fresh_documents).

Definition run_notes_task (s : Documents.State) : result unit * Documents.State :=
  Documents.process_document_background Config.default_settings one_chunk_splitter
    rejecting_pdf_reader unreachable_embed_api
    1 "./uploads/9f1c2d3e4b5a69788796a5b4c3d2e1f0.txt" ".txt" 7 "notes.txt" s.

(** A splitter that produces no chunk at all. *)
Definition dropping_splitter (chunk_size chunk_overlap : Z) (text : string) : list string :=
  [].

Definition run_notes_task_dropping (s : Documents.State) : result unit * Documents.State :=
  Documents.process_document_background Config.default_settings dropping_splitter
    rejecting_pdf_reader unreachable_embed_api
    1 "./uploads/9f1c2d3e4b5a69788796a5b4c3d2e1f0.txt" ".txt" 7 "notes.txt" s.

(** The uploaded document when the stored file holds only blanks, when the
    stored file is gone, and when the index cannot be opened. *)
Definition blank_file_stored : Documents.State :=
  Documents.set_storage
    {| DocumentProcessor.files :=
         {[ "./uploads/9f1c2d3e4b5a69788796a5b4c3d2e1f0.txt" := list_byte_of_string "    " ]};
       DocumentProcessor.missing_file := no_such_file;
       DocumentProcessor.write_fault := fun _ => None;
       DocumentProcessor.writes := 1;
       DocumentProcessor.uuid4_hex := DocumentProcessor.uuid4_hex empty_storage;
       DocumentProcessor.uuids_drawn := 1 |}
    after_upload.

Definition stored_file_gone : Documents.State :=
  Documents.set_storage empty_storage after_upload.

Definition index_down : Documents.State :=
  Documents.set_vector_store broken_index after_upload.

Definition pending_notes : Documents.Document :=
  {| Documents.id := 1;
     Documents.filename := "9f1c2d3e4b5a69788796a5b4c3d2e1f0.txt";
     Documents.original_filename := "notes.txt";
     Documents.file_path := "./uploads/9f1c2d3e4b5a69788796a5b4c3d2e1f0.txt";
     Documents.file_type := ".txt";
     Documents.file_size := 23;
     Documents.status := Documents.PENDING;
     Documents.chunk_count := 0;
     Documents.embedding_count := 0;
     Documents.content_preview := None;
     Documents.error_message := None;
     Documents.created_at := (0 # 4)%Q;
     Documents.processed_at := None;
     Documents.user_id := 7 |}.

(** The row is pending, the stored file is gone, and the database answers
    the first two calls of the run and then reports that it is locked. *)
Definition locking_documents : Documents.State :=
  {| Documents.documents := {[ 1 := pending_notes ]};
     Documents.next_id := 2;
     Documents.journal := [pending_notes];
     Documents.db_fault_at := fun k =>
       if (k <? 2)%nat then None else Some (Exception "database is locked");
     Documents.db_calls := 0;
     Documents.storage := empty_storage;
     Documents.vector_store := empty_index;
     Documents.background_tasks := [] |}.

Definition report_on_disk : Documents.State :=
  Documents.set_storage
    {| DocumentProcessor.files :=
         {[ "./uploads/9f1c2d3e4b5a69788796a5b4c3d2e1f0.txt"
            := list_byte_of_string "Quarterly revenue grew by twelve percent." ]};
       DocumentProcessor.missing_file := no_such_file;
       DocumentProcessor.write_fault := fun _ => None;
       DocumentProcessor.writes := 1;
       DocumentProcessor.uuid4_hex := DocumentProcessor.uuid4_hex empty_storage;
       DocumentProcessor.uuids_drawn := 1 |}
    one_report.

Definition reprocessed_twice_then_run : Documents.State :=
  let reprocess := Documents.reprocess_document Config.default_settings 1 7 in
  let run := Documents.run_next_task Config.default_settings one_chunk_splitter
               rejecting_pdf_reader unreachable_embed_api in
  snd (run (snd (run (snd (reprocess (snd (reprocess report_on_disk))))))).

(** The processed report when the index cannot be opened. *)
Definition report_index_down : Documents.State :=
  Documents.set_vector_store broken_index one_report.

(** A text of 600 characters. *)
Definition long_text : string := string_of_list_ascii (List.repeat "a"%char 600).

(** A text of 300 times the letter e with an acute accent, which UTF-8
    encodes in two bytes. *)
Definition accented_text : string :=
  of_chars (List.repeat (String (ascii_of_nat 195) (String (ascii_of_nat 169) EmptyString)) 300).

(** An upload directory with a text file that has blanks around its text
    and one that has a letter between two no-break spaces. *)
Definition padded_notes : DocumentProcessor.Storage :=
  {| DocumentProcessor.files :=
       {[ "./uploads/notes.txt" := list_byte_of_string "   Quarterly revenue grew.  ";
          "./uploads/nbsp.txt" := [xc2; xa0; x61; xc2; xa0] ]};
     DocumentProcessor.missing_file := no_such_file;
     DocumentProcessor.write_fault := fun _ => None;
     DocumentProcessor.writes := 1;
     DocumentProcessor.uuid4_hex := DocumentProcessor.uuid4_hex empty_storage;
     DocumentProcessor.uuids_drawn := 1 |}.

(** A stored turn of the conversation of user [owner]. *)
Definition turn (key : Z) (question : string) (owner : Z) (asked_at : Q) : Chat.ChatMessage :=
  {| Chat.id := key;
     Chat.question := question;
     Chat.answer := "I encountered an error while processing your question: Connection error.. Please try again.";
     Chat.sources := None;
     Chat.processing_time := Some (1 # 4)%Q;
     Chat.created_at := asked_at;
     Chat.user_id := owner |}.

(** Two questions of user 7 around one of user 8. *)
Definition two_user_chat : Chat.State :=
  {| Chat.chat_messages :=
       [turn 1 "What changed?" 7 10%Q; turn 2 "Who signed?" 8 11%Q;
        turn 3 "When is it due?" 7 12%Q];
     Chat.next_id := 4;
     Chat.db_fault_at := fun _ => None;
     Chat.db_calls := 0;
     Chat.llm := fresh_llm |}.

(** The same table behind a database that is locked. *)
Definition chat_database_down : Chat.State :=
  {| Chat.chat_messages := Chat.chat_messages two_user_chat;
     Chat.next_id := 4;
     Chat.db_fault_at := fun _ => Some (Exception "database is locked");
     Chat.db_calls := 0;
     Chat.llm := fresh_llm |}.

(** A fourth turn of user 7, stored while the clock was set back. *)
Definition chat_clock_set_back : Chat.State :=
  {| Chat.chat_messages :=
       Chat.chat_messages two_user_chat ++ [turn 4 "And before that?" 7 5%Q];
     Chat.next_id := 5;
     Chat.db_fault_at := fun _ => None;
     Chat.db_calls := 0;
     Chat.llm := fresh_llm |}.

(** A service that has not yet chosen its backend, over the running index. *)
Definition running_llm : LLM.State :=
  {| LLM.service := LLM.new_service; LLM.vector_store := running_index |}.

(* ===================================================================== *)
(** * Facts about the runtime fragments                                   *)
(* ===================================================================== *)

Ltac compare_facts :=
  repeat match goal with
         | H : Qcompare _ _ = Eq |- _ => apply Qeq_alt in H
         | H : Qcompare _ _ = Lt |- _ => apply Qlt_alt in H
         | H : Qcompare _ _ = Gt |- _ => apply Qgt_alt in H
         end.

Section RoundFacts.

Local Open Scope Q_scope.

Lemma round_half_even_floor (x : Q) :
  (round_half_even x = Qfloor x \/ round_half_even x = Qfloor x + 1)%Z.
Proof.
  unfold round_half_even.
  destruct (Qcompare (x - inject_Z (Qfloor x)) (1 # 2)); auto.
  destruct (Z.even (Qfloor x)); auto.
Qed.

Lemma round_half_even_mono (x y : Q) :
  x <= y -> (round_half_even x <= round_half_even y)%Z.
Proof.
  intros Hxy.
  pose proof (Qfloor_resp_le x y Hxy) as Hfl.
  destruct (Z.eq_dec (Qfloor x) (Qfloor y)) as [Heq | Hne].
  - unfold round_half_even. rewrite <- Heq.
    destruct (Qcompare (x - inject_Z (Qfloor x)) (1 # 2)) eqn:Cx;
      destruct (Qcompare (y - inject_Z (Qfloor x)) (1 # 2)) eqn:Cy;
      try (destruct (Z.even (Qfloor x))); try lia; exfalso;
      compare_facts; lra.
  - destruct (round_half_even_floor x), (round_half_even_floor y); lia.
Qed.

Lemma round_half_even_inject (k : Z) : round_half_even (inject_Z k) = k.
Proof.
  unfold round_half_even. rewrite Qfloor_Z.
  destruct (Qcompare (inject_Z k - inject_Z k) (1 # 2)) eqn:C;
    [exfalso; compare_facts; lra | reflexivity | exfalso; compare_facts; lra].
Qed.

Lemma pow10_pos (n : nat) : (0 < pow10 n)%Z.
Proof. unfold pow10. apply Z.pow_pos_nonneg; lia. Qed.

(** [round] does not reorder its arguments. *)
Lemma round_mono (x y : Q) (nd : nat) : x <= y -> Py.round x nd <= Py.round y nd.
Proof.
  intros Hxy. unfold Py.round. apply Qred_le.
  unfold Qle; simpl. apply Z.mul_le_mono_nonneg_r; [lia |].
  apply round_half_even_mono.
  apply Qmult_le_compat_r; [exact Hxy |].
  pose proof (pow10_pos nd). unfold Qle; simpl. lia.
Qed.

(** An integer is a fixed point of [round]. *)
Lemma round_inject (k : Z) (nd : nat) : Py.round (inject_Z k) nd == inject_Z k.
Proof.
  unfold Py.round. rewrite Qred_correct.
  assert (inject_Z k * inject_Z (pow10 nd) == inject_Z (k * pow10 nd)) as E
    by (rewrite inject_Z_mult; reflexivity).
  unfold round_half_even. rewrite (Qfloor_comp _ _ E), E.
  fold (round_half_even (inject_Z (k * pow10 nd))).
  rewrite round_half_even_inject.
  pose proof (pow10_pos nd).
  unfold Qeq; simpl. rewrite Z2Pos.id by assumption. ring.
Qed.

Lemma round_between (lo hi : Z) (x : Q) (nd : nat) :
  inject_Z lo <= x <= inject_Z hi ->
  inject_Z lo <= Py.round x nd <= inject_Z hi.
Proof.
  intros [Hlo Hhi]. split.
  - rewrite <- (round_inject lo nd). apply round_mono; assumption.
  - rewrite <- (round_inject hi nd). apply round_mono; assumption.
Qed.

End RoundFacts.

(* ===================================================================== *)
(** * The mock embedding                                                  *)
(* ===================================================================== *)

(** The digests [hashlib] gives for the empty text and for a text of more
    than one block. *)
Example sha256_empty :
  map Sha256.Z_of_byte (Sha256.digest [])
  = [227; 176; 196; 66; 152; 252; 28; 20; 154; 251; 244; 200; 153; 111; 185; 36;
     39; 174; 65; 228; 100; 155; 147; 76; 164; 149; 153; 27; 120; 82; 184; 85].
Proof. vm_compute. reflexivity. Qed.

Example sha256_two_blocks :
  map Sha256.Z_of_byte
    (Sha256.digest (list_byte_of_string
       "The quick brown fox jumps over the lazy dog, and then the quick brown fox jumps over it again!"))
  = [108; 27; 82; 210; 2; 218; 71; 150; 200; 222; 43; 77; 82; 251; 66; 63;
     119; 0; 148; 42; 9; 137; 235; 200; 182; 158; 142; 122; 167; 120; 176; 175].
Proof. vm_compute. reflexivity. Qed.

Lemma digest_length (data : list byte) : length (Sha256.digest data) = 32%nat.
Proof.
  unfold Sha256.digest.
  set (h := Sha256.blocks _ _ _). clearbody h.
  rewrite !length_app. unfold Sha256.word_bytes. rewrite !length_map.
  reflexivity.
Qed.

Lemma Z_of_byte_range (b : byte) : 0 <= Sha256.Z_of_byte b <= 255.
Proof.
  unfold Sha256.Z_of_byte. pose proof (Byte.to_N_bounded b). lia.
Qed.

Lemma mock_component_range (b : byte) : (-1 <= mock_component b <= 1)%Q.
Proof.
  unfold mock_component. pose proof (Z_of_byte_range b) as Hb.
  set (z := Sha256.Z_of_byte b) in *. clearbody z.
  unfold Qle, Qminus, Qplus, Qmult, Qdiv, Qinv, Qopp, inject_Z; simpl.
  lia.
Qed.

(** An accumulating [append] loop builds the list of the appended values. *)
Lemma append_loop_map {A B} (f : A -> B) (xs : list A) (acc : list B) :
  fold_left (fun embedding i => embedding ++ [f i]) xs acc = acc ++ map f xs.
Proof.
  revert acc. induction xs as [| x xs IH]; intros acc; simpl.
  - now rewrite app_nil_r.
  - rewrite IH. now rewrite <- app_assoc.
Qed.

Lemma mock_embedding_unfold (text : string) :
  VectorStore._get_mock_embedding text
  = map (fun i => mock_component
                    (nth (i mod 32) (Sha256.digest (list_byte_of_string text)) x00))
        (seq 0 1536).
Proof.
  unfold VectorStore._get_mock_embedding.
  rewrite digest_length.
  exact (append_loop_map
           (fun i => mock_component
                       (nth (i mod 32) (Sha256.digest (list_byte_of_string text)) x00))
           (seq 0 1536) []).
Qed.

(** C6.  The mock embedding of a text is a function of the text alone (it
    takes no state and reads no clock): it has exactly 1,536 components,
    component [i] is [(digest_byte[i mod 32] / 255) * 2 - 1] for the 32-byte
    SHA-256 digest of the text, every component lies in [-1, 1], and equal
    texts give equal vectors. *)
Theorem mock_embedding_deterministic_1536 (text : string) :
  let digest := Sha256.digest (list_byte_of_string text) in
  length digest = 32%nat
  /\ VectorStore._get_mock_embedding text
     = map (fun i => (inject_Z (Sha256.Z_of_byte (nth (i mod length digest) digest x00))
                        / 255 * 2 - 1)%Q)
           (seq 0 1536)
  /\ length (VectorStore._get_mock_embedding text) = 1536%nat
  /\ Forall (fun c => (-1 <= c <= 1)%Q) (VectorStore._get_mock_embedding text)
  /\ (forall text', text' = text ->
        VectorStore._get_mock_embedding text' = VectorStore._get_mock_embedding text).
Proof.
  cbv zeta. split; [| split; [| split; [| split]]].
  - apply digest_length.
  - rewrite digest_length. apply mock_embedding_unfold.
  - rewrite mock_embedding_unfold, length_map, length_seq. reflexivity.
  - rewrite mock_embedding_unfold. apply List.Forall_forall. intros c Hc.
    apply in_map_iff in Hc. destruct Hc as [i [<- _]].
    apply mock_component_range.
  - intros text' ->. reflexivity.
Qed.

(** The first four components for the text [abc], whose digest starts with
    the bytes 186, 120, 22, 191. *)
Example mock_embedding_abc :
  firstn 4 (VectorStore._get_mock_embedding "abc")
  = [(inject_Z 186 / 255 * 2 - 1)%Q; (inject_Z 120 / 255 * 2 - 1)%Q;
     (inject_Z 22 / 255 * 2 - 1)%Q; (inject_Z 191 / 255 * 2 - 1)%Q].
Proof. vm_compute. reflexivity. Qed.

(** For the text [abc]: the length, the first four components, the range,
    and the same vector for the same text put together from two parts. *)
Lemma mock_embedding_deterministic_1536_witness :
  length (VectorStore._get_mock_embedding "abc") = 1536%nat
  /\ firstn 4 (VectorStore._get_mock_embedding "abc")
     = [(inject_Z 186 / 255 * 2 - 1)%Q; (inject_Z 120 / 255 * 2 - 1)%Q;
        (inject_Z 22 / 255 * 2 - 1)%Q; (inject_Z 191 / 255 * 2 - 1)%Q]
  /\ Forall (fun c => (-1 <= c <= 1)%Q) (VectorStore._get_mock_embedding "abc")
  /\ VectorStore._get_mock_embedding ("a" +:+ "bc") = VectorStore._get_mock_embedding "abc".
Proof.
  pose proof (mock_embedding_deterministic_1536 "abc") as H. cbv zeta in H.
  destruct H as (_ & Hformula & Hlength & Hrange & Hsame).
  split; [exact Hlength |].
  split; [rewrite Hformula; vm_compute; reflexivity |].
  split; [exact Hrange |].
  apply Hsame. reflexivity.
Defined.

(* ===================================================================== *)
(** * Backend selection                                                   *)
(* ===================================================================== *)





(* ===================================================================== *)
(** * File names and extensions                                           *)
(* ===================================================================== *)

Section LowerFacts.



Lemma lower_ascii_idem (c : ascii) : lower_ascii (lower_ascii c) = lower_ascii c.
Proof. destruct c as [[] [] [] [] [] [] [] []]; reflexivity. Qed.

Lemma lower_idem (s : string) : lower (lower s) = lower s.
Proof.
  induction s as [| c s IH]; simpl; [reflexivity |].
  now rewrite lower_ascii_idem, IH.
Qed.












End LowerFacts.

Lemma existsb_eqb_In (x : string) (l : list string) :
  existsb (String.eqb x) l = true <-> In x l.
Proof.
  rewrite existsb_exists. split.
  - intros [y [Hy E]]. apply String.eqb_eq in E. now subst.
  - intros H. exists x. split; [assumption | apply String.eqb_refl].
Qed.



Example save_file_upper_case :
  fst (DocumentProcessor.save_file Config.default_settings [x68; x69] "FILE.TXT" empty_storage)
  = Ok ("9f1c2d3e4b5a69788796a5b4c3d2e1f0.txt",
        "./uploads/9f1c2d3e4b5a69788796a5b4c3d2e1f0.txt").
Proof. vm_compute. reflexivity. Qed.

(* ===================================================================== *)
(** * Chat history                                                        *)
(* ===================================================================== *)

Section ChatFacts.

Variable settings : Config.Settings.
Variable distance : list Q -> list Q -> Q.
Variable embed_api : string -> result (list Q).
Variable invoke : LLM.ChatModel -> string -> string -> result string.

(** What [ask_question] does to the table when it answers: the session is
    not asked anything. *)
Lemma ask_question_ok (request_question : string) (current_user_id : Z)
    (s s' : Chat.State) (resp : Chat.AskResponse) :
  Chat.ask_question settings distance embed_api invoke request_question current_user_id s
  = (Ok resp, s') ->
  exists m,
    Chat.chat_messages s' = Chat.chat_messages s ++ [m]
    /\ Chat.question m = request_question
    /\ Chat.answer m = Chat.r_answer resp
    /\ Chat.user_id m = current_user_id
    /\ Chat.sources m
       = (if Chat.nonempty (Chat.r_sources resp) then Some (Chat.r_sources resp) else None).
Proof.
  unfold Chat.ask_question, try_exceptM, bindM, zoom, modify, ret, raise.
  destruct (LLM.answer_question _ _ _ _ _ _ _ (Chat.llm s)) as [[a | e] l'];
    simpl; [| discriminate].
  destruct (LLM.time (Chat.llm (Chat.set_llm l' s))) as [[now | e] l''] eqn:T;
    simpl; [| discriminate].
  intros H. injection H as <- <-. simpl.
  eexists. repeat split.
Qed.

(** ** The order of the history *)

Lemma chat_insert_perm (m : Chat.ChatMessage) (l : list Chat.ChatMessage) :
  Permutation (Chat.insert_by_created_at m l) (m :: l).
Proof.
  induction l as [| y l IH]; simpl; [reflexivity |].
  destruct (Qle_bool (Chat.created_at y) (Chat.created_at m)); [reflexivity |].
  rewrite IH. apply perm_swap.
Qed.

Lemma chat_newest_first_perm (l : list Chat.ChatMessage) :
  Permutation (Chat.newest_first l) l.
Proof.
  unfold Chat.newest_first. induction l as [| m l IH]; simpl; [reflexivity |].
  rewrite chat_insert_perm. apply perm_skip. exact IH.
Qed.

Lemma chat_insert_sorted (m : Chat.ChatMessage) (l : list Chat.ChatMessage) :
  StronglySorted (fun a b => (Chat.created_at b <= Chat.created_at a)%Q) l ->
  StronglySorted (fun a b => (Chat.created_at b <= Chat.created_at a)%Q)
    (Chat.insert_by_created_at m l).
Proof.
  induction l as [| y l IH]; intros Hl; simpl.
  - constructor; constructor.
  - destruct (Qle_bool (Chat.created_at y) (Chat.created_at m)) eqn:E.
    + apply Qle_bool_iff in E. constructor; [assumption |].
      constructor; [exact E |].
      inversion Hl as [| ? ? _ Hall]; subst.
      eapply List.Forall_impl; [| exact Hall].
      intros a Ha. simpl in Ha. eapply Qle_trans; eassumption.
    + inversion Hl as [| ? ? Hs Hall]; subst.
      constructor; [apply IH; assumption |].
      apply List.Forall_forall. intros a Ha.
      apply (Permutation_in _ (chat_insert_perm m l)) in Ha.
      destruct Ha as [<- | Ha].
      * assert (~ (Chat.created_at y <= Chat.created_at m)%Q) as Hn
          by (intros H; apply Qle_bool_iff in H; congruence).
        apply Qnot_le_lt in Hn. apply Qlt_le_weak. exact Hn.
      * rewrite List.Forall_forall in Hall. apply Hall. exact Ha.
Qed.

Lemma chat_newest_first_sorted (l : list Chat.ChatMessage) :
  StronglySorted (fun a b => (Chat.created_at b <= Chat.created_at a)%Q)
    (Chat.newest_first l).
Proof.
  unfold Chat.newest_first. induction l as [| m l IH]; simpl.
  - constructor.
  - apply chat_insert_sorted. exact IH.
Qed.

(** A row that is later than all the rows before it comes first. *)
Lemma chat_newest_first_latest (l : list Chat.ChatMessage) (m : Chat.ChatMessage) :
  Forall (fun x => (Chat.created_at x < Chat.created_at m)%Q) l ->
  Chat.newest_first (l ++ [m]) = m :: Chat.newest_first l.
Proof.
  unfold Chat.newest_first. induction l as [| y l IH]; intros Hl; simpl; [reflexivity |].
  inversion Hl as [| ? ? Hy Hl']; subst.
  rewrite (IH Hl'). simpl.
  destruct (Qle_bool (Chat.created_at m) (Chat.created_at y)) eqn:E; [| reflexivity].
  apply Qle_bool_iff in E. exfalso. apply (Qlt_not_le _ _ Hy). exact E.
Qed.

(** What [get_chat_history] returns when the session answers both
    statements. *)
Lemma get_chat_history_answered (limit offset : nat) (current_user_id : Z) (s : Chat.State) :
  Chat.db_fault_at s (Chat.db_calls s) = None ->
  Chat.db_fault_at s (S (Chat.db_calls s)) = None ->
  Chat.get_chat_history limit offset current_user_id s
  = (Ok {| Chat.messages :=
             map Chat.history_item
               (firstn limit
                  (skipn offset (Chat.newest_first (history_of current_user_id s))));
           Chat.total := Z.of_nat (length (history_of current_user_id s)) |},
     Chat.tick_db (Chat.tick_db s)).
Proof.
  intros H0 H1.
  unfold Chat.get_chat_history, Chat.count_by_user, Chat.select_page, Chat.db_call,
    bindM, gets, ret, history_of.
  rewrite H0. cbn [Chat.tick_db Chat.db_fault_at Chat.db_calls Chat.chat_messages].
  rewrite H1. reflexivity.
Qed.

(** What it raises when the session fails on the first or on the second
    statement. *)
Lemma get_chat_history_failed (limit offset : nat) (current_user_id : Z) (s : Chat.State)
    (e : exn) :
  (Chat.db_fault_at s (Chat.db_calls s) = Some e ->
   Chat.get_chat_history limit offset current_user_id s = (Raise e, Chat.tick_db s))
  /\ (Chat.db_fault_at s (Chat.db_calls s) = None ->
      Chat.db_fault_at s (S (Chat.db_calls s)) = Some e ->
      Chat.get_chat_history limit offset current_user_id s
      = (Raise e, Chat.tick_db (Chat.tick_db s))).
Proof.
  unfold Chat.get_chat_history, Chat.count_by_user, Chat.select_page, Chat.db_call,
    bindM, gets, ret.
  split.
  - intros H0. rewrite H0. reflexivity.
  - intros H0 H1. rewrite H0.
    cbn [Chat.tick_db Chat.db_fault_at Chat.db_calls Chat.chat_messages].
    rewrite H1. reflexivity.
Qed.

End ChatFacts.

(** C10.  When the answer carries no source, [ask_question] responds with
    an empty [sources] list but stores the turn with [sources] null.  When
    the session then answers the two statements of [get_chat_history], the
    caller's history shows the turn again with [sources] null: the page
    that starts at the turn's position in the order by [created_at] begins
    with it, and this is the first page when the turn is later than the
    caller's earlier turns. *)
Theorem empty_sources_persisted_as_null
    (settings : Config.Settings) (distance : list Q -> list Q -> Q)
    (embed_api : string -> result (list Q))
    (invoke : LLM.ChatModel -> string -> string -> result string)
    (request_question : string) (current_user_id : Z)
    (s s' : Chat.State) (resp : Chat.AskResponse) :
  Chat.ask_question settings distance embed_api invoke request_question current_user_id s
  = (Ok resp, s') ->
  Chat.r_sources resp = [] ->
  exists m,
    Chat.chat_messages s' = Chat.chat_messages s ++ [m]
    /\ Chat.question m = request_question
    /\ Chat.user_id m = current_user_id
    /\ Chat.sources m = None
    /\ Chat.h_question (Chat.history_item m) = request_question
    /\ Chat.h_sources (Chat.history_item m) = None
    /\ (Chat.db_fault_at s' (Chat.db_calls s') = None ->
        Chat.db_fault_at s' (S (Chat.db_calls s')) = None ->
        let total := Z.of_nat (length (history_of current_user_id s')) in
        (exists position,
            (position < length (history_of current_user_id s'))%nat
            /\ forall limit,
                 exists older,
                   Chat.get_chat_history (S limit) position current_user_id s'
                   = (Ok {| Chat.messages := Chat.history_item m :: older;
                            Chat.total := total |},
                      Chat.tick_db (Chat.tick_db s')))
        /\ (Forall (fun x => (Chat.created_at x < Chat.created_at m)%Q)
              (history_of current_user_id s) ->
            forall limit,
              exists older,
                Chat.get_chat_history (S limit) 0 current_user_id s'
                = (Ok {| Chat.messages := Chat.history_item m :: older;
                         Chat.total := total |},
                   Chat.tick_db (Chat.tick_db s')))).
Proof.
  intros Hask Hempty.
  destruct (ask_question_ok _ _ _ _ _ _ _ _ _ Hask) as (m & Hm & Hq & _ & Hu & Hs).
  rewrite Hempty in Hs. simpl in Hs.
  exists m.
  assert (Chat.h_sources (Chat.history_item m) = None) as Hnull
    by (unfold Chat.history_item; simpl; rewrite Hs; reflexivity).
  do 6 (split; [assumption || reflexivity |]).
  intros H0 H1. cbv zeta.
  assert (history_of current_user_id s' = history_of current_user_id s ++ [m]) as Hmine.
  { unfold history_of. rewrite Hm, List.filter_app. simpl.
    replace (Chat.user_id m =? current_user_id) with true by (symmetry; lia).
    reflexivity. }
  split.
  - assert (In m (Chat.newest_first (history_of current_user_id s'))) as Hin.
    { apply (Permutation_in _ (Permutation_sym (chat_newest_first_perm _))).
      rewrite Hmine. apply in_or_app. right. left. reflexivity. }
    apply in_split in Hin. destruct Hin as (before & after & Hsplit).
    exists (length before). split.
    + rewrite <- (Permutation_length
                    (chat_newest_first_perm (history_of current_user_id s'))), Hsplit.
      rewrite length_app. simpl. lia.
    + intros limit. rewrite (get_chat_history_answered _ _ _ _ H0 H1), Hsplit.
      rewrite skipn_app, Nat.sub_diag, skipn_all. simpl.
      eexists. reflexivity.
  - intros Hlater limit.
    rewrite (get_chat_history_answered _ _ _ _ H0 H1), Hmine.
    rewrite (chat_newest_first_latest _ _ Hlater). simpl.
    eexists. reflexivity.
Qed.

(** ** A deployment without any API key and with nothing indexed *)

Example first_turn_response : fst first_turn = Ok no_information_response.
Proof. vm_compute. reflexivity. Qed.

(** The first question asked in that deployment: the response has an empty
    source list, the stored row and the history entry have none. *)
Lemma empty_sources_persisted_as_null_witness :
  exists m,
    Chat.chat_messages (snd first_turn) = [m]
    /\ Chat.sources m = None
    /\ exists older total,
         fst (Chat.get_chat_history 50 0 7 (snd first_turn))
         = Ok {| Chat.messages := Chat.history_item m :: older; Chat.total := total |}
         /\ Chat.h_sources (Chat.history_item m) = None.
Proof.
  assert (first_turn = (Ok no_information_response, snd first_turn)) as E
    by (vm_compute; reflexivity).
  destruct (empty_sources_persisted_as_null _ _ _ _ _ _ _ _ _ E eq_refl)
    as (m & Hm & _ & _ & Hs & _ & Hnull & Hh).
  exists m. split; [exact Hm | split; [exact Hs |]].
  destruct (Hh eq_refl eq_refl) as [_ Hhead].
  destruct (Hhead ltac:(constructor) 49%nat) as (older & Hhist).
  exists older. eexists. rewrite Hhist. split; [reflexivity | exact Hnull].
Defined.

(* ===================================================================== *)
(** * Reprocessing                                                        *)
(* ===================================================================== *)

Section ReprocessFacts.

Variable settings : Config.Settings.

Lemma delete_document_initialized (document_id : Z) (vs : VectorStore.State) :
  VectorStore._initialized vs = true ->
  exists b vs', VectorStore.delete_document settings document_id vs = (Ok b, vs').
Proof.
  intros Hinit.
  unfold VectorStore.delete_document, bindM, VectorStore._ensure_initialized, try_exceptM.
  rewrite Hinit.
  destruct (VectorStore.get_ids document_id vs) as [[found | e] vs1]; [| eauto].
  destruct found as [| x found]; [eauto |].
  unfold bindM.
  destruct (VectorStore.delete (x :: found) vs1) as [[[] | e] vs2]; eauto.
Qed.

(** What the handler writes for a document of the caller, once the select
    has succeeded and the vector store is up: every field of the reset is
    listed, and [content_preview] is not among them. *)
Lemma reprocess_document_writes (document_id current_user_id : Z)
    (s : Documents.State) (document : Documents.Document) :
  Documents.db_fault_at s (Documents.db_calls s) = None ->
  Documents.documents s !! document_id = Some document ->
  Documents.user_id document = current_user_id ->
  Documents.id document = document_id ->
  VectorStore._initialized (Documents.vector_store s) = true ->
  exists msg s',
    Documents.reprocess_document settings document_id current_user_id s = (Ok msg, s')
    /\ exists d',
         Documents.documents s' !! document_id = Some d'
         /\ Documents.status d' = Documents.PENDING
         /\ Documents.chunk_count d' = 0
         /\ Documents.embedding_count d' = 0
         /\ Documents.error_message d' = None
         /\ Documents.processed_at d' = None
         /\ Documents.content_preview d' = Documents.content_preview document
         /\ Documents.background_tasks s'
            = Documents.background_tasks s
                ++ [{| Documents.task_document_id := document_id;
                       Documents.task_file_path := Documents.file_path document;
                       Documents.task_file_type := Documents.file_type document;
                       Documents.task_user_id := current_user_id;
                       Documents.task_document_name := Documents.original_filename document |}].
Proof.
  intros Hdb Hrow Howner Hid Hinit.
  unfold Documents.reprocess_document, Documents.select_owned, Documents.select_document,
    Documents.db_call, bindM, gets, ret, zoom, modify.
  rewrite Hdb. cbn [Documents.documents Documents.tick_db]. rewrite Hrow.
  replace (Documents.user_id document =? current_user_id) with true by (symmetry; lia).
  change (Documents.vector_store (Documents.tick_db s)) with (Documents.vector_store s).
  destruct (delete_document_initialized document_id _ Hinit) as (b & vs' & Hdel).
  rewrite Hdel. simpl.
  do 2 eexists. split; [reflexivity |]. simpl.
  eexists. rewrite Hid. split; [apply lookup_insert_eq |].
  simpl. repeat split.
Qed.

End ReprocessFacts.

(** ** A processed report that is sent back for reprocessing *)

(** C2.  Reprocessing the completed report resets status, counts, error
    message and processing time and purges the index entries, but the row
    keeps the content preview of the previous run. *)
Theorem reprocess_keeps_content_preview :
  let '(r, s') := Documents.reprocess_document Config.default_settings 1 7 one_report in
  r = Ok "Document 'report.txt' queued for reprocessing"
  /\ VectorStore.collection (Documents.vector_store s') = []
  /\ exists d',
       Documents.documents s' !! 1 = Some d'
       /\ Documents.status d' = Documents.PENDING
       /\ Documents.chunk_count d' = 0
       /\ Documents.embedding_count d' = 0
       /\ Documents.error_message d' = None
       /\ Documents.processed_at d' = None
       /\ Documents.content_preview d' = Some "Quarterly revenue grew by twelve percent.".
Proof.
  vm_compute. repeat split. eexists. repeat split.
Qed.

(* ===================================================================== *)
(** * Search                                                              *)
(* ===================================================================== *)

Section SearchFacts.

Variable settings : Config.Settings.
Variable distance : list Q -> list Q -> Q.
Variable embed_api : string -> result (list Q).

Lemma index_map_middle {A B} (f : A -> B) (pre : list A) (x : A) (post : list A) :
  Py.index (map f (pre ++ x :: post)) (length pre) = Ok (f x).
Proof.
  unfold Py.index. rewrite map_app. simpl.
  rewrite nth_error_app2 by (rewrite length_map; lia).
  rewrite length_map, Nat.sub_diag. reflexivity.
Qed.

Lemma format_results_found (found pre post : list (Q * VectorStore.Entry)) :
  found = pre ++ post ->
  VectorStore.format_results (result_of found) (length pre)
    (map (fun de => VectorStore.id (snd de)) post)
  = Ok (map hit_of post).
Proof.
  revert pre. induction post as [| x post IH]; intros pre Hfound; simpl.
  - reflexivity.
  - subst found. rewrite !index_map_middle. simpl.
    specialize (IH (pre ++ [x])).
    rewrite length_app in IH. simpl in IH.
    replace (length pre + 1)%nat with (S (length pre)) in IH by lia.
    rewrite <- app_assoc in IH. simpl in IH.
    rewrite (IH eq_refl). reflexivity.
Qed.

(** ** The order in which the index returns entries *)

Lemma insert_by_distance_In (x y : Q * VectorStore.Entry) (l : list (Q * VectorStore.Entry)) :
  In y (VectorStore.insert_by_distance x l) <-> y = x \/ In y l.
Proof.
  induction l as [| z l IH]; simpl.
  - intuition.
  - destruct (Qle_bool (fst x) (fst z)); simpl; [intuition |].
    rewrite IH. intuition.
Qed.

Lemma insert_by_distance_ascending (x : Q * VectorStore.Entry)
    (l : list (Q * VectorStore.Entry)) :
  ascending l -> ascending (VectorStore.insert_by_distance x l).
Proof.
  unfold ascending. induction l as [| z l IH]; intros Hl; simpl.
  - constructor; constructor.
  - destruct (Qle_bool (fst x) (fst z)) eqn:E.
    + apply Qle_bool_iff in E. constructor; [assumption |].
      constructor; [exact E |].
      inversion Hl as [| ? ? _ Hall]; subst.
      eapply List.Forall_impl; [| exact Hall].
      intros a Ha. simpl in Ha. eapply Qle_trans; eassumption.
    + inversion Hl as [| ? ? Hs Hall]; subst.
      constructor; [apply IH; assumption |].
      apply List.Forall_forall. intros a Ha.
      apply insert_by_distance_In in Ha. destruct Ha as [-> | Ha].
      * assert (~ (fst x <= fst z)%Q) as Hn
          by (intros H; apply Qle_bool_iff in H; congruence).
        apply Qnot_le_lt in Hn. apply Qlt_le_weak. exact Hn.
      * rewrite List.Forall_forall in Hall. apply Hall. exact Ha.
Qed.

Lemma nearest_first_ascending (q : list Q) (es : list VectorStore.Entry) :
  ascending (VectorStore.nearest_first distance q es).
Proof.
  unfold VectorStore.nearest_first.
  induction es as [| e es IH]; simpl.
  - constructor.
  - apply insert_by_distance_ascending. exact IH.
Qed.

Lemma nearest_first_In (q : list Q) (es : list VectorStore.Entry) (de : Q * VectorStore.Entry) :
  In de (VectorStore.nearest_first distance q es) ->
  In (snd de) es /\ fst de = distance q (VectorStore.embedding (snd de)).
Proof.
  unfold VectorStore.nearest_first.
  induction es as [| e es IH]; simpl; [tauto |].
  intros H. apply insert_by_distance_In in H. destruct H as [-> | H].
  - simpl. auto.
  - destruct (IH H). auto.
Qed.

Lemma firstn_incl {A} (n : nat) (l : list A) (x : A) : In x (firstn n l) -> In x l.
Proof.
  revert l. induction n as [| n IH]; intros [| a l]; simpl; try tauto.
  intros [-> | H]; [auto | right; apply IH; exact H].
Qed.

Lemma firstn_ascending (n : nat) (l : list (Q * VectorStore.Entry)) :
  ascending l -> ascending (firstn n l).
Proof.
  unfold ascending. revert l. induction n as [| n IH]; intros l Hl; simpl.
  - constructor.
  - destruct l as [| a l]; [constructor |].
    inversion Hl as [| ? ? Hs Hall]; subst.
    constructor; [apply IH; assumption |].
    apply List.Forall_forall. intros b Hb.
    rewrite List.Forall_forall in Hall. apply Hall.
    eapply firstn_incl; eassumption.
Qed.

Lemma ensure_initialized_outcome (s s1 : VectorStore.State) (r : result unit) :
  VectorStore._ensure_initialized settings s = (r, s1) ->
  VectorStore.collection s1 = VectorStore.collection s
  /\ (r = Ok tt
      \/ exists e, r = Raise e /\ VectorStore._initialized s = false
                   /\ VectorStore.fault_at s (VectorStore.calls s) = Some e).
Proof.
  unfold VectorStore._ensure_initialized.
  destruct (VectorStore._initialized s).
  - intros H; inversion H; auto.
  - unfold bindM, VectorStore.client_call, modify.
    destruct (VectorStore.fault_at s (VectorStore.calls s)) as [e |];
      intros H; inversion H; subst; simpl; split; eauto.
Qed.

(** The part of [search] after the query embedding is known. *)
Lemma search_tail_outcome (q : list Q) (user_id n_results : Z) (s1 s2 : VectorStore.State)
    (r : result (list VectorStore.Hit)) :
  try_exceptM
    (bindM VectorStore.count (fun total_count =>
     bindM (VectorStore.query distance q
              (VectorStore.actual_n_results n_results total_count) user_id)
       (fun results =>
          match VectorStore.ids results with
          | (doc_id :: rest) :: _ =>
              lift (VectorStore.format_results results 0 (doc_id :: rest))
          | _ => ret []
          end)))
    (fun _ => ret []) s1 = (r, s2) ->
  r = Ok [] \/ r = Ok (map hit_of (found_by distance s1 q user_id n_results)).
Proof.
  unfold found_by, VectorStore.count, VectorStore.query.
  unfold try_exceptM, bindM, lift, ret, VectorStore.client_call, gets, raise.
  destruct (VectorStore.fault_at s1 (VectorStore.calls s1));
    [intros Hrun; inversion Hrun; auto |].
  cbn [VectorStore.tick_call VectorStore.fault_at VectorStore.calls VectorStore.collection].
  destruct (VectorStore.fault_at s1 (S (VectorStore.calls s1)));
    [intros Hrun; inversion Hrun; auto |].
  destruct (VectorStore.actual_n_results _ _ <=? 0);
    [intros Hrun; inversion Hrun; auto |].
  cbn [VectorStore.tick_call VectorStore.collection VectorStore.ids].
  match goal with
  | |- context [firstn ?n ?l] => set (found := firstn n l)
  end.
  destruct found as [| x found'] eqn:Efound.
  - intros Hrun; inversion Hrun; auto.
  - pose proof (format_results_found (x :: found') [] (x :: found') eq_refl) as F.
    unfold result_of in F. cbn [length map] in F. cbn [map]. rewrite F.
    intros Hrun; inversion Hrun; auto.
Qed.

(** [search] either fails to initialize the store, or returns no hit, or
    returns the hits of the entries found for the query embedding. *)
Lemma search_outcome (query_text : string) (user_id n_results : Z)
    (s s' : VectorStore.State) (r : result (list VectorStore.Hit)) :
  VectorStore.search settings distance embed_api query_text user_id n_results s = (r, s') ->
  (exists e, r = Raise e /\ VectorStore._initialized s = false
             /\ VectorStore.fault_at s (VectorStore.calls s) = Some e)
  \/ r = Ok []
  \/ (exists q, r = Ok (map hit_of (found_by distance s q user_id n_results))).
Proof.
  unfold VectorStore.search, bindM at 1.
  destruct (VectorStore._ensure_initialized settings s) as [r0 s1] eqn:Einit.
  destruct (ensure_initialized_outcome _ _ _ Einit) as [Hcoll [-> | (e & -> & Hi & Hf)]].
  - unfold try_exceptM, bindM at 1.
    destruct (VectorStore._embeddings s1).
    + unfold lift. destruct (embed_api query_text) as [q | e].
      * intros H. apply (search_tail_outcome q user_id n_results s1 s' r) in H.
        unfold found_by in *. rewrite Hcoll in H. destruct H; eauto.
      * intros H; inversion H; auto.
    + unfold ret at 1. intros H.
      apply (search_tail_outcome _ user_id n_results s1 s' r) in H.
      unfold found_by in *. rewrite Hcoll in H. destruct H; eauto.
  - intros H; inversion H; subst. left. eauto.
Qed.

Lemma scores_descending (found : list (Q * VectorStore.Entry)) :
  ascending found ->
  StronglySorted
    (fun a b => (VectorStore.relevance_score b <= VectorStore.relevance_score a)%Q)
    (map hit_of found).
Proof.
  unfold ascending. induction found as [| x found IH]; intros Hs; simpl.
  - constructor.
  - inversion Hs as [| ? ? Hs' Hall]; subst.
    constructor; [apply IH; assumption |].
    apply List.Forall_forall. intros h Hh.
    apply in_map_iff in Hh. destruct Hh as [y [<- Hy]].
    rewrite List.Forall_forall in Hall. specialize (Hall y Hy).
    simpl. apply round_mono. lra.
Qed.

Lemma found_by_ascending (s : VectorStore.State) (q : list Q) (user_id n_results : Z) :
  ascending (found_by distance s q user_id n_results).
Proof. unfold found_by. apply firstn_ascending, nearest_first_ascending. Qed.

Lemma found_by_In (s : VectorStore.State) (q : list Q) (user_id n_results : Z)
    (de : Q * VectorStore.Entry) :
  In de (found_by distance s q user_id n_results) ->
  In (snd de) (VectorStore.collection s)
  /\ VectorStore.user_id (VectorStore.metadata (snd de)) = user_id
  /\ fst de = distance q (VectorStore.embedding (snd de)).
Proof.
  unfold found_by. intros H. apply firstn_incl in H.
  apply nearest_first_In in H. destruct H as [Hin Hd].
  apply filter_In in Hin. destruct Hin as [Hin Hu].
  repeat split; [assumption | lia | assumption].
Qed.

(** ** What [search] asks of the index *)

Lemma ensure_initialized_trace (s s1 : VectorStore.State) (r : result unit) :
  VectorStore._ensure_initialized settings s = (r, s1) ->
  VectorStore.collection s1 = VectorStore.collection s
  /\ ((VectorStore._initialized s = true /\ r = Ok tt /\ s1 = s)
      \/ (VectorStore._initialized s = false
          /\ VectorStore.requests s1
             = VectorStore.requests s ++ [VectorStore.Open (Config.VECTOR_STORE_PATH settings)])).
Proof.
  unfold VectorStore._ensure_initialized.
  destruct (VectorStore._initialized s).
  - intros H; inversion H; auto.
  - unfold bindM, VectorStore.client_call, modify.
    destruct (VectorStore.fault_at s (VectorStore.calls s)) as [e |];
      intros H; inversion H; subst; simpl; split; auto.
Qed.

(** After the query embedding is known: the count, then one query for the
    clamped count with the caller's id as the filter. *)
Lemma search_tail_trace (q : list Q) (user_id n_results : Z) (s1 s2 : VectorStore.State)
    (r : result (list VectorStore.Hit)) :
  let requested :=
    VectorStore.actual_n_results n_results
      (Z.of_nat (length (VectorStore.collection s1))) in
  try_exceptM
    (bindM VectorStore.count (fun total_count =>
     bindM (VectorStore.query distance q
              (VectorStore.actual_n_results n_results total_count) user_id)
       (fun results =>
          match VectorStore.ids results with
          | (doc_id :: rest) :: _ =>
              lift (VectorStore.format_results results 0 (doc_id :: rest))
          | _ => ret []
          end)))
    (fun _ => ret []) s1 = (r, s2) ->
  ((r = Ok []
    /\ VectorStore.requests s2 = VectorStore.requests s1 ++ [VectorStore.Count]
    /\ is_Some (VectorStore.fault_at s1 (VectorStore.calls s1)))
   \/ (VectorStore.requests s2
       = VectorStore.requests s1
           ++ [VectorStore.Count; VectorStore.Query q requested user_id]
       /\ VectorStore.fault_at s1 (VectorStore.calls s1) = None
       /\ (r = Ok [] \/ r = Ok (map hit_of (found_by distance s1 q user_id n_results))))).
Proof.
  cbv zeta.
  unfold found_by, VectorStore.count, VectorStore.query.
  unfold try_exceptM, bindM, lift, ret, VectorStore.client_call, gets, raise.
  destruct (VectorStore.fault_at s1 (VectorStore.calls s1)) eqn:E0;
    [intros Hrun; inversion Hrun; left; simpl; eauto |].
  cbn [VectorStore.tick_call VectorStore.fault_at VectorStore.calls VectorStore.collection].
  destruct (VectorStore.fault_at s1 (S (VectorStore.calls s1)));
    [intros Hrun; inversion Hrun; right; simpl; rewrite <- app_assoc; auto |].
  destruct (VectorStore.actual_n_results _ _ <=? 0);
    [intros Hrun; inversion Hrun; right; simpl; rewrite <- app_assoc; auto |].
  cbn [VectorStore.tick_call VectorStore.collection VectorStore.ids].
  match goal with
  | |- context [firstn ?n ?l] => set (found := firstn n l)
  end.
  destruct found as [| x found'] eqn:Efound.
  - intros Hrun; inversion Hrun; right; simpl; rewrite <- app_assoc; auto.
  - pose proof (format_results_found (x :: found') [] (x :: found') eq_refl) as F.
    unfold result_of in F. cbn [length map] in F. cbn [map]. rewrite F.
    intros Hrun; inversion Hrun; right; simpl; rewrite <- app_assoc; auto.
Qed.

(** The requests of one [search] that returns: the client is opened if it
    was not, and then either the embedding API fails and nothing is asked,
    or the count fails, or the count is followed by the query. *)
Lemma search_trace (query_text : string) (user_id n_results : Z)
    (s s' : VectorStore.State) (hits : list VectorStore.Hit) :
  let requested :=
    VectorStore.actual_n_results n_results
      (Z.of_nat (length (VectorStore.collection s))) in
  VectorStore.search settings distance embed_api query_text user_id n_results s
  = (Ok hits, s') ->
  exists opened,
    (opened = [] \/ opened = [VectorStore.Open (Config.VECTOR_STORE_PATH settings)])
    /\ (VectorStore._initialized s = true -> opened = [])
    /\ ((hits = []
         /\ (VectorStore.requests s' = VectorStore.requests s ++ opened
             \/ VectorStore.requests s'
                = VectorStore.requests s ++ opened ++ [VectorStore.Count]))
        \/ exists q,
             VectorStore.requests s'
             = VectorStore.requests s
                 ++ opened ++ [VectorStore.Count; VectorStore.Query q requested user_id]
             /\ (hits = [] \/ hits = map hit_of (found_by distance s q user_id n_results)))
    /\ (VectorStore._initialized s = true ->
        VectorStore.fault_at s (VectorStore.calls s) = None ->
        (VectorStore._embeddings s = true -> exists q, embed_api query_text = Ok q) ->
        exists q,
          VectorStore.requests s'
          = VectorStore.requests s
              ++ [VectorStore.Count; VectorStore.Query q requested user_id]).
Proof.
  cbv zeta. unfold VectorStore.search, bindM at 1.
  destruct (VectorStore._ensure_initialized settings s) as [r0 s1] eqn:Einit.
  destruct (ensure_initialized_trace _ _ _ Einit)
    as [Hcoll [(Hi & -> & ->) | (Hi & Hreq)]].
  - (* the client is held already *)
    intros Hrun. exists []. split; [auto |]. split; [auto |].
    revert Hrun. unfold try_exceptM, bindM at 1.
    destruct (VectorStore._embeddings s) eqn:Eemb.
    + unfold lift. destruct (embed_api query_text) as [q | e] eqn:Eq.
      * intros H. pose proof (search_tail_trace q user_id n_results s s' (Ok hits) H) as T.
        cbv zeta in T. destruct T as [(Hnil & Hr & Hf) | (Hr & Hf & Hh)].
        -- injection Hnil as ->. split; [left; split; [reflexivity | right; exact Hr] |].
           intros _ Hcount _. rewrite Hcount in Hf. destruct Hf; discriminate.
        -- split.
           ++ right. exists q. split; [exact Hr |].
              destruct Hh as [Hh | Hh]; injection Hh as ->; auto.
           ++ intros _ _ _. exists q. exact Hr.
      * intros H; inversion H; subst. split.
        -- left. split; [reflexivity | left]. rewrite app_nil_r. reflexivity.
        -- intros _ _ Hq. destruct (Hq eq_refl) as [q Hq']. discriminate.
    + unfold ret at 1. intros H.
      pose proof (search_tail_trace _ user_id n_results s s' (Ok hits) H) as T.
      cbv zeta in T. destruct T as [(Hnil & Hr & Hf) | (Hr & Hf & Hh)].
      * injection Hnil as ->. split; [left; split; [reflexivity | right; exact Hr] |].
        intros _ Hcount _. rewrite Hcount in Hf. destruct Hf; discriminate.
      * split.
        -- right. eexists. split; [exact Hr |].
           destruct Hh as [Hh | Hh]; injection Hh as ->; auto.
        -- intros _ _ _. eexists. exact Hr.
  - (* the client is opened first *)
    intros Hrun. exists [VectorStore.Open (Config.VECTOR_STORE_PATH settings)].
    split; [auto |]. split; [congruence |].
    destruct r0 as [[] | e]; [| discriminate].
    assert (forall q r,
               try_exceptM
                 (bindM VectorStore.count (fun total_count =>
                  bindM (VectorStore.query distance q
                           (VectorStore.actual_n_results n_results total_count) user_id)
                    (fun results =>
                       match VectorStore.ids results with
                       | (doc_id :: rest) :: _ =>
                           lift (VectorStore.format_results results 0 (doc_id :: rest))
                       | _ => ret []
                       end)))
                 (fun _ => ret []) s1 = (Ok r, s') ->
               (r = []
                /\ VectorStore.requests s'
                   = VectorStore.requests s
                       ++ [VectorStore.Open (Config.VECTOR_STORE_PATH settings)]
                       ++ [VectorStore.Count])
               \/ (VectorStore.requests s'
                   = VectorStore.requests s
                       ++ [VectorStore.Open (Config.VECTOR_STORE_PATH settings)]
                       ++ [VectorStore.Count;
                           VectorStore.Query q
                             (VectorStore.actual_n_results n_results
                                (Z.of_nat (length (VectorStore.collection s)))) user_id]
                   /\ (r = [] \/ r = map hit_of (found_by distance s q user_id n_results))))
      as Htail.
    { intros q r H. pose proof (search_tail_trace q user_id n_results s1 s' (Ok r) H) as T.
      cbv zeta in T. unfold found_by in *. rewrite Hcoll, Hreq, <- !app_assoc in T.
      destruct T as [(Hnil & Hr & _) | (Hr & _ & Hh)].
      - injection Hnil as ->. left. auto.
      - right. split; [exact Hr |].
        destruct Hh as [Hh | Hh]; injection Hh as ->; auto. }
    split; [| intros Hinit; congruence].
    revert Hrun. unfold try_exceptM, bindM at 1.
    destruct (VectorStore._embeddings s1).
    + unfold lift. destruct (embed_api query_text) as [q | e].
      * intros H. destruct (Htail q hits H) as [(-> & Hr) | (Hr & Hh)].
        -- left. auto.
        -- right. exists q. auto.
      * intros H; inversion H; subst. left. split; [reflexivity | left; exact Hreq].
    + unfold ret at 1. intros H.
      destruct (Htail _ hits H) as [(-> & Hr) | (Hr & Hh)].
      * left. auto.
      * right. eexists. eauto.
Qed.

End SearchFacts.

(** C1 (amended).  When the distance of the index's space lies in [0, 2],
    as a cosine distance does, every hit that [search] returns carries the
    score [round(1 - d, 4)] of an indexed entry at distance [d] from the
    query embedding; the score lies in [-1, 1], and in [0, 1] unless
    [d > 1]; the hits are ordered from highest to lowest score. *)
Theorem relevance_scores_bounded_and_ordered
    (settings : Config.Settings) (distance : list Q -> list Q -> Q)
    (embed_api : string -> result (list Q))
    (query_text : string) (user_id n_results : Z)
    (s s' : VectorStore.State) (hits : list VectorStore.Hit) :
  (forall a b, 0 <= distance a b <= 2)%Q ->
  VectorStore.search settings distance embed_api query_text user_id n_results s
  = (Ok hits, s') ->
  (exists q found,
      hits = map hit_of found
      /\ Forall (fun de =>
                   In (snd de) (VectorStore.collection s)
                   /\ fst de = distance q (VectorStore.embedding (snd de))
                   /\ VectorStore.relevance_score (hit_of de) = Py.round (1 - fst de) 4
                   /\ ((1 < fst de)%Q
                       \/ (0 <= VectorStore.relevance_score (hit_of de) <= 1)%Q))
           found)
  /\ Forall (fun h => (-1 <= VectorStore.relevance_score h <= 1)%Q) hits
  /\ StronglySorted
       (fun a b => (VectorStore.relevance_score b <= VectorStore.relevance_score a)%Q)
       hits.
Proof.
  intros Hrange Hsearch.
  assert (forall q de,
             In de (found_by distance s q user_id n_results) ->
             In (snd de) (VectorStore.collection s)
             /\ fst de = distance q (VectorStore.embedding (snd de))
             /\ VectorStore.relevance_score (hit_of de) = Py.round (1 - fst de) 4
             /\ ((1 < fst de)%Q
                 \/ (0 <= VectorStore.relevance_score (hit_of de) <= 1)%Q)) as Hfound.
  { intros q de Hde. destruct (found_by_In _ _ _ _ _ _ Hde) as (Hin & _ & Hd).
    split; [assumption |]. split; [assumption |]. split; [reflexivity |].
    destruct (Qlt_le_dec 1 (fst de)) as [Hfar | Hnear]; [left; exact Hfar | right].
    pose proof (Hrange q (VectorStore.embedding (snd de))) as Hr. rewrite <- Hd in Hr.
    change 0%Q with (inject_Z 0). change 1%Q with (inject_Z 1).
    apply round_between. simpl. unfold inject_Z. lra. }
  destruct (search_outcome _ _ _ _ _ _ _ _ _ Hsearch)
    as [(e & He & _) | [Hnil | (q & Hq)]].
  - discriminate.
  - injection Hnil as ->. split; [| split].
    + exists [], []. split; [reflexivity | constructor].
    + constructor.
    + constructor.
  - injection Hq as ->. split; [| split].
    + exists q, (found_by distance s q user_id n_results).
      split; [reflexivity |]. apply List.Forall_forall. intros de Hde.
      apply (Hfound q de Hde).
    + apply List.Forall_forall. intros h Hh.
      apply in_map_iff in Hh. destruct Hh as [de [<- Hde]].
      destruct (Hfound q de Hde) as (_ & Hd & _).
      simpl. change (-1)%Q with (inject_Z (-1)). change 1%Q with (inject_Z 1).
      apply round_between.
      rewrite Hd. pose proof (Hrange q (VectorStore.embedding (snd de))).
      unfold inject_Z. lra.
    + apply scores_descending, found_by_ascending.
Qed.

Lemma unit_cosine_distance_range (a b : list Q) : (0 <= unit_cosine_distance a b <= 2)%Q.
Proof.
  unfold unit_cosine_distance.
  destruct (Qle_bool (Qred (1 - dot a b)) 0) eqn:E0; [lra |].
  destruct (Qle_bool 2 (Qred (1 - dot a b))) eqn:E2; [lra |].
  assert (~ (Qred (1 - dot a b) <= 0)%Q) as H0
    by (intros H; apply Qle_bool_iff in H; congruence).
  assert (~ (2 <= Qred (1 - dot a b))%Q) as H2
    by (intros H; apply Qle_bool_iff in H; congruence).
  lra.
Qed.

(** ** An index that holds chunks of two users *)

Example shared_search_scores :
  match fst (shared_search 5) with
  | Ok hits => map (fun h => (VectorStore.content h, VectorStore.relevance_score h)) hits
  | Raise _ => []
  end
  = [("close", (24 # 25)%Q); ("orthogonal", 0%Q); ("opposite", (-1)%Q)].
Proof. vm_compute. reflexivity. Qed.

Lemma relevance_scores_bounded_and_ordered_witness :
  exists hits,
    fst (shared_search 5) = Ok hits
    /\ Forall (fun h => (-1 <= VectorStore.relevance_score h <= 1)%Q) hits
    /\ StronglySorted
         (fun a b => (VectorStore.relevance_score b <= VectorStore.relevance_score a)%Q)
         hits.
Proof.
  destruct (shared_search 5) as [[hits | e] s'] eqn:E;
    [| exfalso; vm_compute in E; discriminate].
  exists hits. split; [reflexivity |].
  apply (relevance_scores_bounded_and_ordered openai_only_settings unit_cosine_distance
           fixed_embed_api "what changed?" 7 5 shared_index s' hits
           unit_cosine_distance_range E).
Defined.

(** In mock mode the situation needs no contrived data: the question the
    test suite asks and the content of the file it uploads get embeddings
    with a negative dot product, that is a cosine distance above 1. *)
Example test_suite_texts_point_apart :
  (dot (VectorStore._get_mock_embedding "What is in my documents?")
       (VectorStore._get_mock_embedding "This is a test document with some content.")
   < 0)%Q.
Proof. vm_compute. reflexivity. Qed.

(** C1, as stated, fails: the chunk that points away from the query is
    returned with relevance score -1, outside [0, 1]. *)
Lemma relevance_score_below_zero :
  exists hits,
    fst (shared_search 5) = Ok hits
    /\ hits <> []
    /\ ~ Forall (fun h => (0 <= VectorStore.relevance_score h <= 1)%Q) hits.
Proof.
  destruct (shared_search 5) as [[hits | e] s'] eqn:E;
    [| exfalso; vm_compute in E; discriminate].
  exists hits. split; [reflexivity |].
  vm_compute in E. injection E as <- _.
  split; [discriminate |].
  intros H. inversion H as [| ? ? _ H1]; subst.
  inversion H1 as [| ? ? _ H2]; subst.
  inversion H2 as [| ? ? [Hneg _] _]; subst.
  vm_compute in Hneg. apply Hneg. reflexivity.
Qed.

(** C8 (amended).  [search] asks the index for [min(n_results, total)]
    entries when at least one entry is indexed and for 1 entry when none is:
    every query it sends carries that count and the caller's id as the
    filter, the query is sent whenever hits come back, and also whenever
    the client is held, the embedding is available and the count is
    answered.  For [n_results >= 1] and a non-empty index this is the
    claimed clamp, a count between 1 and the total.  The entries are taken,
    nearest first, among those whose [user_id] metadata equals the caller's
    id, so every hit carries the caller's id. *)
Theorem search_count_and_user_filter
    (settings : Config.Settings) (distance : list Q -> list Q -> Q)
    (embed_api : string -> result (list Q))
    (query_text : string) (user_id n_results : Z)
    (s s' : VectorStore.State) (hits : list VectorStore.Hit) :
  let total_count := Z.of_nat (length (VectorStore.collection s)) in
  let requested := if total_count =? 0 then 1 else Z.min n_results total_count in
  VectorStore.search settings distance embed_api query_text user_id n_results s
  = (Ok hits, s') ->
  (exists sent,
      VectorStore.requests s' = VectorStore.requests s ++ sent
      /\ (forall q n u,
            In (VectorStore.Query q n u) sent -> n = requested /\ u = user_id)
      /\ (hits <> [] -> exists q, In (VectorStore.Query q requested user_id) sent)
      /\ (VectorStore._initialized s = true ->
          VectorStore.fault_at s (VectorStore.calls s) = None ->
          (VectorStore._embeddings s = true -> exists q, embed_api query_text = Ok q) ->
          exists q, sent = [VectorStore.Count; VectorStore.Query q requested user_id]))
  /\ (1 <= n_results ->
      0 < total_count ->
      requested = claimed_n_results n_results total_count
      /\ 1 <= requested <= total_count)
  /\ (hits = []
      \/ exists q,
           hits
           = map hit_of
               (firstn (Z.to_nat requested)
                  (VectorStore.nearest_first distance q
                     (List.filter
                        (fun e => VectorStore.user_id (VectorStore.metadata e) =? user_id)
                        (VectorStore.collection s)))))
  /\ Z.of_nat (length hits) <= Z.max requested 0
  /\ Forall (fun h => exists md,
                 VectorStore.hit_metadata h = Some md
                 /\ VectorStore.user_id md = user_id) hits.
Proof.
  cbv zeta. intros Hsearch.
  set (total_count := Z.of_nat (length (VectorStore.collection s))).
  assert (VectorStore.actual_n_results n_results total_count
          = if total_count =? 0 then 1 else Z.min n_results total_count) as Hreq.
  { unfold VectorStore.actual_n_results.
    destruct (Z.ltb_spec 0 total_count); destruct (Z.eqb_spec total_count 0);
      try reflexivity; unfold total_count in *; lia. }
  split.
  { destruct (search_trace _ _ _ _ _ _ _ _ _ Hsearch)
      as (opened & Hopened & _ & Hshape & Hlive).
    cbv zeta in Hshape, Hlive. fold total_count in Hshape, Hlive.
    rewrite Hreq in Hshape, Hlive.
    assert (forall q n u, ~ In (VectorStore.Query q n u) opened) as Hnot.
    { intros q n u Hin. destruct Hopened as [-> | ->]; simpl in Hin; [tauto |].
      destruct Hin as [Hin | []]. discriminate. }
    destruct Hshape as [(-> & [Hr | Hr]) | (q & Hr & Hh)].
    - exists opened. split; [exact Hr |]. split; [| split].
      + intros q n u Hin. destruct (Hnot _ _ _ Hin).
      + intros Hne. destruct (Hne eq_refl).
      + intros Hi Hf Hq. destruct (Hlive Hi Hf Hq) as [q Hq'].
        rewrite Hr in Hq'. apply app_inv_head in Hq'.
        destruct Hopened as [-> | ->]; discriminate.
    - exists (opened ++ [VectorStore.Count]). split; [exact Hr |]. split; [| split].
      + intros q n u Hin. apply in_app_or in Hin. destruct Hin as [Hin | Hin].
        * destruct (Hnot _ _ _ Hin).
        * destruct Hin as [Hin | []]. discriminate.
      + intros Hne. destruct (Hne eq_refl).
      + intros Hi Hf Hq. destruct (Hlive Hi Hf Hq) as [q Hq'].
        rewrite Hr in Hq'. apply app_inv_head in Hq'.
        destruct Hopened as [-> | ->]; discriminate.
    - exists (opened
              ++ [VectorStore.Count;
                  VectorStore.Query q
                    (if total_count =? 0 then 1 else Z.min n_results total_count) user_id]).
      split; [exact Hr |]. split; [| split].
      + intros q' n u Hin. apply in_app_or in Hin. destruct Hin as [Hin | Hin].
        * destruct (Hnot _ _ _ Hin).
        * destruct Hin as [Hin | [Hin | []]]; [discriminate |].
          injection Hin as _ <- <-. auto.
      + intros _. exists q. apply in_or_app. right. right. left. reflexivity.
      + intros Hi Hf Hq. destruct (Hlive Hi Hf Hq) as [q' Hq'].
        rewrite Hr in Hq'. apply app_inv_head in Hq'.
        exists q'. destruct Hopened as [-> | ->]; [exact Hq' | discriminate]. }
  split.
  { intros Hn Htotal. unfold claimed_n_results.
    destruct (Z.eqb_spec total_count 0); [lia |].
    destruct (Z.ltb_spec 0 total_count); lia. }
  rewrite <- Hreq.
  destruct (search_outcome _ _ _ _ _ _ _ _ _ Hsearch)
    as [(e & He & _) | [Hnil | (q & Hq)]].
  - discriminate.
  - injection Hnil as ->. split; [left; reflexivity |]. split; [simpl; lia | constructor].
  - injection Hq as ->. split; [right; exists q; reflexivity |]. split.
    + rewrite length_map. unfold found_by. rewrite length_firstn. fold total_count. lia.
    + apply List.Forall_forall. intros h Hh.
      apply in_map_iff in Hh. destruct Hh as [de [<- Hde]].
      destruct (found_by_In _ _ _ _ _ _ Hde) as (_ & Hu & _).
      eexists. split; [reflexivity | exact Hu].
Qed.

(** User 7 asks for five chunks of an index that holds four: the index is
    asked for four, and the nearest chunk of all, which belongs to user 8,
    is not among the three that come back. *)
Lemma search_count_and_user_filter_witness :
  exists hits,
    fst (shared_search 5) = Ok hits
    /\ map VectorStore.content hits = ["close"; "orthogonal"; "opposite"]
    /\ (exists q,
          VectorStore.requests (snd (shared_search 5))
          = [VectorStore.Open "./vector_store"; VectorStore.Count;
             VectorStore.Query q 4 7])
    /\ 4 = claimed_n_results 5 4
    /\ Forall (fun h => exists md,
                   VectorStore.hit_metadata h = Some md
                   /\ VectorStore.user_id md = 7) hits.
Proof.
  destruct (shared_search 5) as [[hits | e] s'] eqn:E;
    [| exfalso; vm_compute in E; discriminate].
  exists hits. split; [reflexivity |].
  destruct (search_count_and_user_filter openai_only_settings unit_cosine_distance
              fixed_embed_api "what changed?" 7 5 shared_index s' hits E)
    as ((sent & Hsent & _ & _ & Hlive) & Hclamp & _ & _ & Hmine).
  destruct (Hclamp ltac:(lia) ltac:(reflexivity)) as [Hclaimed _].
  destruct (Hlive eq_refl eq_refl (fun _ => ex_intro _ _ eq_refl)) as [q Hq].
  split; [vm_compute in E; injection E as <- _; reflexivity |].
  split; [exists q; simpl; rewrite Hsent, Hq; reflexivity |].
  split; [exact Hclaimed | exact Hmine].
Defined.

(** C8, as stated, fails: the first question in a deployment where nothing
    is indexed reaches the index as a query for 1 entry, although no entry
    exists and the claimed clamp to the number of entries gives 0. *)
Lemma empty_index_is_asked_for_one :
  VectorStore.collection (LLM.vector_store (Chat.llm fresh_chat)) = []
  /\ fst first_turn = Ok no_information_response
  /\ (exists q,
        VectorStore.requests (LLM.vector_store (Chat.llm (snd first_turn)))
        = [VectorStore.Open "./vector_store"; VectorStore.Count; VectorStore.Query q 1 7])
  /\ claimed_n_results 5 0 = 0
  /\ VectorStore.actual_n_results 5 0 = 1.
Proof.
  split; [reflexivity |]. split; [vm_compute; reflexivity |].
  split; [| split; reflexivity].
  eexists. vm_compute. reflexivity.
Qed.

(* ===================================================================== *)
(** * Answering a question                                                *)
(* ===================================================================== *)

Section ClockFacts.

Lemma keeps_clock_ret {A} (a : A) : keeps_clock (ret a).
Proof. intros s r s' H. inversion H. auto. Qed.

Lemma keeps_clock_raise {A} (e : exn) : keeps_clock (@raise VectorStore.State A e).
Proof. intros s r s' H. inversion H. auto. Qed.

Lemma keeps_clock_lift {A} (x : result A) : keeps_clock (lift x).
Proof. intros s r s' H. inversion H. auto. Qed.

Lemma keeps_clock_gets {A} (f : VectorStore.State -> A) : keeps_clock (gets f).
Proof. intros s r s' H. inversion H. auto. Qed.

Lemma keeps_clock_bind {A B} (m : M VectorStore.State A) (k : A -> M VectorStore.State B) :
  keeps_clock m -> (forall a, keeps_clock (k a)) -> keeps_clock (bindM m k).
Proof.
  intros Hm Hk s r s' H. unfold bindM in H.
  destruct (m s) as [[a | e] s1] eqn:E.
  - destruct (Hm _ _ _ E) as [H1 H2]. destruct (Hk a _ _ _ H) as [H3 H4].
    split; congruence.
  - inversion H; subst. apply (Hm _ _ _ E).
Qed.

Lemma keeps_clock_try {A} (body : M VectorStore.State A) (handler : exn -> M VectorStore.State A) :
  keeps_clock body -> (forall e, keeps_clock (handler e)) ->
  keeps_clock (try_exceptM body handler).
Proof.
  intros Hb Hh s r s' H. unfold try_exceptM in H.
  destruct (body s) as [[a | e] s1] eqn:E.
  - inversion H; subst. apply (Hb _ _ _ E).
  - destruct (Hb _ _ _ E) as [H1 H2]. destruct (Hh e _ _ _ H) as [H3 H4].
    split; congruence.
Qed.

Lemma keeps_clock_choice {A} (c : VectorStore.State -> bool) (m1 m2 : M VectorStore.State A) :
  keeps_clock m1 -> keeps_clock m2 ->
  keeps_clock (fun s => if c s then m1 s else m2 s).
Proof.
  intros H1 H2 s r s' H. destruct (c s); [apply (H1 _ _ _ H) | apply (H2 _ _ _ H)].
Qed.

Lemma keeps_clock_client_call (q : VectorStore.Request) :
  keeps_clock (VectorStore.client_call q).
Proof.
  intros s r s' H. unfold VectorStore.client_call in H.
  destruct (VectorStore.fault_at s (VectorStore.calls s)); inversion H; auto.
Qed.

Lemma keeps_clock_ensure_initialized (settings : Config.Settings) :
  keeps_clock (VectorStore._ensure_initialized settings).
Proof.
  unfold VectorStore._ensure_initialized.
  apply keeps_clock_choice; [apply keeps_clock_ret |].
  apply keeps_clock_bind; [apply keeps_clock_client_call |].
  intros _ s r s' H. inversion H. auto.
Qed.

Lemma keeps_clock_search (settings : Config.Settings) (distance : list Q -> list Q -> Q)
    (embed_api : string -> result (list Q)) (query_text : string) (user_id n_results : Z) :
  keeps_clock (VectorStore.search settings distance embed_api query_text user_id n_results).
Proof.
  unfold VectorStore.search.
  apply keeps_clock_bind; [apply keeps_clock_ensure_initialized | intros _].
  apply keeps_clock_try; [| intros _; apply keeps_clock_ret].
  apply keeps_clock_bind.
  { apply (keeps_clock_choice VectorStore._embeddings);
      [apply keeps_clock_lift | apply keeps_clock_ret]. }
  intros q. unfold VectorStore.count, VectorStore.query.
  apply keeps_clock_bind.
  { apply keeps_clock_bind; [apply keeps_clock_client_call | intros _; apply keeps_clock_gets]. }
  intros total. apply keeps_clock_bind.
  { apply keeps_clock_bind; [apply keeps_clock_client_call | intros _].
    destruct (_ <=? 0); [apply keeps_clock_raise |].
    apply keeps_clock_bind; [apply keeps_clock_gets | intros entries; apply keeps_clock_ret]. }
  intros results. destruct (VectorStore.ids results) as [| [| doc_id rest] others];
    try apply keeps_clock_ret. apply keeps_clock_lift.
Qed.

End ClockFacts.

Section AnswerFacts.

Variable settings : Config.Settings.
Variable distance : list Q -> list Q -> Q.
Variable embed_api : string -> result (list Q).
Variable invoke : LLM.ChatModel -> string -> string -> result string.

Lemma answer_question_unfold (question : string) (user_id n_sources : Z) (s : LLM.State) :
  LLM.answer_question settings distance embed_api invoke question user_id n_sources s
  = let start_time :=
      VectorStore.clock_at (LLM.vector_store s)
        (VectorStore.clock_reads (LLM.vector_store s)) in
    match LLM.answer_body settings distance embed_api invoke
            question user_id n_sources start_time (at_try settings s) with
    | (Ok a, s') => (Ok a, s')
    | (Raise e, s') => LLM.answer_error question start_time e s'
    end.
Proof. reflexivity. Qed.

(** How the [try] block ends: with the exception of the retrieval, with the
    exception of the model, or with an answer; the clock has not been read
    in between. *)
Lemma answer_body_outcome (question : string) (user_id n_sources : Z) (start_time : Q)
    (s1 s2 : LLM.State) (r : result LLM.Answer) :
  LLM.answer_body settings distance embed_api invoke question user_id n_sources start_time s1
  = (r, s2) ->
  let vs := LLM.vector_store s1 in
  LLM.service s2 = LLM.service s1
  /\ VectorStore.clock_at (LLM.vector_store s2) = VectorStore.clock_at vs
  /\ ((exists e,
          r = Raise e
          /\ VectorStore.clock_reads (LLM.vector_store s2) = VectorStore.clock_reads vs
          /\ ((VectorStore._initialized vs = false
               /\ VectorStore.fault_at vs (VectorStore.calls vs) = Some e)
              \/ exists m system,
                   LLM._llm (LLM.service s1) = Some m
                   /\ invoke m system question = Raise e))
      \/ (exists a,
            r = Ok a
            /\ LLM.question a = question
            /\ LLM.processing_time a
               = Py.round (VectorStore.clock_at vs (VectorStore.clock_reads vs) - start_time) 3
            /\ (forall m, LLM._llm (LLM.service s1) = Some m ->
                  exists system, invoke m system question = Ok (LLM.answer a)))).
Proof.
  cbv zeta. unfold LLM.answer_body. unfold bindM at 1. unfold zoom at 1.
  destruct (VectorStore.search settings distance embed_api question user_id n_sources
              (LLM.vector_store s1)) as [[hits | e] vs1] eqn:Esearch.
  - destruct (keeps_clock_search _ _ _ _ _ _ _ _ _ Esearch) as [Hat Hreads].
    unfold bindM at 1, gets at 1.
    cbn [LLM.service LLM.set_vector_store].
    destruct (LLM._llm (LLM.service s1)) as [m |] eqn:Ellm.
    + unfold bindM at 1, lift at 1.
      destruct (invoke m (LLM.SYSTEM_PROMPT_format (LLM._format_context hits)) question)
        as [text | e] eqn:Einvoke.
      * unfold bindM, LLM.time, zoom, VectorStore.wall_clock, ret. simpl.
        intros H. inversion H; subst; clear H. simpl.
        repeat split; try assumption. right. eexists. split; [reflexivity |]. simpl.
        rewrite Hat, Hreads. repeat split.
        intros m' Hm'. injection Hm' as <-. eauto.
      * intros H. inversion H; subst; clear H. simpl.
        repeat split; try assumption. left. exists e. repeat split; try assumption.
        right. eauto.
    + unfold bindM, LLM.time, zoom, VectorStore.wall_clock, ret. simpl.
      intros H. inversion H; subst; clear H. simpl.
      repeat split; try assumption. right. eexists. split; [reflexivity |]. simpl.
      rewrite Hat, Hreads. repeat split. intros m' Hm'. discriminate.
  - destruct (keeps_clock_search _ _ _ _ _ _ _ _ _ Esearch) as [Hat Hreads].
    intros H. inversion H; subst; clear H. simpl.
    repeat split; try assumption. left. exists e. repeat split; try assumption.
    left. destruct (search_outcome _ _ _ _ _ _ _ _ _ Esearch)
      as [(e' & He' & Hi & Hf) | [Hnil | (q & Hq)]]; try discriminate.
    injection He' as <-. auto.
Qed.


End AnswerFacts.



(* ===================================================================== *)
(** * Uploading                                                           *)
(* ===================================================================== *)


Section UploadFacts.

Variable settings : Config.Settings.






End UploadFacts.


(** ** An upload of a text file together with a Word file *)

Example upload_mixed_batch :
  match fst (Documents.upload_documents Config.default_settings [notes_txt; slides_docx] 7
               fresh_documents) with
  | Ok resp =>
      (Documents.message resp, Documents.total_uploaded resp,
       map Documents.r_status (Documents.documents_out resp))
  | Raise _ => (EmptyString, 0, [])
  end
  = ("Upload completed: 1 successful, 1 failed", 2, ["pending"]).
Proof. vm_compute. reflexivity. Qed.


(** ** The same text file when the disk is full *)


(* ===================================================================== *)
(** * The ingestion task                                                  *)
(* ===================================================================== *)

Section TaskFacts.

Variable settings : Config.Settings.
Variable text_splitter : Z -> Z -> string -> list string.
Variable pdf_pages : list byte -> result (list string).
Variable embed_api : string -> result (list Q).

(** Symbolic execution of the task: case on every outcome the run looks at. *)
Ltac run_task Hrow :=
  repeat (simpl; rewrite ?Hrow, ?lookup_insert_eq;
          match goal with
          | |- context [match Documents.db_fault_at ?s ?k with _ => _ end] =>
              destruct (Documents.db_fault_at s k)
          | |- context [match DocumentProcessor.extract_text ?a ?b ?c ?d with _ => _ end] =>
              destruct (DocumentProcessor.extract_text a b c d)
          | |- context [negb (truthy ?x)] => destruct (truthy x) eqn:?
          | |- context [match DocumentProcessor.split_text ?a ?b ?c with _ => _ end] =>
              destruct (DocumentProcessor.split_text a b c) eqn:?
          | |- context [let (_, _) := VectorStore.add_documents ?a ?b ?c ?d ?e ?f ?g in _] =>
              destruct (VectorStore.add_documents a b c d e f g) as [[? | ?] ?] eqn:?
          end).

Ltac task_leaf :=
  eexists; eexists; split; [reflexivity |];
  cbn [Documents.journal Documents.write_row Documents.tick_db
       Documents.set_vector_store Documents.set_storage];
  rewrite <- ?app_assoc;
  eexists; split; [first [reflexivity | symmetry; apply app_nil_r] |].

Ltac zero_or_completed Hc He :=
  repeat match goal with
         | |- Forall _ [] => constructor
         | |- Forall _ (_ :: _) => constructor
         | |- counts_zero_unless_completed _ =>
             unfold counts_zero_unless_completed; simpl;
             first [left; reflexivity | right; split; [exact Hc | exact He]]
         end.

(** One run of the task on a pending document. *)
Lemma task_run_journal (document_id : Z) (file_path file_type : string)
    (user_id : Z) (document_name : string)
    (s : Documents.State) (d : Documents.Document) :
  Documents.documents s !! document_id = Some d ->
  Documents.id d = document_id ->
  Documents.status d = Documents.PENDING ->
  Documents.chunk_count d = 0 ->
  Documents.embedding_count d = 0 ->
  exists u s',
    Documents.process_document_background settings text_splitter pdf_pages embed_api
      document_id file_path file_type user_id document_name s = (Ok u, s')
    /\ exists written,
         Documents.journal s' = Documents.journal s ++ written
         /\ follows Documents.PENDING (map Documents.status written) = true
         /\ Forall counts_zero_unless_completed written.
Proof.
  intros Hrow Hid Hst Hc He. subst document_id.
  unfold Documents.process_document_background, Documents.record_failure.
  unfold Documents.select_document, Documents.commit, Documents.utcnow.
  unfold try_exceptM, bindM, zoom, Documents.db_call, VectorStore.wall_clock,
    gets, modify, ret, lift.
  run_task Hrow; task_leaf; simpl; rewrite ?Hst;
    (split; [reflexivity | zero_or_completed Hc He]).
Qed.

Lemma task_run_healthy (document_id : Z) (file_path file_type : string)
    (user_id : Z) (document_name : string)
    (s : Documents.State) (d : Documents.Document) :
  Documents.documents s !! document_id = Some d ->
  Documents.id d = document_id ->
  (forall k, Documents.db_fault_at s k = None) ->
  exists s',
    Documents.process_document_background settings text_splitter pdf_pages embed_api
      document_id file_path file_type user_id document_name s = (Ok tt, s')
    /\ Documents.documents s' !! document_id
       = Some (ingested settings text_splitter pdf_pages embed_api document_id file_path file_type user_id document_name s d).
Proof.
  intros Hrow Hid Hdb. subst document_id.
  unfold ingested, failed_with.
  unfold Documents.process_document_background, Documents.record_failure.
  unfold Documents.select_document, Documents.commit, Documents.utcnow.
  unfold try_exceptM, bindM, zoom, Documents.db_call, VectorStore.wall_clock,
    gets, modify, ret, lift.
  repeat (repeat (progress (simpl; rewrite ?Hdb, ?Hrow, ?lookup_insert_eq));
          match goal with
          | |- context [match DocumentProcessor.extract_text ?a ?b ?c ?d with _ => _ end] =>
              destruct (DocumentProcessor.extract_text a b c d)
          | |- context [negb (truthy ?x)] => destruct (truthy x) eqn:?
          | |- context [match DocumentProcessor.split_text ?a ?b ?c with _ => _ end] =>
              destruct (DocumentProcessor.split_text a b c) eqn:?
          | |- context [let (_, _) := VectorStore.add_documents ?a ?b ?c ?d ?e ?f ?g in _] =>
              destruct (VectorStore.add_documents a b c d e f g) as [[? | ?] ?] eqn:?
          end);
    repeat (progress (simpl; rewrite ?Hdb, ?Hrow, ?lookup_insert_eq));
    eexists; (split; [reflexivity |]); simpl; rewrite ?lookup_insert_eq; reflexivity.
Qed.

(** The task returns normally from every state. *)
Lemma task_never_raises (document_id : Z) (file_path file_type : string)
    (user_id : Z) (document_name : string) (s : Documents.State) :
  exists s',
    Documents.process_document_background settings text_splitter pdf_pages embed_api
      document_id file_path file_type user_id document_name s = (Ok tt, s').
Proof.
  unfold Documents.process_document_background, Documents.record_failure.
  unfold Documents.select_document, Documents.commit, Documents.utcnow.
  unfold try_exceptM, bindM, zoom, Documents.db_call, VectorStore.wall_clock,
    gets, modify, ret, lift.
  repeat (simpl;
          match goal with
          | |- context [match Documents.db_fault_at ?s ?k with _ => _ end] =>
              destruct (Documents.db_fault_at s k)
          | |- context [match ?m !! ?k with _ => _ end] => destruct (m !! k)
          | |- context [match DocumentProcessor.extract_text ?a ?b ?c ?d with _ => _ end] =>
              destruct (DocumentProcessor.extract_text a b c d)
          | |- context [negb (truthy ?x)] => destruct (truthy x)
          | |- context [match DocumentProcessor.split_text ?a ?b ?c with _ => _ end] =>
              destruct (DocumentProcessor.split_text a b c)
          | |- context [let (_, _) := VectorStore.add_documents ?a ?b ?c ?d ?e ?f ?g in _] =>
              destruct (VectorStore.add_documents a b c d e f g) as [[? | ?] ?]
          end);
    eexists; reflexivity.
Qed.

End TaskFacts.

(** C5 (amended).  One run of the ingestion task never propagates an
    exception.  Run on a pending document with zero counts, as upload and
    reprocess leave it, it writes statuses only along pending, processing,
    then completed or failed (or pending to failed directly, when writing
    [processing] itself failed), and every row it writes has zero counts
    unless it is the completed one.  When the database answers every call,
    the run ends in [failed] with the fixed message on whitespace-only
    extraction and on an empty chunk list, in [failed] with the exception's
    message when extraction or indexing raises, and in [completed]
    otherwise.  Reprocessing sets the status back to [pending] with zero
    counts. *)
Theorem ingestion_task_status_discipline
    (settings : Config.Settings) (text_splitter : Z -> Z -> string -> list string)
    (pdf_pages : list byte -> result (list string))
    (embed_api : string -> result (list Q))
    (document_id : Z) (file_path file_type : string)
    (user_id : Z) (document_name : string) (s : Documents.State) :
  let run :=
    Documents.process_document_background settings text_splitter pdf_pages embed_api
      document_id file_path file_type user_id document_name s in
  let after := ingested settings text_splitter pdf_pages embed_api
                 document_id file_path file_type user_id document_name s in
  fst run = Ok tt
  /\ (forall d,
        Documents.documents s !! document_id = Some d ->
        Documents.id d = document_id ->
        Documents.status d = Documents.PENDING ->
        Documents.chunk_count d = 0 ->
        Documents.embedding_count d = 0 ->
        exists written,
          Documents.journal (snd run) = Documents.journal s ++ written
          /\ follows Documents.PENDING (map Documents.status written) = true
          /\ Forall counts_zero_unless_completed written)
  /\ (forall d,
        Documents.documents s !! document_id = Some d ->
        Documents.id d = document_id ->
        (forall k, Documents.db_fault_at s k = None) ->
        Documents.documents (snd run) !! document_id = Some (after d)
        /\ (forall text,
              DocumentProcessor.extract_text pdf_pages file_path file_type
                (Documents.storage s) = Ok text ->
              truthy (strip text) = false ->
              after d = failed_with "No text content could be extracted from the file" d)
        /\ (forall text,
              DocumentProcessor.extract_text pdf_pages file_path file_type
                (Documents.storage s) = Ok text ->
              truthy (strip text) = true ->
              DocumentProcessor.split_text settings text_splitter text = [] ->
              after d = failed_with "Failed to split document into chunks" d)
        /\ (forall e,
              DocumentProcessor.extract_text pdf_pages file_path file_type
                (Documents.storage s) = Raise e ->
              after d = failed_with (str_exn e) d)
        /\ (forall text c chunks e vs',
              DocumentProcessor.extract_text pdf_pages file_path file_type
                (Documents.storage s) = Ok text ->
              truthy (strip text) = true ->
              DocumentProcessor.split_text settings text_splitter text = c :: chunks ->
              VectorStore.add_documents settings embed_api (c :: chunks)
                document_id document_name user_id (Documents.vector_store s)
              = (Raise e, vs') ->
              after d = failed_with (str_exn e) d)
        /\ (Documents.status (after d) = Documents.FAILED
            \/ Documents.status (after d) = Documents.COMPLETED))
  /\ (forall d current_user_id,
        Documents.documents s !! document_id = Some d ->
        Documents.id d = document_id ->
        Documents.user_id d = current_user_id ->
        Documents.db_fault_at s (Documents.db_calls s) = None ->
        VectorStore._initialized (Documents.vector_store s) = true ->
        exists msg s' d',
          Documents.reprocess_document settings document_id current_user_id s = (Ok msg, s')
          /\ Documents.documents s' !! document_id = Some d'
          /\ Documents.status d' = Documents.PENDING
          /\ Documents.chunk_count d' = 0
          /\ Documents.embedding_count d' = 0).
Proof.
  cbv zeta. split; [| split; [| split]].
  - destruct (task_never_raises settings text_splitter pdf_pages embed_api
                document_id file_path file_type user_id document_name s) as [s' E].
    rewrite E. reflexivity.
  - intros d Hrow Hid Hst Hc He.
    destruct (task_run_journal settings text_splitter pdf_pages embed_api
                document_id file_path file_type user_id document_name s d
                Hrow Hid Hst Hc He) as (u & s' & E & written & Hj & Hf & Hz).
    rewrite E. exists written. auto.
  - intros d Hrow Hid Hdb.
    destruct (task_run_healthy settings text_splitter pdf_pages embed_api
                document_id file_path file_type user_id document_name s d
                Hrow Hid Hdb) as (s' & E & Hafter).
    rewrite E. split; [exact Hafter |].
    unfold ingested. split; [| split; [| split; [| split]]].
    + intros text -> ->. reflexivity.
    + intros text -> -> ->. reflexivity.
    + intros e ->. reflexivity.
    + intros text c chunks e vs' -> -> -> ->. reflexivity.
    + destruct (DocumentProcessor.extract_text _ _ _ _) as [text | e]; [| left; reflexivity].
      destruct (negb (truthy (strip text))); [left; reflexivity |].
      destruct (DocumentProcessor.split_text _ _ _) as [| c chunks]; [left; reflexivity |].
      destruct (VectorStore.add_documents _ _ _ _ _ _ _) as [[n | e] vs'];
        [right | left]; reflexivity.
  - intros d current_user_id Hrow Hid Howner Hdb Hinit.
    destruct (reprocess_document_writes settings document_id current_user_id s d
                Hdb Hrow Howner Hid Hinit)
      as (msg & s' & E & d' & Hd' & Hst & Hc & He & _).
    exists msg, s', d'. auto.
Qed.

(** ** A text file from upload to ingestion *)

Example after_upload_row : Documents.documents after_upload !! 1 = Some pending_notes.
Proof. vm_compute. reflexivity. Qed.

Example notes_task_journal :
  map (fun d => (Documents.status d, Documents.chunk_count d, Documents.embedding_count d))
      (Documents.journal (snd (run_notes_task after_upload)))
  = [(Documents.PENDING, 0, 0); (Documents.PROCESSING, 0, 0); (Documents.COMPLETED, 1, 1)].
Proof. vm_compute. reflexivity. Qed.

Example scenario_rows :
  Documents.documents blank_file_stored !! 1 = Some pending_notes
  /\ Documents.documents stored_file_gone !! 1 = Some pending_notes
  /\ Documents.documents index_down !! 1 = Some pending_notes
  /\ Documents.documents one_report !! 1 = Some report_row.
Proof. vm_compute. repeat split. Qed.

(** The uploaded text file is ingested: the run writes along the chain and
    leaves the document completed with one chunk and one embedding.  The
    same document ends failed, with the message that names the cause, when
    the stored file is blank, when the splitter yields nothing, when the
    file has been removed and when the index cannot be opened.  Sending
    the processed report back resets it to pending. *)
Lemma ingestion_task_status_discipline_witness :
  fst (run_notes_task after_upload) = Ok tt
  /\ (exists written,
        Documents.journal (snd (run_notes_task after_upload))
        = Documents.journal after_upload ++ written
        /\ follows Documents.PENDING (map Documents.status written) = true
        /\ Forall counts_zero_unless_completed written)
  /\ (exists d',
        Documents.documents (snd (run_notes_task after_upload)) !! 1 = Some d'
        /\ Documents.status d' = Documents.COMPLETED
        /\ Documents.chunk_count d' = 1
        /\ Documents.embedding_count d' = 1)
  /\ Documents.documents (snd (run_notes_task blank_file_stored)) !! 1
     = Some (failed_with "No text content could be extracted from the file" pending_notes)
  /\ Documents.documents (snd (run_notes_task_dropping after_upload)) !! 1
     = Some (failed_with "Failed to split document into chunks" pending_notes)
  /\ Documents.documents (snd (run_notes_task stored_file_gone)) !! 1
     = Some (failed_with
               "[Errno 2] No such file or directory: './uploads/9f1c2d3e4b5a69788796a5b4c3d2e1f0.txt'"
               pending_notes)
  /\ Documents.documents (snd (run_notes_task index_down)) !! 1
     = Some (failed_with "unable to open database file" pending_notes)
  /\ (exists msg s' d',
        Documents.reprocess_document Config.default_settings 1 7 one_report = (Ok msg, s')
        /\ Documents.documents s' !! 1 = Some d'
        /\ Documents.status d' = Documents.PENDING
        /\ Documents.chunk_count d' = 0
        /\ Documents.embedding_count d' = 0).
Proof.
  destruct scenario_rows as (Hblank & Hgone & Hdown & Hreport).
  split; [| split; [| split; [| split; [| split; [| split; [| split]]]]]].
  - apply (ingestion_task_status_discipline Config.default_settings one_chunk_splitter
             rejecting_pdf_reader unreachable_embed_api
             1 "./uploads/9f1c2d3e4b5a69788796a5b4c3d2e1f0.txt" ".txt" 7 "notes.txt"
             after_upload).
  - destruct (ingestion_task_status_discipline Config.default_settings one_chunk_splitter
                rejecting_pdf_reader unreachable_embed_api
                1 "./uploads/9f1c2d3e4b5a69788796a5b4c3d2e1f0.txt" ".txt" 7 "notes.txt"
                after_upload) as (_ & Hchain & _).
    apply (Hchain pending_notes after_upload_row); reflexivity.
  - destruct (ingestion_task_status_discipline Config.default_settings one_chunk_splitter
                rejecting_pdf_reader unreachable_embed_api
                1 "./uploads/9f1c2d3e4b5a69788796a5b4c3d2e1f0.txt" ".txt" 7 "notes.txt"
                after_upload) as (_ & _ & Hhealthy & _).
    destruct (Hhealthy pending_notes after_upload_row eq_refl (fun k => eq_refl))
      as (Hrow & _).
    eexists. split; [exact Hrow |].
    vm_compute. repeat split.
  - destruct (ingestion_task_status_discipline Config.default_settings one_chunk_splitter
                rejecting_pdf_reader unreachable_embed_api
                1 "./uploads/9f1c2d3e4b5a69788796a5b4c3d2e1f0.txt" ".txt" 7 "notes.txt"
                blank_file_stored) as (_ & _ & Hhealthy & _).
    destruct (Hhealthy pending_notes Hblank eq_refl (fun k => eq_refl))
      as (Hrow & Hwhite & _).
    exact (eq_trans Hrow (f_equal Some (Hwhite EmptyString eq_refl eq_refl))).
  - destruct (ingestion_task_status_discipline Config.default_settings dropping_splitter
                rejecting_pdf_reader unreachable_embed_api
                1 "./uploads/9f1c2d3e4b5a69788796a5b4c3d2e1f0.txt" ".txt" 7 "notes.txt"
                after_upload) as (_ & _ & Hhealthy & _).
    destruct (Hhealthy pending_notes after_upload_row eq_refl (fun k => eq_refl))
      as (Hrow & _ & Hnone & _).
    exact (eq_trans Hrow
             (f_equal Some (Hnone "Quarterly revenue grew." eq_refl eq_refl eq_refl))).
  - destruct (ingestion_task_status_discipline Config.default_settings one_chunk_splitter
                rejecting_pdf_reader unreachable_embed_api
                1 "./uploads/9f1c2d3e4b5a69788796a5b4c3d2e1f0.txt" ".txt" 7 "notes.txt"
                stored_file_gone) as (_ & _ & Hhealthy & _).
    destruct (Hhealthy pending_notes Hgone eq_refl (fun k => eq_refl))
      as (Hrow & _ & _ & Hraise & _).
    exact (eq_trans Hrow
             (f_equal Some
                (Hraise (Exception
                   "[Errno 2] No such file or directory: './uploads/9f1c2d3e4b5a69788796a5b4c3d2e1f0.txt'")
                   eq_refl))).
  - destruct (ingestion_task_status_discipline Config.default_settings one_chunk_splitter
                rejecting_pdf_reader unreachable_embed_api
                1 "./uploads/9f1c2d3e4b5a69788796a5b4c3d2e1f0.txt" ".txt" 7 "notes.txt"
                index_down) as (_ & _ & Hhealthy & _).
    destruct (Hhealthy pending_notes Hdown eq_refl (fun k => eq_refl))
      as (Hrow & _ & _ & _ & Hindex & _).
    exact (eq_trans Hrow
             (f_equal Some
                (Hindex "Quarterly revenue grew." "Quarterly revenue grew." []
                   (Exception "unable to open database file")
                   (VectorStore.tick_call (VectorStore.Open "./vector_store") broken_index)
                   eq_refl eq_refl eq_refl eq_refl))).
  - destruct (ingestion_task_status_discipline Config.default_settings one_chunk_splitter
                rejecting_pdf_reader unreachable_embed_api
                1 "./uploads/9f1c2d3e4b5a69788796a5b4c3d2e1f0.txt" ".txt" 7 "notes.txt"
                one_report) as (_ & _ & _ & Hreprocess).
    apply (Hreprocess report_row 7 Hreport); reflexivity.
Defined.

(** ** A run during which the file is missing and the database locks up *)

(** C5, as stated, fails: extraction raises, recording the failure raises
    too, and the run ends normally with the document still in
    [processing] and no stored error. *)
Lemma failure_not_recorded :
  DocumentProcessor.extract_text rejecting_pdf_reader
    "./uploads/9f1c2d3e4b5a69788796a5b4c3d2e1f0.txt" ".txt"
    (Documents.storage locking_documents)
  = Raise (Exception "[Errno 2] No such file or directory: './uploads/9f1c2d3e4b5a69788796a5b4c3d2e1f0.txt'")
  /\ fst (run_notes_task locking_documents) = Ok tt
  /\ exists d',
       Documents.documents (snd (run_notes_task locking_documents)) !! 1 = Some d'
       /\ Documents.status d' = Documents.PROCESSING
       /\ Documents.status d' <> Documents.FAILED
       /\ Documents.error_message d' = None.
Proof.
  split; [vm_compute; reflexivity |]. split; [vm_compute; reflexivity |].
  eexists. split; [vm_compute; reflexivity |].
  simpl. repeat split. discriminate.
Qed.

(** ** The report reprocessed twice before any task runs *)

(** The task does not look at the status it starts from: the second of two
    queued runs takes the completed document back to [processing], with
    the counts of the first run still in the row. *)
Example queued_twice_reopens_completed :
  map (fun d => (Documents.status d, Documents.chunk_count d))
      (Documents.journal reprocessed_twice_then_run)
  = [(Documents.PENDING, 0); (Documents.PENDING, 0);
     (Documents.PROCESSING, 0); (Documents.COMPLETED, 1);
     (Documents.PROCESSING, 1); (Documents.COMPLETED, 1)].
Proof. vm_compute. reflexivity. Qed.

(* ===================================================================== *)
(** * Previews, extraction and the upload directory                     *)
(* ===================================================================== *)

Section StringFacts.

Lemma append_cons (x : ascii) (a b : string) : String x a +:+ b = String x (a +:+ b).
Proof. reflexivity. Qed.

Lemma append_assoc (a b c : string) : (a +:+ b) +:+ c = a +:+ (b +:+ c).
Proof. induction a as [| x a IH]; [reflexivity | rewrite !append_cons; now rewrite IH]. Qed.

Lemma append_nil_r (a : string) : a +:+ EmptyString = a.
Proof. induction a as [| x a IH]; [reflexivity | rewrite append_cons; now rewrite IH]. Qed.

Lemma of_chars_app (l1 l2 : list string) :
  of_chars (l1 ++ l2) = of_chars l1 +:+ of_chars l2.
Proof.
  unfold of_chars. induction l1 as [| ch l1 IH]; simpl; [reflexivity |].
  rewrite IH, append_assoc. reflexivity.
Qed.

(** [chars] cuts before every byte that is not a continuation byte. *)
Lemma chars_cons (c : ascii) (s : string) :
  chars (String c s)
  = match chars s with
    | String d t :: rest =>
        if is_continuation d then String c (String d t) :: rest
        else String c EmptyString :: String d t :: rest
    | _ => [String c EmptyString]
    end.
Proof. reflexivity. Qed.

Lemma chars_head (c : ascii) (s : string) :
  exists t rest, chars (String c s) = String c t :: rest.
Proof.
  rewrite chars_cons. destruct (chars s) as [| [| d t] rest]; eauto.
  destruct (is_continuation d); eauto.
Qed.

Lemma shaped_chars (s : string) : shaped (chars s).
Proof.
  unfold shaped. induction s as [| c s [IH1 IH2]]; [split; constructor |].
  rewrite chars_cons. destruct (chars s) as [| [| d t] rest].
  - split; repeat constructor.
  - inversion IH1 as [| ? ? Hf _]; simpl in Hf; contradiction.
  - inversion IH1 as [| ? ? Ht Hrest]; subst. simpl in IH2.
    destruct (is_continuation d) eqn:E; simpl.
    + split; [| exact IH2]. constructor; [| exact Hrest]. simpl. rewrite E. exact Ht.
    + split; [repeat constructor; assumption |]. constructor; assumption.
Qed.

Lemma of_chars_chars (s : string) : of_chars (chars s) = s.
Proof.
  induction s as [| c s IH]; [reflexivity |].
  rewrite chars_cons. pose proof (shaped_chars s) as [H1 _].
  destruct (chars s) as [| [| d t] rest].
  - simpl in IH. subst s. reflexivity.
  - inversion H1 as [| ? ? Hf _]; simpl in Hf; contradiction.
  - destruct (is_continuation d); unfold of_chars in *; simpl in *;
      rewrite ?append_cons; simpl; rewrite <- IH; reflexivity.
Qed.

Lemma chars_nil (s : string) : chars s = [] -> s = EmptyString.
Proof. intros H. rewrite <- (of_chars_chars s), H. reflexivity. Qed.

(** Appending a text that starts a character does not change the
    characters before it. *)
Lemma chars_app (a b : string) :
  headed b -> chars (a +:+ b) = chars a ++ chars b.
Proof.
  intros Hb. induction a as [| c a IH]; [reflexivity |].
  rewrite append_cons, !chars_cons, IH.
  pose proof (shaped_chars a) as [Ha _].
  destruct (chars a) as [| [| d t] rest] eqn:Ea.
  - simpl. destruct b as [| e b']; [reflexivity |].
    destruct (chars_head e b') as (t & rest & ->).
    simpl in Hb. rewrite Hb. reflexivity.
  - inversion Ha as [| ? ? Hf _]; simpl in Hf; contradiction.
  - simpl. destruct (is_continuation d); reflexivity.
Qed.

Lemma chars_char (c : ascii) (t : string) :
  continuation_only t = true -> chars (String c t) = [String c t].
Proof.
  revert c. induction t as [| d t IH]; intros c Ht; [reflexivity |].
  simpl in Ht. apply andb_prop in Ht as [Hd Ht].
  rewrite chars_cons, (IH d Ht), Hd. reflexivity.
Qed.

Lemma headed_of_chars (l : list string) :
  Forall (fun ch => match ch with
                    | String c _ => is_continuation c = false
                    | EmptyString => False
                    end) l ->
  headed (of_chars l).
Proof.
  intros H. destruct H as [| [| c t] l Hc _]; [exact I | destruct Hc |].
  unfold of_chars. simpl. exact Hc.
Qed.

(** A list of characters is the list of characters of its text. *)
Lemma chars_of_chars (l : list string) : shaped l -> chars (of_chars l) = l.
Proof.
  intros [H1 H2]. induction l as [| ch l IH]; [reflexivity |].
  inversion H1 as [| ? ? Hch Hl]; subst. simpl in H2.
  change (of_chars (ch :: l)) with (ch +:+ of_chars l).
  rewrite chars_app by (apply headed_of_chars; exact H2).
  rewrite IH; [| exact Hl | destruct H2; [constructor | assumption]].
  destruct ch as [| c t]; [destruct Hch |].
  rewrite (chars_char c t Hch). reflexivity.
Qed.

Lemma shaped_firstn (n : nat) (l : list string) : shaped l -> shaped (firstn n l).
Proof.
  intros [H1 H2]. split.
  - apply List.Forall_forall. intros x Hx. rewrite List.Forall_forall in H1.
    apply H1. revert Hx. clear. revert l.
    induction n as [| n IH]; intros [| a l]; simpl; try tauto.
    intros [-> | H]; [auto | right; apply IH; exact H].
  - destruct n as [| n]; [constructor |]. destruct l as [| a l]; [constructor |].
    simpl in *. apply List.Forall_forall. intros x Hx.
    rewrite List.Forall_forall in H2. apply H2. revert Hx. clear. revert l.
    induction n as [| n IH]; intros [| a l]; simpl; try tauto.
    intros [-> | H]; [auto | right; apply IH; exact H].
Qed.

Lemma shaped_tail (ch : string) (l : list string) : shaped (ch :: l) -> shaped l.
Proof.
  intros [H1 H2]. inversion H1; subst. split; [assumption |].
  simpl in H2. destruct H2; [constructor | assumption].
Qed.

Lemma shaped_skipn (n : nat) (l : list string) : shaped l -> shaped (skipn n l).
Proof.
  revert l. induction n as [| n IH]; intros l H; [exact H |].
  destruct l as [| ch l]; [exact H |]. simpl. apply IH. eapply shaped_tail. exact H.
Qed.

Lemma chars_prefix (n : nat) (s : string) : chars (prefix n s) = firstn n (chars s).
Proof. unfold prefix. apply chars_of_chars, shaped_firstn, shaped_chars. Qed.

Lemma len_prefix (n : nat) (s : string) : len (prefix n s) = Nat.min n (len s).
Proof. unfold len. rewrite chars_prefix. apply length_firstn. Qed.

End StringFacts.

(** X1.  The content preview never has more than 503 characters: a text of
    at most 500 characters is its own preview, a longer one is cut to its
    first 500 characters, followed by three dots. *)
Theorem content_preview_bounded (text : string) :
  let preview := DocumentProcessor.get_content_preview text in
  (len preview <= 503)%nat
  /\ ((len text <= 500)%nat -> preview = text)
  /\ ((500 < len text)%nat ->
      len preview = 503%nat
      /\ prefix 500 preview = prefix 500 text
      /\ chars preview = firstn 500 (chars text) ++ ["."; "."; "."]).
Proof.
  cbv zeta. unfold DocumentProcessor.get_content_preview.
  destruct (Nat.leb_spec (len text) 500) as [Hle | Hgt].
  - split; [lia |]. split; [reflexivity | lia].
  - assert (chars (prefix 500 text +:+ "...") = firstn 500 (chars text) ++ ["."; "."; "."])
      as Hchars.
    { rewrite chars_app by reflexivity. rewrite chars_prefix. reflexivity. }
    assert (length (firstn 500 (chars text)) = 500%nat) as Hlen
      by (rewrite length_firstn; unfold len in Hgt; lia).
    assert (len (prefix 500 text +:+ "...") = 503%nat) as Hlen'.
    { unfold len. rewrite Hchars, length_app, Hlen. reflexivity. }
    split; [lia |]. split; [lia |]. intros _.
    split; [exact Hlen' |]. split; [| exact Hchars].
    unfold prefix at 1. rewrite Hchars.
    rewrite firstn_app, Hlen, Nat.sub_diag, firstn_firstn, Nat.min_id. simpl.
    rewrite app_nil_r. reflexivity.
Qed.

(** A short line is its own preview; of 600 letters the first 500 are kept,
    and of 300 accented letters, which take two bytes each, all of them. *)
Lemma content_preview_bounded_witness :
  DocumentProcessor.get_content_preview "Quarterly revenue grew." = "Quarterly revenue grew."
  /\ len (DocumentProcessor.get_content_preview long_text) = 503%nat
  /\ DocumentProcessor.get_content_preview accented_text = accented_text.
Proof.
  destruct (content_preview_bounded "Quarterly revenue grew.") as (_ & Hshort & _).
  destruct (content_preview_bounded long_text) as (_ & _ & Hlong).
  destruct (content_preview_bounded accented_text) as (_ & Haccented & _).
  split; [| split].
  - apply Hshort. apply Nat.leb_le. reflexivity.
  - apply Hlong. apply Nat.ltb_lt. vm_compute. reflexivity.
  - apply Haccented. apply Nat.leb_le. vm_compute. reflexivity.
Defined.

Section StripFacts.

Lemma drop_spaces_skipn (l : list string) : exists k, drop_spaces l = skipn k l.
Proof.
  induction l as [| ch l [k IH]]; [exists 0%nat; reflexivity |]. simpl.
  destruct (is_space_char ch); [exists (S k); exact IH | exists 0%nat; reflexivity].
Qed.

Lemma drop_spaces_right_firstn (l : list string) :
  exists k, drop_spaces_right l = firstn k l.
Proof.
  unfold drop_spaces_right. destruct (drop_spaces_skipn (rev l)) as [k ->].
  exists (length l - k)%nat. rewrite skipn_rev, rev_involutive. reflexivity.
Qed.

Lemma drop_spaces_idem (l : list string) : drop_spaces (drop_spaces l) = drop_spaces l.
Proof.
  induction l as [| ch l IH]; [reflexivity |]. simpl.
  destruct (is_space_char ch) eqn:E; [exact IH |]. simpl. rewrite E. reflexivity.
Qed.

Lemma drop_spaces_right_idem (l : list string) :
  drop_spaces_right (drop_spaces_right l) = drop_spaces_right l.
Proof.
  unfold drop_spaces_right. rewrite rev_involutive, drop_spaces_idem. reflexivity.
Qed.

(** A list that starts with a visible character keeps it at both ends. *)
Lemma drop_spaces_snoc (l : list string) (ch : string) :
  is_space_char ch = false ->
  drop_spaces (l ++ [ch]) = drop_spaces l ++ [ch].
Proof.
  intros Hch. induction l as [| x l IH]; simpl; [rewrite Hch; reflexivity |].
  destruct (is_space_char x); [exact IH | reflexivity].
Qed.

Lemma drop_spaces_right_cons (ch : string) (l : list string) :
  is_space_char ch = false ->
  drop_spaces_right (ch :: l) = ch :: drop_spaces_right l.
Proof.
  intros Hch. unfold drop_spaces_right. simpl.
  rewrite (drop_spaces_snoc _ _ Hch), rev_app_distr. reflexivity.
Qed.

Lemma drop_spaces_fixed (l : list string) :
  drop_spaces l = l -> l = [] \/ exists ch l', l = ch :: l' /\ is_space_char ch = false.
Proof.
  destruct l as [| ch l]; [auto |]. simpl.
  destruct (is_space_char ch) eqn:E; [| eauto].
  intros H. exfalso. destruct (drop_spaces_skipn l) as [k Hk].
  assert (length (drop_spaces l) = S (length l)) as Hlen by (rewrite H; reflexivity).
  rewrite Hk, length_skipn in Hlen. lia.
Qed.

Lemma drop_spaces_left_right (l : list string) :
  drop_spaces l = l -> drop_spaces (drop_spaces_right l) = drop_spaces_right l.
Proof.
  intros H. destruct (drop_spaces_fixed l H) as [-> | (ch & l' & -> & Hch)]; [reflexivity |].
  rewrite (drop_spaces_right_cons _ _ Hch). simpl. rewrite Hch. reflexivity.
Qed.

Lemma shaped_drop_spaces (l : list string) : shaped l -> shaped (drop_spaces l).
Proof. destruct (drop_spaces_skipn l) as [k ->]. apply shaped_skipn. Qed.

Lemma shaped_drop_spaces_right (l : list string) : shaped l -> shaped (drop_spaces_right l).
Proof. destruct (drop_spaces_right_firstn l) as [k ->]. apply shaped_firstn. Qed.

Lemma strip_chars (s : string) :
  strip s = of_chars (drop_spaces_right (drop_spaces (chars s))).
Proof. reflexivity. Qed.

Lemma chars_strip (s : string) :
  chars (strip s) = drop_spaces_right (drop_spaces (chars s)).
Proof.
  rewrite strip_chars.
  apply chars_of_chars, shaped_drop_spaces_right, shaped_drop_spaces, shaped_chars.
Qed.

(** What [strip] returns has no white space left at either end. *)
Lemma strip_fixed (s : string) :
  lstrip (strip s) = strip s /\ rstrip (strip s) = strip s.
Proof.
  unfold lstrip, rstrip. fold (drop_spaces_right (chars (strip s))).
  rewrite chars_strip, drop_spaces_right_idem.
  rewrite (drop_spaces_left_right _ (drop_spaces_idem _)).
  split; reflexivity.
Qed.

Lemma strip_idem (s : string) : strip (strip s) = strip s.
Proof.
  rewrite (strip_chars (strip s)), chars_strip.
  rewrite (drop_spaces_left_right _ (drop_spaces_idem _)), drop_spaces_right_idem.
  reflexivity.
Qed.

Lemma truthy_of_chars (ch : string) (l : list string) :
  truthy ch = true -> truthy (of_chars (ch :: l)) = true.
Proof. destruct ch; [discriminate | reflexivity]. Qed.

(** A text that starts with a visible ASCII character does not strip to
    nothing. *)
Lemma strip_visible (c : ascii) (s : string) :
  is_space c = false -> (code c < 128)%nat -> truthy (strip (String c s)) = true.
Proof.
  intros Hc Hascii. rewrite strip_chars.
  destruct (chars_head c s) as (t & rest & ->).
  assert (is_space_char (String c t) = false) as Hch.
  { destruct t as [| c2 [| c3 [| c4 t]]]; simpl; try reflexivity; try exact Hc.
    - replace (code c =? 194)%nat with false by (symmetry; apply Nat.eqb_neq; lia).
      reflexivity.
    - replace (code c =? 225)%nat with false by (symmetry; apply Nat.eqb_neq; lia).
      replace (code c =? 226)%nat with false by (symmetry; apply Nat.eqb_neq; lia).
      replace (code c =? 227)%nat with false by (symmetry; apply Nat.eqb_neq; lia).
      reflexivity. }
  cbn [drop_spaces]. rewrite Hch, (drop_spaces_right_cons _ _ Hch). reflexivity.
Qed.

(** Bytes below 128 are read as they are, carriage returns apart. *)
Lemma read_text_ascii (content : list byte) :
  Forall (fun b => byte_code b < 128 /\ byte_code b <> 13) content ->
  read_text content = string_of_list_byte content.
Proof.
  unfold read_text. induction 1 as [| b content [Hb Hcr] _ IH]; [reflexivity |].
  cbn [decode_ignore]. cbv zeta.
  replace (byte_code b <? 128) with true by (symmetry; apply Z.ltb_lt; exact Hb).
  cbn [universal_newlines].
  replace (code (ascii_of_byte b) =? 13)%nat with false.
  - rewrite IH. reflexivity.
  - symmetry. apply Nat.eqb_neq. intros H. apply Hcr. clear -H.
    destruct b; vm_compute in H; try discriminate H. reflexivity.
Qed.

End StripFacts.

(** X2.  What [extract_text] returns has no white space at either end, so
    stripping it again changes nothing and it is blank only if it is empty.
    A file type other than [.txt] and [.pdf] (compared in lower case) raises
    the unsupported-type error, a text file that is not there raises what
    opening it raises, a missing file of either type raises, and the letter
    case of the file type does not matter. *)
Theorem extracted_text_is_stripped
    (pdf_pages : list byte -> result (list string))
    (file_path file_type : string) (st : DocumentProcessor.Storage) :
  let outcome := DocumentProcessor.extract_text pdf_pages file_path file_type st in
  (forall text, outcome = Ok text ->
     strip text = text /\ lstrip text = text /\ rstrip text = text
     /\ truthy (strip text) = truthy text)
  /\ (lower file_type <> ".txt" -> lower file_type <> ".pdf" ->
      outcome = Raise (Exception ("Unsupported file type: " +:+ lower file_type)))
  /\ (DocumentProcessor.files st !! file_path = None ->
      (exists e, outcome = Raise e)
      /\ (lower file_type = ".txt" ->
          outcome = Raise (DocumentProcessor.missing_file st file_path)))
  /\ outcome = DocumentProcessor.extract_text pdf_pages file_path (lower file_type) st.
Proof.
  cbv zeta. split; [| split; [| split]].
  - assert (forall t, strip (strip t) = strip t /\ lstrip (strip t) = strip t
                      /\ rstrip (strip t) = strip t
                      /\ truthy (strip (strip t)) = truthy (strip t)) as Hs.
    { intros t. destruct (strip_fixed t). rewrite strip_idem. auto. }
    intros text. unfold DocumentProcessor.extract_text.
    destruct (String.eqb (lower file_type) ".txt").
    { unfold DocumentProcessor._extract_text_from_txt.
      destruct (_ !! _); intros H; inversion H. apply Hs. }
    destruct (String.eqb (lower file_type) ".pdf"); [| discriminate].
    unfold DocumentProcessor._extract_text_from_pdf.
    destruct (match _ !! _ with Some content => pdf_pages content | None => _ end);
      intros H; inversion H. apply Hs.
  - intros Ht Hp. unfold DocumentProcessor.extract_text.
    apply String.eqb_neq in Ht, Hp. rewrite Ht, Hp. reflexivity.
  - intros Hmissing. unfold DocumentProcessor.extract_text,
      DocumentProcessor._extract_text_from_txt, DocumentProcessor._extract_text_from_pdf.
    rewrite Hmissing. split.
    + destruct (String.eqb (lower file_type) ".txt"); [eauto |].
      destruct (String.eqb (lower file_type) ".pdf"); eauto.
    + intros ->. reflexivity.
  - unfold DocumentProcessor.extract_text. rewrite lower_idem. reflexivity.
Qed.

(** The padded text file is read without its blanks, also when the type is
    given in capitals; a file that holds a word between two no-break spaces
    is read as the word; a Word file is refused. *)
Lemma extracted_text_is_stripped_witness :
  DocumentProcessor.extract_text rejecting_pdf_reader "./uploads/notes.txt" ".TXT" padded_notes
  = Ok "Quarterly revenue grew."
  /\ strip "Quarterly revenue grew." = "Quarterly revenue grew."
  /\ DocumentProcessor.extract_text rejecting_pdf_reader "./uploads/nbsp.txt" ".txt" padded_notes
     = Ok "a"
  /\ DocumentProcessor.extract_text rejecting_pdf_reader "./uploads/notes.txt" ".docx"
       padded_notes
     = Raise (Exception "Unsupported file type: .docx").
Proof.
  assert (DocumentProcessor.extract_text rejecting_pdf_reader "./uploads/notes.txt" ".TXT"
            padded_notes = Ok "Quarterly revenue grew.") as E by (vm_compute; reflexivity).
  destruct (extracted_text_is_stripped rejecting_pdf_reader "./uploads/notes.txt" ".TXT"
              padded_notes) as (Hstripped & _).
  destruct (extracted_text_is_stripped rejecting_pdf_reader "./uploads/notes.txt" ".docx"
              padded_notes) as (_ & Hunsupported & _).
  split; [exact E |]. split; [apply (Hstripped _ E) |].
  split; [vm_compute; reflexivity |].
  apply Hunsupported; intros H; vm_compute in H; discriminate H.
Defined.

(** X3.  A file written by [save_file] reads back through [extract_text]
    under the lower-cased suffix of its original name: a text file gives
    the stripped text that its bytes decode to (the bytes themselves when
    they are ASCII without carriage returns), a PDF what the reader makes
    of the same bytes; files stored under other paths are left as they
    were. *)
Theorem saved_file_reads_back
    (settings : Config.Settings) (pdf_pages : list byte -> result (list string))
    (content : list byte) (original_filename : string)
    (st st' : DocumentProcessor.Storage) (unique_filename file_path : string) :
  DocumentProcessor.save_file settings content original_filename st
  = (Ok (unique_filename, file_path), st') ->
  let file_ext := lower (DocumentProcessor.suffix original_filename) in
  (file_ext = ".txt" ->
   DocumentProcessor.extract_text pdf_pages file_path file_ext st'
   = Ok (strip (read_text content))
   /\ (Forall (fun b => byte_code b < 128 /\ byte_code b <> 13) content ->
       DocumentProcessor.extract_text pdf_pages file_path file_ext st'
       = Ok (strip (string_of_list_byte content))))
  /\ (file_ext = ".pdf" ->
      DocumentProcessor.extract_text pdf_pages file_path file_ext st'
      = match pdf_pages content with
        | Ok pages => Ok (strip (join (nl +:+ nl) (List.filter truthy pages)))
        | Raise e => Raise (Exception ("Failed to extract text from PDF: " +:+ str_exn e))
        end)
  /\ (forall other, other <> file_path ->
        DocumentProcessor.files st' !! other = DocumentProcessor.files st !! other).
Proof.
  intros Hsave. cbv zeta.
  unfold DocumentProcessor.save_file in Hsave.
  destruct (DocumentProcessor.write_fault st (DocumentProcessor.writes st));
    [discriminate |].
  injection Hsave as <- <- <-.
  split; [| split].
  - intros ->. unfold DocumentProcessor.extract_text,
      DocumentProcessor._extract_text_from_txt. simpl.
    rewrite lookup_insert_eq. split; [reflexivity |].
    intros Hascii. rewrite (read_text_ascii _ Hascii). reflexivity.
  - intros ->. unfold DocumentProcessor.extract_text,
      DocumentProcessor._extract_text_from_pdf. simpl.
    rewrite lookup_insert_eq. reflexivity.
  - intros other Hother. simpl. apply lookup_insert_ne. congruence.
Qed.

(** An upload named [NOTES.TXT] is read back as text, without its blanks;
    a line that ends in carriage return and line feed is read with a line
    feed only; bytes that are not UTF-8 are left out. *)
Lemma saved_file_reads_back_witness :
  (exists unique_filename file_path st',
      DocumentProcessor.save_file Config.default_settings
        (list_byte_of_string "   Quarterly revenue grew.  ") "NOTES.TXT" empty_storage
      = (Ok (unique_filename, file_path), st')
      /\ DocumentProcessor.extract_text rejecting_pdf_reader file_path ".txt" st'
         = Ok "Quarterly revenue grew.")
  /\ (exists unique_filename file_path st',
        DocumentProcessor.save_file Config.default_settings [x61; x0d; x0a; x62] "lines.txt"
          empty_storage
        = (Ok (unique_filename, file_path), st')
        /\ DocumentProcessor.extract_text rejecting_pdf_reader file_path ".txt" st'
           = Ok (String "a" (String (ascii_of_nat 10) "b")))
  /\ (exists unique_filename file_path st',
        DocumentProcessor.save_file Config.default_settings [x61; xff; xc3; x62] "bytes.txt"
          empty_storage
        = (Ok (unique_filename, file_path), st')
        /\ DocumentProcessor.extract_text rejecting_pdf_reader file_path ".txt" st'
           = Ok "ab").
Proof.
  split; [| split].
  - destruct (DocumentProcessor.save_file Config.default_settings
                (list_byte_of_string "   Quarterly revenue grew.  ") "NOTES.TXT" empty_storage)
      as [[[unique_filename file_path] | e] st'] eqn:E;
      [| vm_compute in E; discriminate E].
    exists unique_filename, file_path, st'. split; [reflexivity |].
    destruct (saved_file_reads_back Config.default_settings rejecting_pdf_reader _ _ _ _ _ _ E)
      as (Htxt & _).
    exact (proj1 (Htxt eq_refl)).
  - destruct (DocumentProcessor.save_file Config.default_settings [x61; x0d; x0a; x62]
                "lines.txt" empty_storage)
      as [[[unique_filename file_path] | e] st'] eqn:E;
      [| vm_compute in E; discriminate E].
    exists unique_filename, file_path, st'. split; [reflexivity |].
    destruct (saved_file_reads_back Config.default_settings rejecting_pdf_reader _ _ _ _ _ _ E)
      as (Htxt & _).
    exact (proj1 (Htxt eq_refl)).
  - destruct (DocumentProcessor.save_file Config.default_settings [x61; xff; xc3; x62]
                "bytes.txt" empty_storage)
      as [[[unique_filename file_path] | e] st'] eqn:E;
      [| vm_compute in E; discriminate E].
    exists unique_filename, file_path, st'. split; [reflexivity |].
    destruct (saved_file_reads_back Config.default_settings rejecting_pdf_reader _ _ _ _ _ _ E)
      as (Htxt & _).
    exact (proj1 (Htxt eq_refl)).
Defined.

(** X4.  [delete_file] reports success exactly when the file is gone
    afterwards: it returns [True] and the path is free (also when the file
    was not there, in which case nothing changes), or it returns [False]
    because removing an existing file raised, and the directory is
    unchanged.  Other files are never touched. *)
Theorem delete_file_outcome (file_path : string) (st : DocumentProcessor.Storage) :
  let removed := fst (DocumentProcessor.delete_file file_path st) in
  let st' := snd (DocumentProcessor.delete_file file_path st) in
  (removed = true -> DocumentProcessor.files st' !! file_path = None)
  /\ (removed = false ->
      DocumentProcessor.files st' = DocumentProcessor.files st
      /\ is_Some (DocumentProcessor.files st !! file_path)
      /\ is_Some (DocumentProcessor.write_fault st (DocumentProcessor.writes st)))
  /\ (forall other, other <> file_path ->
        DocumentProcessor.files st' !! other = DocumentProcessor.files st !! other)
  /\ (DocumentProcessor.files st !! file_path = None -> removed = true /\ st' = st).
Proof.
  cbv zeta. unfold DocumentProcessor.delete_file.
  destruct (DocumentProcessor.files st !! file_path) as [content |] eqn:Hfile.
  - destruct (DocumentProcessor.write_fault st (DocumentProcessor.writes st)) eqn:Hw; simpl.
    + split; [discriminate |]. split; [eauto |]. split; [reflexivity | discriminate].
    + split; [intros _; apply lookup_delete_eq |]. split; [discriminate |].
      split; [| discriminate]. intros other Hother. apply lookup_delete_ne. congruence.
  - simpl. split; [auto |]. split; [discriminate |]. split; auto.
Qed.

(** After the padded text file is deleted, its path is free. *)
Lemma delete_file_outcome_witness :
  DocumentProcessor.files
    (snd (DocumentProcessor.delete_file "./uploads/notes.txt" padded_notes))
  !! "./uploads/notes.txt" = None.
Proof.
  apply (delete_file_outcome "./uploads/notes.txt" padded_notes).
  vm_compute. reflexivity.
Defined.

(* ===================================================================== *)
(** * Chunk ids and the contents of the index                           *)
(* ===================================================================== *)

Section DecimalFacts.

Lemma digit_spec (d : Z) :
  0 <= d < 10 ->
  digit_value (digit d) = d /\ is_digit (digit d) = true.
Proof.
  intros Hd.
  assert (d = 0 \/ d = 1 \/ d = 2 \/ d = 3 \/ d = 4 \/ d = 5 \/ d = 6 \/ d = 7
          \/ d = 8 \/ d = 9) as Hcases by lia.
  repeat (destruct Hcases as [-> | Hcases]; [split; reflexivity |]).
  subst d. split; reflexivity.
Qed.

Lemma digits_fuel_value (fuel : nat) (n : Z) (acc : string) :
  0 <= n < 2 ^ Z.of_nat fuel ->
  decimal_value 0 (digits_fuel fuel n acc) = decimal_value n acc.
Proof.
  revert n acc. induction fuel as [| fuel IH]; intros n acc Hn.
  - simpl in *. replace n with 0 by lia. reflexivity.
  - cbn [digits_fuel].
    assert (0 <= n mod 10 < 10) as Hd by (apply Z.mod_pos_bound; lia).
    destruct (digit_spec _ Hd) as [Hv _].
    pose proof (Z.div_mod n 10 ltac:(lia)) as Hdm.
    destruct (Z.eqb_spec (n / 10) 0) as [Hz | Hnz].
    + cbn [decimal_value]. rewrite Hv. f_equal. lia.
    + rewrite IH.
      * cbn [decimal_value]. rewrite Hv. f_equal. lia.
      * rewrite Nat2Z.inj_succ, Z.pow_succ_r in Hn by lia.
        split; [apply Z.div_pos; lia |].
        apply Z.div_lt_upper_bound; lia.
Qed.

Lemma digits_fuel_chars (fuel : nat) (n : Z) (acc : string) :
  all_chars is_digit acc = true ->
  all_chars is_digit (digits_fuel fuel n acc) = true.
Proof.
  revert n acc. induction fuel as [| fuel IH]; intros n acc Hacc; [exact Hacc |].
  cbn [digits_fuel].
  assert (0 <= n mod 10 < 10) as Hd by (apply Z.mod_pos_bound; lia).
  destruct (digit_spec _ Hd) as [_ Hc].
  assert (all_chars is_digit (String (digit (n mod 10)) acc) = true) as Hacc'
    by (cbn [all_chars]; rewrite Hc, Hacc; reflexivity).
  destruct (n / 10 =? 0); [exact Hacc' | apply IH; exact Hacc'].
Qed.

Lemma digits_fuel_nonempty (fuel : nat) (n : Z) (acc : string) :
  truthy (digits_fuel (S fuel) n acc) = true.
Proof.
  revert n acc. induction fuel as [| fuel IH]; intros n acc.
  - cbn [digits_fuel]. destruct (n / 10 =? 0); reflexivity.
  - change (digits_fuel (S (S fuel)) n acc)
      with (let acc' := String (digit (n mod 10)) acc in
            if n / 10 =? 0 then acc' else digits_fuel (S fuel) (n / 10) acc').
    cbv zeta. destruct (n / 10 =? 0); [reflexivity | apply IH].
Qed.

Lemma str_nonneg_value (n : Z) : 0 <= n -> decimal_value 0 (str_nonneg n) = n.
Proof.
  intros Hn. unfold str_nonneg. rewrite digits_fuel_value; [reflexivity |].
  split; [exact Hn |].
  rewrite Nat2Z.inj_succ, Z2Nat.id by apply Z.log2_nonneg.
  destruct (Z.eq_dec n 0) as [-> | Hne]; [reflexivity |].
  apply Z.log2_spec. lia.
Qed.

Lemma str_nonneg_chars (n : Z) :
  all_chars is_digit (str_nonneg n) = true /\ truthy (str_nonneg n) = true.
Proof.
  unfold str_nonneg. split; [apply digits_fuel_chars; reflexivity |].
  apply digits_fuel_nonempty.
Qed.

Lemma is_digit_not_dash (c : ascii) : is_digit c = true -> Ascii.eqb c "-" = false.
Proof.
  unfold is_digit. intros H. destruct (Ascii.eqb_spec c "-") as [-> | _]; [| reflexivity].
  discriminate.
Qed.

(** [str] can be read back. *)
Lemma int_of_str_str_Z (n : Z) : int_of_str (str_Z n) = n.
Proof.
  unfold str_Z. destruct (Z.ltb_spec n 0) as [Hneg | Hpos].
  - change ("-" +:+ str_nonneg (- n)) with (String "-" (str_nonneg (- n))).
    cbn [int_of_str]. rewrite str_nonneg_value by lia. lia.
  - destruct (str_nonneg_chars n) as [Hc Hne].
    pose proof (str_nonneg_value n Hpos) as Hv.
    destruct (str_nonneg n) as [| c s]; [discriminate |].
    cbn [all_chars] in Hc. apply andb_prop in Hc. destruct Hc as [Hc _].
    apply is_digit_not_dash in Hc.
    unfold int_of_str.
    destruct c as [b0 b1 b2 b3 b4 b5 b6 b7].
    destruct b0, b1, b2, b3, b4, b5, b6, b7; try exact Hv; discriminate.
Qed.

Lemma str_Z_inj (n m : Z) : str_Z n = str_Z m -> n = m.
Proof.
  intros H. rewrite <- (int_of_str_str_Z n), <- (int_of_str_str_Z m), H. reflexivity.
Qed.

Lemma all_chars_impl (p q : ascii -> bool) (s : string) :
  (forall c, p c = true -> q c = true) -> all_chars p s = true -> all_chars q s = true.
Proof.
  intros Hpq. induction s as [| c s IH]; [reflexivity |]. cbn [all_chars].
  intros H. apply andb_prop in H. destruct H as [Hc Hs].
  rewrite (Hpq c Hc), (IH Hs). reflexivity.
Qed.

Lemma str_Z_chars (n : Z) : all_chars is_sign_or_digit (str_Z n) = true.
Proof.
  assert (forall k, all_chars is_sign_or_digit (str_nonneg k) = true) as Hk.
  { intros k. apply (all_chars_impl is_digit); [| apply str_nonneg_chars].
    intros c Hc. unfold is_sign_or_digit. rewrite Hc. apply orb_true_r. }
  unfold str_Z. destruct (n <? 0); [| apply Hk].
  change ("-" +:+ str_nonneg (- n)) with (String "-" (str_nonneg (- n))).
  cbn [all_chars]. rewrite Hk. reflexivity.
Qed.

Lemma split_at_underscore (a b : string) :
  all_chars is_sign_or_digit a = true ->
  before_underscore (a +:+ String "_" b) = a
  /\ after_underscore (a +:+ String "_" b) = b.
Proof.
  induction a as [| c a IH]; [split; reflexivity |].
  cbn [all_chars]. intros H. apply andb_prop in H. destruct H as [Hc Ha].
  rewrite append_cons. cbn [before_underscore after_underscore].
  assert (Ascii.eqb c "_" = false) as Hu.
  { destruct (Ascii.eqb_spec c "_") as [-> | _]; [discriminate | reflexivity]. }
  rewrite Hu. destruct (IH Ha) as [Hb Hafter]. rewrite Hb, Hafter. split; reflexivity.
Qed.

Lemma chunk_id_inj (d i d' i' : Z) :
  VectorStore.chunk_id d i = VectorStore.chunk_id d' i' -> d = d' /\ i = i'.
Proof.
  unfold VectorStore.chunk_id.
  change ("doc_" +:+ str_Z d +:+ "_chunk_" +:+ str_Z i)
    with (String "d" (String "o" (String "c" (String "_"
            (str_Z d +:+ String "_" ("chunk_" +:+ str_Z i)))))).
  change ("doc_" +:+ str_Z d' +:+ "_chunk_" +:+ str_Z i')
    with (String "d" (String "o" (String "c" (String "_"
            (str_Z d' +:+ String "_" ("chunk_" +:+ str_Z i')))))).
  intros H. injection H as H.
  destruct (split_at_underscore (str_Z d) ("chunk_" +:+ str_Z i) (str_Z_chars d))
    as [Hb Ha].
  destruct (split_at_underscore (str_Z d') ("chunk_" +:+ str_Z i') (str_Z_chars d'))
    as [Hb' Ha'].
  rewrite H in Hb, Ha. rewrite Hb' in Hb. rewrite Ha' in Ha.
  split; [apply str_Z_inj; congruence |].
  apply str_Z_inj.
  change ("chunk_" +:+ str_Z i')
    with (String "c" (String "h" (String "u" (String "n" (String "k" (String "_" (str_Z i'))))))) in Ha.
  change ("chunk_" +:+ str_Z i)
    with (String "c" (String "h" (String "u" (String "n" (String "k" (String "_" (str_Z i))))))) in Ha.
  injection Ha as Ha. congruence.
Qed.

End DecimalFacts.

(** X5.  The chunk id [doc_<document>_chunk_<index>] determines the document
    id and the chunk index: two chunks get the same id only if both agree. *)
Theorem chunk_ids_are_unique (d i d' i' : Z) :
  VectorStore.chunk_id d i = VectorStore.chunk_id d' i' <-> d = d' /\ i = i'.
Proof.
  split; [apply chunk_id_inj | intros [-> ->]; reflexivity].
Qed.

(** Chunk 11 of document 1 and chunk 1 of document 11 have different ids. *)
Lemma chunk_ids_are_unique_witness :
  VectorStore.chunk_id 1 11 <> VectorStore.chunk_id 11 1.
Proof.
  intros H. apply chunk_ids_are_unique in H. destruct H as [H _]. discriminate H.
Defined.

Section IndexFacts.

Variable settings : Config.Settings.
Variable embed_api : string -> result (list Q).

(** The state in which the service holds its client. *)
Lemma build_entries_outcome (chunks : list string) (embeddings : list (list Q))
    (i document_id : Z) (document_name : string) (user_id : Z) (s : VectorStore.State) :
  length embeddings = length chunks ->
  exists entries s',
    VectorStore.build_entries chunks embeddings i document_id document_name user_id s
    = (Ok entries, s')
    /\ VectorStore.collection s' = VectorStore.collection s
    /\ VectorStore._initialized s' = VectorStore._initialized s
    /\ VectorStore.fault_at s' = VectorStore.fault_at s
    /\ VectorStore.calls s' = VectorStore.calls s
    /\ length entries = length chunks
    /\ forall k e,
         nth_error entries k = Some e ->
         VectorStore.id e = VectorStore.chunk_id document_id (i + Z.of_nat k)
         /\ nth_error chunks k = Some (VectorStore.document e)
         /\ nth_error embeddings k = Some (VectorStore.embedding e)
         /\ VectorStore.document_id (VectorStore.metadata e) = document_id
         /\ VectorStore.document_name (VectorStore.metadata e) = document_name
         /\ VectorStore.user_id (VectorStore.metadata e) = user_id
         /\ VectorStore.chunk_index (VectorStore.metadata e) = i + Z.of_nat k.
Proof.
  revert embeddings i s.
  induction chunks as [| c chunks IH]; intros [| v embeddings] i s Hlen;
    try discriminate.
  - exists [], s. simpl. do 6 (split; [reflexivity |]). intros [| k] e H; discriminate.
  - cbn [VectorStore.build_entries]. unfold bindM at 1, VectorStore.wall_clock at 1.
    destruct (IH embeddings (i + 1) (VectorStore.tick_clock s)) as
      (entries & s' & E & Hc & Hi & Hf & Hk & Hl & Hall); [simpl in Hlen; lia |].
    unfold bindM at 1. rewrite E. unfold ret.
    do 2 eexists. split; [reflexivity |].
    repeat (split; [assumption || (simpl; congruence) |]).
    intros [| k] e Hk'.
    + injection Hk' as <-. simpl. rewrite Z.add_0_r. repeat split.
    + simpl in Hk'. destruct (Hall k e Hk') as (H1 & H2 & H3 & H4 & H5 & H6 & H7).
      rewrite Nat2Z.inj_succ. simpl.
      replace (i + Z.succ (Z.of_nat k)) with (i + 1 + Z.of_nat k) by lia.
      repeat split; assumption.
Qed.

Lemma ensure_initialized_ok (s s0 : VectorStore.State) (u : unit) :
  VectorStore._ensure_initialized settings s = (Ok u, s0) ->
  VectorStore._initialized s0 = true
  /\ VectorStore.collection s0 = VectorStore.collection s
  /\ VectorStore.fault_at s0 = VectorStore.fault_at s
  /\ VectorStore._embeddings s0
     = if VectorStore._initialized s then VectorStore._embeddings s
       else truthy (Config.OPENAI_API_KEY settings).
Proof.
  unfold VectorStore._ensure_initialized.
  destruct (VectorStore._initialized s) eqn:Hi.
  - intros H; inversion H; subst. auto.
  - unfold bindM, VectorStore.client_call, modify.
    destruct (VectorStore.fault_at s (VectorStore.calls s)); intros H; inversion H.
    simpl. auto.
Qed.

Lemma ensure_initialized_noop (s : VectorStore.State) :
  VectorStore._initialized s = true ->
  VectorStore._ensure_initialized settings s = (Ok tt, s).
Proof. intros H. unfold VectorStore._ensure_initialized. rewrite H. reflexivity. Qed.

Lemma map_result_nth {A B} (f : A -> result B) (xs : list A) (ys : list B) :
  map_result f xs = Ok ys ->
  length ys = length xs
  /\ forall k x y, nth_error xs k = Some x -> nth_error ys k = Some y -> f x = Ok y.
Proof.
  revert ys. induction xs as [| x xs IH]; intros ys; simpl.
  - intros H; inversion H. split; [reflexivity |]. intros [| k]; discriminate.
  - destruct (f x) as [y |] eqn:Ex; simpl; [| discriminate].
    destruct (map_result f xs) as [ys' |]; simpl; [| discriminate].
    intros H; inversion H; subst. destruct (IH ys' eq_refl) as [Hl Hn].
    split; [simpl; lia |].
    intros [| k] x0 y0; simpl.
    + intros H1 H2. congruence.
    + apply Hn.
Qed.

Lemma add_documents_outcome (chunks : list string) (document_id : Z)
    (document_name : string) (user_id : Z) (s s' : VectorStore.State) (n : Z) :
  VectorStore.add_documents settings embed_api chunks document_id document_name user_id s
  = (Ok n, s') ->
  n = Z.of_nat (length chunks)
  /\ VectorStore._initialized s' = true
  /\ exists entries,
       length entries = length chunks
       /\ (forall k e,
             nth_error entries k = Some e ->
             VectorStore.id e = VectorStore.chunk_id document_id (Z.of_nat k)
             /\ nth_error chunks k = Some (VectorStore.document e)
             /\ VectorStore.document_id (VectorStore.metadata e) = document_id
             /\ VectorStore.document_name (VectorStore.metadata e) = document_name
             /\ VectorStore.user_id (VectorStore.metadata e) = user_id
             /\ VectorStore.chunk_index (VectorStore.metadata e) = Z.of_nat k
             /\ ((if VectorStore._initialized s then VectorStore._embeddings s
                  else truthy (Config.OPENAI_API_KEY settings)) = false ->
                 VectorStore.embedding e
                 = VectorStore._get_mock_embedding (VectorStore.document e))
             /\ ((if VectorStore._initialized s then VectorStore._embeddings s
                  else truthy (Config.OPENAI_API_KEY settings)) = true ->
                 embed_api (VectorStore.document e) = Ok (VectorStore.embedding e)))
       /\ VectorStore.collection s'
          = VectorStore.collection s
              ++ List.filter
                   (fun e => negb (existsb (fun e' => String.eqb (VectorStore.id e')
                                                        (VectorStore.id e))
                                     (VectorStore.collection s)))
                   entries.
Proof.
  unfold VectorStore.add_documents. unfold bindM at 1.
  destruct (VectorStore._ensure_initialized settings s) as [[[] | e0] s0] eqn:Einit;
    [| discriminate].
  destruct (ensure_initialized_ok _ _ _ Einit) as (Hi0 & Hc0 & _ & He0).
  destruct chunks as [| c chunks].
  { intros H; inversion H; subst. split; [reflexivity |]. split; [assumption |].
    exists []. split; [reflexivity |]. split; [intros [| k] e Hk; discriminate |].
    simpl. rewrite app_nil_r. congruence. }
  set (cs := c :: chunks). unfold bindM at 1.
  destruct (VectorStore._embeddings s0) eqn:Eemb.
  - unfold lift at 1.
    destruct (map_result embed_api cs) as [embeddings | e1] eqn:Emap;
      [| intros H; inversion H].
    destruct (map_result_nth _ _ _ Emap) as [Hlen Hnth].
    destruct (build_entries_outcome cs embeddings 0 document_id document_name user_id s0 Hlen)
      as (entries & s1 & Eb & Hc1 & Hi1 & Hf1 & Hk1 & Hl1 & Hall).
    unfold bindM at 1. rewrite Eb.
    unfold VectorStore.add, VectorStore.client_call, bindM, modify, ret.
    destruct (VectorStore.fault_at s1 (VectorStore.calls s1));
      [intros H; discriminate H |].
    intros H; inversion H; subst; clear H. simpl.
    split; [reflexivity |]. split; [congruence |].
    exists entries. split; [assumption |]. split; [| rewrite Hc1, Hc0; reflexivity].
    intros k e Hk. destruct (Hall k e Hk) as (H1 & H2 & H3 & H4 & H5 & H6 & H7).
    rewrite Z.add_0_l in H1, H7. rewrite <- He0.
    repeat (split; [assumption |]). split; [discriminate |].
    intros _. eapply Hnth; eassumption.
  - unfold ret at 1.
    assert (length (map VectorStore._get_mock_embedding cs) = length cs) as Hlen
      by apply length_map.
    destruct (build_entries_outcome cs _ 0 document_id document_name user_id s0 Hlen)
      as (entries & s1 & Eb & Hc1 & Hi1 & Hf1 & Hk1 & Hl1 & Hall).
    unfold bindM at 1. rewrite Eb.
    unfold VectorStore.add, VectorStore.client_call, bindM, modify, ret.
    destruct (VectorStore.fault_at s1 (VectorStore.calls s1));
      [intros H; discriminate H |].
    intros H; inversion H; subst; clear H. simpl.
    split; [reflexivity |]. split; [congruence |].
    exists entries. split; [assumption |]. split; [| rewrite Hc1, Hc0; reflexivity].
    intros k e Hk. destruct (Hall k e Hk) as (H1 & H2 & H3 & H4 & H5 & H6 & H7).
    rewrite Z.add_0_l in H1, H7. rewrite <- He0.
    repeat (split; [assumption |]). split; [| discriminate].
    intros _. rewrite nth_error_map in H3. rewrite H2 in H3. simpl in H3. congruence.
Qed.

Lemma filter_all {A} (p : A -> bool) (l : list A) :
  (forall x, In x l -> p x = true) -> List.filter p l = l.
Proof.
  induction l as [| x l IH]; intros H; simpl; [reflexivity |].
  rewrite (H x (or_introl eq_refl)). f_equal. apply IH. intros y Hy. apply H. now right.
Qed.

Lemma filter_none {A} (p : A -> bool) (l : list A) :
  (forall x, In x l -> p x = false) -> List.filter p l = [].
Proof.
  induction l as [| x l IH]; intros H; simpl; [reflexivity |].
  rewrite (H x (or_introl eq_refl)). apply IH. intros y Hy. apply H. now right.
Qed.

Lemma bind_ensure_initialized {A} (k : unit -> M VectorStore.State A)
    (s : VectorStore.State) :
  VectorStore._initialized s = true ->
  bindM (VectorStore._ensure_initialized settings) k s = k tt s.
Proof. intros H. unfold bindM. rewrite (ensure_initialized_noop s H). reflexivity. Qed.

(** What [delete_document] does once the service holds its client. *)
Lemma delete_document_outcome (document_id : Z) (s : VectorStore.State) :
  VectorStore._initialized s = true ->
  let ids_of_document :=
    map VectorStore.id
      (List.filter (fun e => VectorStore.document_id (VectorStore.metadata e) =? document_id)
         (VectorStore.collection s)) in
  exists ok s',
    VectorStore.delete_document settings document_id s = (Ok ok, s')
    /\ VectorStore._initialized s' = true
    /\ ((ok = true
         /\ VectorStore.fault_at s (VectorStore.calls s) = None
         /\ VectorStore.collection s'
            = List.filter
                (fun e => negb (existsb (String.eqb (VectorStore.id e)) ids_of_document))
                (VectorStore.collection s))
        \/ (ok = false
            /\ VectorStore.collection s' = VectorStore.collection s
            /\ (is_Some (VectorStore.fault_at s (VectorStore.calls s))
                \/ is_Some (VectorStore.fault_at s (S (VectorStore.calls s)))))).
Proof.
  intros Hinit. cbv zeta.
  unfold VectorStore.delete_document. unfold bindM at 1.
  rewrite (ensure_initialized_noop s Hinit).
  unfold VectorStore.get_ids, VectorStore.delete, VectorStore.client_call.
  unfold try_exceptM, bindM, gets, modify, ret.
  destruct (VectorStore.fault_at s (VectorStore.calls s)) as [e |] eqn:F1.
  { do 2 eexists. split; [reflexivity |]. split; [exact Hinit |]. right. eauto. }
  cbn [VectorStore.collection VectorStore.tick_call VectorStore.fault_at VectorStore.calls].
  destruct (map VectorStore.id _) as [| x found] eqn:Efound.
  { do 2 eexists. split; [reflexivity |]. split; [exact Hinit |]. left.
    split; [reflexivity |]. split; [reflexivity |].
    simpl. symmetry. apply filter_all. reflexivity. }
  cbn [VectorStore.collection VectorStore.tick_call VectorStore.fault_at VectorStore.calls].
  destruct (VectorStore.fault_at s (S (VectorStore.calls s))) as [e |] eqn:F2.
  { do 2 eexists. split; [reflexivity |]. split; [exact Hinit |]. right. eauto. }
  do 2 eexists. split; [reflexivity |]. split; [exact Hinit |]. left.
  split; [reflexivity |]. split; [reflexivity |]. reflexivity.
Qed.

End IndexFacts.

Lemma nth_error_filter_In {A} (p : A -> bool) (l : list A) (x : A) :
  In x (List.filter p l) -> exists k, nth_error l k = Some x /\ (k < length l)%nat.
Proof.
  intros H. apply filter_In in H. destruct H as [H _].
  apply In_nth_error in H. destruct H as [k Hk]. exists k. split; [exact Hk |].
  apply nth_error_Some. congruence.
Qed.

(** X6.  When [add_documents] returns, it returns the number of chunks;
    what it appended to the collection comes after the entries that were
    there, and every appended entry carries the given document id, document
    name and user id, the id [doc_<document>_chunk_<k>] and the chunk index
    [k] of a chunk at position [k], and that chunk as its text.  When no
    stored id collides with these ids, the appended texts are exactly the
    chunks, in order. *)
Theorem indexed_chunks_carry_owner_and_position
    (settings : Config.Settings) (embed_api : string -> result (list Q))
    (chunks : list string) (document_id : Z) (document_name : string) (user_id : Z)
    (s s' : VectorStore.State) (n : Z) :
  VectorStore.add_documents settings embed_api chunks document_id document_name user_id s
  = (Ok n, s') ->
  n = Z.of_nat (length chunks)
  /\ exists new,
       VectorStore.collection s' = VectorStore.collection s ++ new
       /\ (length new <= length chunks)%nat
       /\ Forall (fun e =>
                    VectorStore.document_id (VectorStore.metadata e) = document_id
                    /\ VectorStore.document_name (VectorStore.metadata e) = document_name
                    /\ VectorStore.user_id (VectorStore.metadata e) = user_id
                    /\ exists k,
                         (k < length chunks)%nat
                         /\ VectorStore.id e = VectorStore.chunk_id document_id (Z.of_nat k)
                         /\ VectorStore.chunk_index (VectorStore.metadata e) = Z.of_nat k
                         /\ nth_error chunks k = Some (VectorStore.document e))
            new
       /\ ((forall e k, In e (VectorStore.collection s) ->
              VectorStore.id e <> VectorStore.chunk_id document_id k) ->
           map VectorStore.document new = chunks).
Proof.
  intros Hadd.
  destruct (add_documents_outcome settings embed_api _ _ _ _ _ _ _ Hadd)
    as (Hn & _ & entries & Hlen & Hall & Hcoll).
  split; [exact Hn |].
  eexists. split; [exact Hcoll |]. split; [| split].
  - rewrite <- Hlen. apply filter_length_le.
  - apply List.Forall_forall. intros e He.
    destruct (nth_error_filter_In _ _ _ He) as (k & Hk & Hlt).
    destruct (Hall k e Hk) as (H1 & H2 & H3 & H4 & H5 & H6 & _).
    repeat (split; [assumption |]). exists k. rewrite <- Hlen. auto.
  - intros Hfresh. rewrite filter_all.
    + apply nth_error_ext. intros k. rewrite nth_error_map.
      destruct (nth_error entries k) as [e |] eqn:Ek; simpl.
      * destruct (Hall k e Ek) as (_ & H2 & _). congruence.
      * symmetry. apply nth_error_None. rewrite <- Hlen. apply nth_error_None. exact Ek.
    + intros e He. apply In_nth_error in He. destruct He as [k Hk].
      destruct (Hall k e Hk) as (H1 & _).
      apply negb_true_iff. apply not_true_is_false. intros Hex.
      apply existsb_exists in Hex. destruct Hex as (e' & He' & Heq).
      apply String.eqb_eq in Heq. apply (Hfresh e' (Z.of_nat k) He'). congruence.
Qed.

(** No id stored in the shared index is a chunk id of document 3. *)
Lemma shared_index_ids_fresh (e : VectorStore.Entry) (k : Z) :
  In e (VectorStore.collection shared_index) ->
  VectorStore.id e <> VectorStore.chunk_id 3 k.
Proof.
  intros [<- | [<- | [<- | [<- | []]]]] H.
  - change (VectorStore.chunk_id 1 0 = VectorStore.chunk_id 3 k) in H.
    apply chunk_id_inj in H. destruct H as [H _]. discriminate H.
  - change (VectorStore.chunk_id 1 1 = VectorStore.chunk_id 3 k) in H.
    apply chunk_id_inj in H. destruct H as [H _]. discriminate H.
  - change (VectorStore.chunk_id 2 0 = VectorStore.chunk_id 3 k) in H.
    apply chunk_id_inj in H. destruct H as [H _]. discriminate H.
  - change (VectorStore.chunk_id 1 2 = VectorStore.chunk_id 3 k) in H.
    apply chunk_id_inj in H. destruct H as [H _]. discriminate H.
Qed.

(** Two chunks of document 3 are added to the shared index for user 7. *)
Lemma indexed_chunks_carry_owner_and_position_witness :
  exists s' new,
    VectorStore.add_documents openai_only_settings fixed_embed_api ["alpha"; "beta"]
      3 "notes.txt" 7 shared_index = (Ok 2, s')
    /\ VectorStore.collection s' = VectorStore.collection shared_index ++ new
    /\ map VectorStore.document new = ["alpha"; "beta"]
    /\ Forall (fun e => VectorStore.user_id (VectorStore.metadata e) = 7) new.
Proof.
  destruct (VectorStore.add_documents openai_only_settings fixed_embed_api ["alpha"; "beta"]
              3 "notes.txt" 7 shared_index) as [[n | e] s'] eqn:E;
    [| vm_compute in E; discriminate E].
  destruct (indexed_chunks_carry_owner_and_position _ _ _ _ _ _ _ _ _ E)
    as (-> & new & Hcoll & _ & Htags & Hfresh).
  exists s', new. split; [reflexivity |]. split; [exact Hcoll |].
  split; [apply Hfresh; intros e k; apply shared_index_ids_fresh |].
  eapply List.Forall_impl; [| exact Htags]. simpl. tauto.
Defined.

(** X7.  Once the service holds its client, [delete_document] of the vector
    store never raises.  When it returns [True], no entry of that document
    is left and every entry whose id is not the id of one of the document's
    chunks is kept; when it returns [False], a call to the index client
    failed and the collection is unchanged.  It never adds an entry. *)
Theorem vector_delete_purges_document
    (settings : Config.Settings) (document_id : Z) (s : VectorStore.State) :
  VectorStore._initialized s = true ->
  exists ok s',
    VectorStore.delete_document settings document_id s = (Ok ok, s')
    /\ (ok = true ->
        Forall (fun e => VectorStore.document_id (VectorStore.metadata e) <> document_id)
          (VectorStore.collection s')
        /\ forall e,
             In e (VectorStore.collection s) ->
             (forall e', In e' (VectorStore.collection s) ->
                VectorStore.document_id (VectorStore.metadata e') = document_id ->
                VectorStore.id e' <> VectorStore.id e) ->
             In e (VectorStore.collection s'))
    /\ (ok = false ->
        VectorStore.collection s' = VectorStore.collection s
        /\ (is_Some (VectorStore.fault_at s (VectorStore.calls s))
            \/ is_Some (VectorStore.fault_at s (S (VectorStore.calls s)))))
    /\ (forall e, In e (VectorStore.collection s') -> In e (VectorStore.collection s)).
Proof.
  intros Hinit.
  destruct (delete_document_outcome settings document_id s Hinit)
    as (ok & s' & E & _ & [(-> & _ & Hc) | (-> & Hc & Hf)]);
    eexists; exists s'; (split; [exact E |]).
  - split; [| split; [discriminate |]].
    + intros _. split.
      * apply List.Forall_forall. intros e He Hd. rewrite Hc in He.
        apply filter_In in He. destruct He as [He Hkeep].
        apply negb_true_iff in Hkeep.
        assert (existsb (String.eqb (VectorStore.id e))
                  (map VectorStore.id
                     (List.filter
                        (fun e0 => VectorStore.document_id (VectorStore.metadata e0)
                                   =? document_id)
                        (VectorStore.collection s))) = true) as Hin; [| congruence].
        apply existsb_eqb_In. apply in_map. apply filter_In. split; [exact He | lia].
      * intros e He Hdistinct. rewrite Hc. apply filter_In. split; [exact He |].
        apply negb_true_iff. apply not_true_is_false. intros Hin.
        apply existsb_eqb_In in Hin. apply in_map_iff in Hin.
        destruct Hin as (e' & Heq & He').
        apply filter_In in He'. destruct He' as [He' Hd].
        apply (Hdistinct e' He'); [lia | exact Heq].
    + intros e He. rewrite Hc in He. apply filter_In in He. tauto.
  - split; [discriminate |]. split; [auto |].
    intros e He. rewrite Hc in He. exact He.
Qed.

(** Deleting document 1 from the shared index leaves none of its chunks. *)
Lemma vector_delete_purges_document_witness :
  exists s',
    VectorStore.delete_document openai_only_settings 1 shared_index = (Ok true, s')
    /\ Forall (fun e => VectorStore.document_id (VectorStore.metadata e) <> 1)
         (VectorStore.collection s').
Proof.
  destruct (vector_delete_purges_document openai_only_settings 1 shared_index eq_refl)
    as (ok & s' & E & Hpurged & _).
  assert (ok = true) as -> by (vm_compute in E; injection E as <- _; reflexivity).
  exists s'. split; [exact E | apply Hpurged; reflexivity].
Defined.

(** X8.  Indexing a document and then deleting it restores the collection:
    if no stored entry belongs to the document or carries one of its chunk
    ids, and the index client answers the two calls of the deletion, then
    [delete_document] after [add_documents] returns [True] and leaves the
    collection as it was before the document was added. *)
Theorem indexed_document_can_be_purged
    (settings : Config.Settings) (embed_api : string -> result (list Q))
    (chunks : list string) (document_id : Z) (document_name : string) (user_id : Z)
    (s s1 : VectorStore.State) (n : Z) :
  VectorStore.add_documents settings embed_api chunks document_id document_name user_id s
  = (Ok n, s1) ->
  Forall (fun e =>
            VectorStore.document_id (VectorStore.metadata e) <> document_id
            /\ forall k, VectorStore.id e <> VectorStore.chunk_id document_id k)
    (VectorStore.collection s) ->
  VectorStore.fault_at s1 (VectorStore.calls s1) = None ->
  VectorStore.fault_at s1 (S (VectorStore.calls s1)) = None ->
  exists s2,
    VectorStore.delete_document settings document_id s1 = (Ok true, s2)
    /\ VectorStore.collection s2 = VectorStore.collection s.
Proof.
  intros Hadd Hold F1 F2.
  destruct (add_documents_outcome settings embed_api _ _ _ _ _ _ _ Hadd)
    as (_ & Hinit & entries & Hlen & Hall & Hcoll).
  rewrite List.Forall_forall in Hold.
  destruct (delete_document_outcome settings document_id s1 Hinit)
    as (ok & s2 & E & _ & [(-> & _ & Hc) | (-> & _ & [[e F] | [e F]])]);
    [| congruence | congruence].
  exists s2. split; [exact E |]. rewrite Hc, Hcoll.
  set (new := List.filter _ entries).
  assert (forall e, In e new ->
            VectorStore.document_id (VectorStore.metadata e) = document_id
            /\ exists k, VectorStore.id e = VectorStore.chunk_id document_id k) as Hnew.
  { intros e He. unfold new in He. apply filter_In in He. destruct He as [He _].
    apply In_nth_error in He. destruct He as [k Hk].
    destruct (Hall k e Hk) as (H1 & _ & H3 & _). eauto. }
  assert (List.filter
            (fun e => VectorStore.document_id (VectorStore.metadata e) =? document_id)
            (VectorStore.collection s ++ new) = new) as Hids.
  { rewrite List.filter_app.
    rewrite (filter_none _ (VectorStore.collection s)) by
      (intros e He; destruct (Hold e He) as [Hd _]; apply Z.eqb_neq; exact Hd).
    apply filter_all.
    intros e He; destruct (Hnew e He) as [Hd _]; apply Z.eqb_eq; exact Hd. }
  rewrite Hids, List.filter_app.
  rewrite (filter_all _ (VectorStore.collection s)).
  - rewrite (filter_none _ new); [apply app_nil_r |].
    intros e He. apply negb_false_iff. apply existsb_eqb_In. apply in_map. exact He.
  - intros e He. apply negb_true_iff. apply not_true_is_false. intros Hin.
    apply existsb_eqb_In in Hin. apply in_map_iff in Hin.
    destruct Hin as (e' & Heq & He').
    destruct (Hnew e' He') as (_ & k & Hk).
    destruct (Hold e He) as [_ Hid]. apply (Hid k). congruence.
Qed.

(** Document 3 is added to the shared index and deleted again. *)
Lemma indexed_document_can_be_purged_witness :
  exists s1 s2,
    VectorStore.add_documents openai_only_settings fixed_embed_api ["alpha"; "beta"]
      3 "notes.txt" 7 shared_index = (Ok 2, s1)
    /\ VectorStore.delete_document openai_only_settings 3 s1 = (Ok true, s2)
    /\ VectorStore.collection s2 = VectorStore.collection shared_index.
Proof.
  destruct (VectorStore.add_documents openai_only_settings fixed_embed_api ["alpha"; "beta"]
              3 "notes.txt" 7 shared_index) as [[n | e] s1] eqn:E;
    [| vm_compute in E; discriminate E].
  assert (n = 2 /\ VectorStore.fault_at s1 = (fun _ => None)) as [-> Hfaults]
    by (vm_compute in E; injection E as <- <-; split; reflexivity).
  destruct (indexed_document_can_be_purged _ _ _ _ _ _ _ _ _ E) as (s2 & Edel & Hback).
  - apply List.Forall_forall. intros e He. split.
    + destruct He as [<- | [<- | [<- | [<- | []]]]]; discriminate.
    + intros k. apply shared_index_ids_fresh. exact He.
  - rewrite Hfaults. reflexivity.
  - rewrite Hfaults. reflexivity.
  - exists s1, s2. split; [reflexivity |]. split; [exact Edel | exact Hback].
Defined.

(** X9.  Once the service holds its client, [get_total_count] and
    [get_document_count] never raise and do not change the collection: they
    return the number of entries (of the user), and 0 when the call to the
    index client fails, so that a failure cannot be told from an empty
    store; a user's count never exceeds the total. *)
Theorem counts_report_zero_when_index_fails
    (settings : Config.Settings) (user_id : Z) (s : VectorStore.State) :
  VectorStore._initialized s = true ->
  let mine := List.filter
                (fun e => VectorStore.user_id (VectorStore.metadata e) =? user_id)
                (VectorStore.collection s) in
  exists total count s1 s2,
    VectorStore.get_total_count settings s = (Ok total, s1)
    /\ VectorStore.get_document_count settings user_id s = (Ok count, s2)
    /\ VectorStore.collection s1 = VectorStore.collection s
    /\ VectorStore.collection s2 = VectorStore.collection s
    /\ 0 <= count <= total
    /\ (VectorStore.fault_at s (VectorStore.calls s) = None ->
        total = Z.of_nat (length (VectorStore.collection s))
        /\ count = Z.of_nat (length mine))
    /\ (is_Some (VectorStore.fault_at s (VectorStore.calls s)) ->
        total = 0 /\ count = 0).
Proof.
  intros Hinit. cbv zeta.
  unfold VectorStore.get_total_count, VectorStore.get_document_count.
  rewrite !(bind_ensure_initialized settings _ s Hinit).
  unfold VectorStore.count, VectorStore.get_ids_of_user, VectorStore.client_call.
  unfold try_exceptM, bindM, gets, ret.
  destruct (VectorStore.fault_at s (VectorStore.calls s)) as [e |] eqn:F.
  - do 4 eexists. do 4 (split; [reflexivity |]). split; [lia |].
    split; [discriminate | auto].
  - cbn [VectorStore.collection VectorStore.tick_call].
    set (mine := List.filter _ (VectorStore.collection s)).
    assert ((match map VectorStore.id mine with
             | [] => 0
             | _ :: _ => Z.of_nat (length (map VectorStore.id mine))
             end) = Z.of_nat (length mine)) as Hcount
      by (rewrite length_map; destruct mine; reflexivity).
    destruct (map VectorStore.id mine) as [| x found] eqn:Efound;
      do 4 eexists; do 4 (split; [reflexivity |]);
      (split; [| split; [intros _; split; [reflexivity | exact Hcount]
                        | intros [e He]; discriminate]]);
      rewrite Hcount; pose proof (filter_length_le
        (fun e => VectorStore.user_id (VectorStore.metadata e) =? user_id)
        (VectorStore.collection s)) as Hle; fold mine in Hle; lia.
Qed.

(** The shared index holds four chunks, three of them of user 7. *)
Lemma counts_report_zero_when_index_fails_witness :
  fst (VectorStore.get_total_count openai_only_settings shared_index) = Ok 4
  /\ fst (VectorStore.get_document_count openai_only_settings 7 shared_index) = Ok 3.
Proof.
  destruct (counts_report_zero_when_index_fails openai_only_settings 7 shared_index eq_refl)
    as (total & count & s1 & s2 & Etotal & Ecount & _ & _ & _ & Hhealthy & _).
  destruct (Hhealthy eq_refl) as [-> ->]. rewrite Etotal, Ecount. split; reflexivity.
Defined.

(* ===================================================================== *)
(** * Searching an index that fails                                     *)
(* ===================================================================== *)

Section CollectionFacts.

Lemma keeps_collection_ret {A} (a : A) : keeps_collection (ret a).
Proof. intros s r s' H. inversion H. reflexivity. Qed.

Lemma keeps_collection_raise {A} (e : exn) : keeps_collection (@raise VectorStore.State A e).
Proof. intros s r s' H. inversion H. reflexivity. Qed.

Lemma keeps_collection_lift {A} (x : result A) : keeps_collection (lift x).
Proof. intros s r s' H. inversion H. reflexivity. Qed.

Lemma keeps_collection_gets {A} (f : VectorStore.State -> A) : keeps_collection (gets f).
Proof. intros s r s' H. inversion H. reflexivity. Qed.

Lemma keeps_collection_bind {A B} (m : M VectorStore.State A)
    (k : A -> M VectorStore.State B) :
  keeps_collection m -> (forall a, keeps_collection (k a)) -> keeps_collection (bindM m k).
Proof.
  intros Hm Hk s r s' H. unfold bindM in H.
  destruct (m s) as [[a | e] s1] eqn:E.
  - rewrite (Hk a _ _ _ H). apply (Hm _ _ _ E).
  - inversion H; subst. apply (Hm _ _ _ E).
Qed.

Lemma keeps_collection_try {A} (body : M VectorStore.State A)
    (handler : exn -> M VectorStore.State A) :
  keeps_collection body -> (forall e, keeps_collection (handler e)) ->
  keeps_collection (try_exceptM body handler).
Proof.
  intros Hb Hh s r s' H. unfold try_exceptM in H.
  destruct (body s) as [[a | e] s1] eqn:E.
  - inversion H; subst. apply (Hb _ _ _ E).
  - rewrite (Hh e _ _ _ H). apply (Hb _ _ _ E).
Qed.

Lemma keeps_collection_choice {A} (c : VectorStore.State -> bool)
    (m1 m2 : M VectorStore.State A) :
  keeps_collection m1 -> keeps_collection m2 ->
  keeps_collection (fun s => if c s then m1 s else m2 s).
Proof.
  intros H1 H2 s r s' H. destruct (c s); [apply (H1 _ _ _ H) | apply (H2 _ _ _ H)].
Qed.

Lemma keeps_collection_client_call (q : VectorStore.Request) :
  keeps_collection (VectorStore.client_call q).
Proof.
  intros s r s' H. unfold VectorStore.client_call in H.
  destruct (VectorStore.fault_at s (VectorStore.calls s)); inversion H; reflexivity.
Qed.

Lemma keeps_collection_ensure_initialized (settings : Config.Settings) :
  keeps_collection (VectorStore._ensure_initialized settings).
Proof.
  unfold VectorStore._ensure_initialized.
  apply keeps_collection_choice; [apply keeps_collection_ret |].
  apply keeps_collection_bind; [apply keeps_collection_client_call |].
  intros _ s r s' H. inversion H. reflexivity.
Qed.

Lemma keeps_collection_search (settings : Config.Settings)
    (distance : list Q -> list Q -> Q) (embed_api : string -> result (list Q))
    (query_text : string) (user_id n_results : Z) :
  keeps_collection
    (VectorStore.search settings distance embed_api query_text user_id n_results).
Proof.
  unfold VectorStore.search.
  apply keeps_collection_bind; [apply keeps_collection_ensure_initialized | intros _].
  apply keeps_collection_try; [| intros _; apply keeps_collection_ret].
  apply keeps_collection_bind.
  { apply (keeps_collection_choice VectorStore._embeddings);
      [apply keeps_collection_lift | apply keeps_collection_ret]. }
  intros q. unfold VectorStore.count, VectorStore.query.
  apply keeps_collection_bind.
  { apply keeps_collection_bind;
      [apply keeps_collection_client_call | intros _; apply keeps_collection_gets]. }
  intros total. apply keeps_collection_bind.
  { apply keeps_collection_bind; [apply keeps_collection_client_call | intros _].
    destruct (_ <=? 0); [apply keeps_collection_raise |].
    apply keeps_collection_bind;
      [apply keeps_collection_gets | intros entries; apply keeps_collection_ret]. }
  intros results. destruct (VectorStore.ids results) as [| [| doc_id rest] others];
    try apply keeps_collection_ret. apply keeps_collection_lift.
Qed.

End CollectionFacts.

(** X10.  Once the service holds its client, [search] never raises and does
    not change the collection; it returns no hit when the embedding API
    fails, when the count call to the index fails, and when the requested
    count is zero or negative. *)
Theorem search_fails_soft
    (settings : Config.Settings) (distance : list Q -> list Q -> Q)
    (embed_api : string -> result (list Q))
    (query_text : string) (user_id n_results : Z) (s : VectorStore.State) :
  VectorStore._initialized s = true ->
  exists hits s',
    VectorStore.search settings distance embed_api query_text user_id n_results s
    = (Ok hits, s')
    /\ VectorStore.collection s' = VectorStore.collection s
    /\ (VectorStore._embeddings s = true ->
        (exists e, embed_api query_text = Raise e) -> hits = [])
    /\ (is_Some (VectorStore.fault_at s (VectorStore.calls s)) -> hits = [])
    /\ (n_results <= 0 -> hits = []).
Proof.
  intros Hinit.
  destruct (VectorStore.search settings distance embed_api query_text user_id n_results s)
    as [r s'] eqn:Esearch.
  pose proof (keeps_collection_search _ _ _ _ _ _ _ _ _ Esearch) as Hcoll.
  destruct (search_outcome _ _ _ _ _ _ _ _ _ Esearch)
    as [(e & _ & Hi & _) | Hok]; [congruence |].
  assert (exists hits, r = Ok hits) as [hits ->] by (destruct Hok as [-> | [q ->]]; eauto).
  exists hits, s'. split; [reflexivity |]. split; [exact Hcoll |].
  unfold VectorStore.search in Esearch.
  rewrite (bind_ensure_initialized settings _ s Hinit) in Esearch.
  unfold try_exceptM, bindM at 1 in Esearch.
  split; [| split].
  - intros Hemb [e He]. rewrite Hemb, He in Esearch. unfold lift, ret in Esearch.
    now inversion Esearch.
  - intros [e Hf].
    destruct (VectorStore._embeddings s);
      [unfold lift at 1 in Esearch; destruct (embed_api query_text);
       [| unfold ret in Esearch; now inversion Esearch] |];
      unfold VectorStore.count, VectorStore.client_call in Esearch;
      unfold bindM, ret in Esearch; rewrite Hf in Esearch;
      now inversion Esearch.
  - intros Hn. destruct Hok as [H | [q H]]; injection H as ->; [reflexivity |].
    unfold found_by, VectorStore.actual_n_results.
    destruct (Z.ltb_spec 0 (Z.of_nat (length (VectorStore.collection s)))) as [Hpos | Hzero].
    + replace (Z.to_nat (Z.min n_results _)) with 0%nat by lia. reflexivity.
    + destruct (VectorStore.collection s); [reflexivity | simpl in Hzero; lia].
Qed.

(** With the embedding API out of reach the search comes back empty. *)
Lemma search_fails_soft_witness :
  exists s',
    VectorStore.search openai_only_settings unit_cosine_distance unreachable_embed_api
      "what changed?" 7 5 shared_index = (Ok [], s')
    /\ VectorStore.collection s' = VectorStore.collection shared_index.
Proof.
  destruct (search_fails_soft openai_only_settings unit_cosine_distance
              unreachable_embed_api "what changed?" 7 5 shared_index eq_refl)
    as (hits & s' & E & Hcoll & Hembed & _).
  rewrite (Hembed eq_refl (ex_intro _ _ eq_refl)) in E.
  exists s'. split; [exact E | exact Hcoll].
Defined.

(* ===================================================================== *)
(** * Health of the answer service                                      *)
(* ===================================================================== *)

(** X11.  [health_check] chooses the backend as [answer_question] does and
    reports it.  For a service not yet initialized, [llm_available] holds
    exactly when one of the two API keys is set, the provider is [mock]
    exactly when no backend is available, a reported provider is one whose
    key is set and the model is the one configured for it; the embedding
    model is reported from the settings whatever the backend. *)
Theorem health_check_reports_backend (settings : Config.Settings) (s : LLM.State) :
  exists h,
    LLM.health_check settings s
    = (Ok h, LLM.set_service (LLM._ensure_initialized settings (LLM.service s)) s)
    /\ LLM.embedding_model h = Config.OPENAI_EMBEDDING_MODEL settings
    /\ (LLM._initialized (LLM.service s) = false ->
        LLM.llm_available h
        = truthy (Config.ANTHROPIC_API_KEY settings) || truthy (Config.OPENAI_API_KEY settings)
        /\ (LLM.llm_available h = false <-> LLM.provider h = Some "mock")
        /\ (LLM.provider h = Some "anthropic" ->
            LLM.model h = Some (Config.ANTHROPIC_MODEL settings)
            /\ truthy (Config.ANTHROPIC_API_KEY settings) = true)
        /\ (LLM.provider h = Some "openai" ->
            LLM.model h = Some (Config.OPENAI_MODEL settings)
            /\ truthy (Config.OPENAI_API_KEY settings) = true)
        /\ (LLM.provider h = Some "anthropic" \/ LLM.provider h = Some "openai"
            \/ LLM.provider h = Some "mock")).
Proof.
  eexists. split; [reflexivity |]. split; [reflexivity |].
  intros Hfresh. cbn [LLM.llm_available LLM.provider LLM.model LLM.service LLM.set_service].
  unfold LLM._ensure_initialized. rewrite Hfresh.
  destruct (String.eqb (lower (Config.LLM_PROVIDER settings)) "anthropic");
    destruct (String.eqb (lower (Config.LLM_PROVIDER settings)) "openai");
    destruct (truthy (Config.ANTHROPIC_API_KEY settings));
    destruct (truthy (Config.OPENAI_API_KEY settings)); simpl;
    repeat split; auto; try discriminate; intros H; discriminate H.
Qed.

(** With the Anthropic key set, a backend is available. *)
Lemma health_check_reports_backend_witness :
  exists h,
    fst (LLM.health_check anthropic_settings fresh_llm) = Ok h
    /\ LLM.llm_available h = true
    /\ LLM.provider h = Some "anthropic".
Proof.
  destruct (health_check_reports_backend anthropic_settings fresh_llm)
    as (h & E & _ & Hfresh).
  destruct (Hfresh eq_refl) as (Havailable & _).
  exists h. rewrite E. split; [reflexivity |]. split; [exact Havailable |].
  pose proof (f_equal (fun p => match fst p with
                                | Ok h' => LLM.provider h'
                                | Raise _ => None
                                end) E) as Hprovider.
  vm_compute in Hprovider. symmetry. exact Hprovider.
Defined.

(* ===================================================================== *)
(** * Answers without a backend and the ask route                       *)
(* ===================================================================== *)

Section ContextFacts.

Lemma join_head (sep : string) (c : ascii) (p : string) (parts : list string) :
  exists rest, join sep (String c p :: parts) = String c rest.
Proof.
  destruct parts as [| q parts]; cbn [join]; [eauto |].
  rewrite append_cons. eauto.
Qed.

(** A context built from at least one hit starts with the bracket of its
    first block. *)
Lemma format_context_head (hit : VectorStore.Hit) (hits : list VectorStore.Hit) :
  exists rest, LLM._format_context (hit :: hits) = String "[" rest.
Proof.
  unfold LLM._format_context. cbn [LLM.context_parts].
  match goal with
  | |- context [join ?sep (?p :: ?ps)] =>
      change p with (String "[" ("Source " +:+ str_Z 1 +:+ ": "
         +:+ LLM.metadata_document_name (VectorStore.hit_metadata hit)
         +:+ " (Relevance: " +:+ format_percent2 (VectorStore.relevance_score hit)
         +:+ ")]" +:+ nl +:+ VectorStore.content hit))
  end.
  apply join_head.
Qed.

End ContextFacts.

(** X12.  Without a backend, the answer is the no-information text exactly
    when the retrieval found no hit. *)
Theorem mock_answer_admits_ignorance_iff_no_hits
    (question : string) (hits : list VectorStore.Hit) :
  LLM._get_mock_response question (LLM._format_context hits) = no_information_text
  <-> hits = [].
Proof.
  split.
  - destruct hits as [| hit hits]; [reflexivity |].
    destruct (format_context_head hit hits) as [rest ->].
    unfold LLM._get_mock_response.
    rewrite (strip_visible "[" rest eq_refl (proj1 (Nat.ltb_lt 91 128) eq_refl)). cbn [negb].
    intros H. discriminate H.
  - intros ->. reflexivity.
Qed.

(** No hit, no information. *)
Lemma mock_answer_admits_ignorance_iff_no_hits_witness :
  LLM._get_mock_response "What changed?" (LLM._format_context []) = no_information_text.
Proof.
  apply (mock_answer_admits_ignorance_iff_no_hits "What changed?" []). reflexivity.
Defined.

Section AskFacts.

Variable settings : Config.Settings.
Variable distance : list Q -> list Q -> Q.
Variable embed_api : string -> result (list Q).
Variable invoke : LLM.ChatModel -> string -> string -> result string.

(** The sources of an answer are built from the hits of the retrieval. *)
Lemma answer_body_sources (question : string) (user_id n_sources : Z) (start_time : Q)
    (s1 s2 : LLM.State) (a : LLM.Answer) :
  LLM.answer_body settings distance embed_api invoke question user_id n_sources start_time s1
  = (Ok a, s2) ->
  exists hits vs',
    VectorStore.search settings distance embed_api question user_id n_sources
      (LLM.vector_store s1) = (Ok hits, vs')
    /\ LLM.sources a = map LLM.source_of hits.
Proof.
  unfold LLM.answer_body. unfold bindM at 1. unfold zoom at 1.
  destruct (VectorStore.search settings distance embed_api question user_id n_sources
              (LLM.vector_store s1)) as [[hits | e] vs1] eqn:Esearch;
    [| intros H; discriminate H].
  unfold bindM at 1, gets at 1.
  destruct (LLM._llm (LLM.service (LLM.set_vector_store vs1 s1))) as [m |].
  - unfold bindM at 1, lift at 1.
    destruct (invoke m (LLM.SYSTEM_PROMPT_format (LLM._format_context hits)) question);
      [| intros H; discriminate H].
    unfold bindM, LLM.time, zoom, VectorStore.wall_clock, ret.
    intros H. inversion H; subst. eauto.
  - unfold bindM, LLM.time, zoom, VectorStore.wall_clock, ret.
    intros H. inversion H; subst. eauto.
Qed.

Lemma search_hits_bound (query_text : string) (user_id n_results : Z)
    (s s' : VectorStore.State) (hits : list VectorStore.Hit) :
  VectorStore.search settings distance embed_api query_text user_id n_results s
  = (Ok hits, s') ->
  1 <= n_results ->
  Z.of_nat (length hits) <= n_results.
Proof.
  intros Hsearch Hn.
  destruct (search_outcome _ _ _ _ _ _ _ _ _ Hsearch)
    as [(e & He & _) | [H | [q H]]]; [discriminate | |]; injection H as ->.
  - simpl. lia.
  - rewrite length_map. unfold found_by. rewrite length_firstn.
    unfold VectorStore.actual_n_results.
    destruct (0 <? Z.of_nat (length (VectorStore.collection s))); lia.
Qed.

Lemma source_of_content_bound (hit : VectorStore.Hit) :
  (len (LLM.content (LLM.source_of hit)) <= 500)%nat.
Proof. unfold LLM.source_of. cbn [LLM.content]. rewrite len_prefix. lia. Qed.

(** [answer_question] returns on every input. *)
Lemma answer_question_returns (question : string) (user_id n_sources : Z) (s : LLM.State) :
  let vs := LLM.vector_store s in
  let k := VectorStore.clock_reads vs in
  exists a s',
    LLM.answer_question settings distance embed_api invoke question user_id n_sources s
    = (Ok a, s')
    /\ LLM.question a = question
    /\ LLM.processing_time a
       = Py.round (VectorStore.clock_at vs (S k) - VectorStore.clock_at vs k) 3
    /\ (LLM.sources a = []
        \/ exists hits vs1 vs2,
             VectorStore.search settings distance embed_api question user_id n_sources vs1
             = (Ok hits, vs2)
             /\ LLM.sources a = map LLM.source_of hits).
Proof.
  cbv zeta. rewrite answer_question_unfold. cbv zeta.
  destruct (LLM.answer_body settings distance embed_api invoke question user_id n_sources
              (VectorStore.clock_at (LLM.vector_store s)
                 (VectorStore.clock_reads (LLM.vector_store s)))
              (at_try settings s)) as [r s2] eqn:Ebody.
  destruct (answer_body_outcome _ _ _ _ _ _ _ _ _ _ _ Ebody)
    as (_ & Hat & [(e & -> & Hreads & _) | (a & -> & Hq & Ht & _)]).
  - unfold LLM.answer_error, bindM, LLM.time, zoom, VectorStore.wall_clock, ret.
    do 2 eexists. split; [reflexivity |].
    cbn [LLM.question LLM.processing_time LLM.sources].
    split; [reflexivity |]. split; [rewrite Hat, Hreads; reflexivity | left; reflexivity].
  - do 2 eexists. split; [reflexivity |]. split; [exact Hq |]. split; [exact Ht |].
    right. destruct (answer_body_sources _ _ _ _ _ _ _ Ebody) as (hits & vs' & Hs & Hsrc).
    eauto.
Qed.

End AskFacts.

(** X13.  [ask_question] answers every question: it returns a response that
    echoes the question, carries at most 5 sources of at most 500
    characters each, and has stored exactly one new message with the
    question, the answer, the processing time and the caller's id; the
    processing time is not negative when the clock does not run backwards. *)
Theorem ask_question_always_answers
    (settings : Config.Settings) (distance : list Q -> list Q -> Q)
    (embed_api : string -> result (list Q))
    (invoke : LLM.ChatModel -> string -> string -> result string)
    (request_question : string) (current_user_id : Z) (s : Chat.State) :
  let vs := LLM.vector_store (Chat.llm s) in
  let k := VectorStore.clock_reads vs in
  exists resp s' m,
    Chat.ask_question settings distance embed_api invoke request_question current_user_id s
    = (Ok resp, s')
    /\ Chat.r_question resp = request_question
    /\ (length (Chat.r_sources resp) <= 5)%nat
    /\ Forall (fun src => (len (LLM.content src) <= 500)%nat) (Chat.r_sources resp)
    /\ Chat.chat_messages s' = Chat.chat_messages s ++ [m]
    /\ Chat.question m = request_question
    /\ Chat.answer m = Chat.r_answer resp
    /\ Chat.user_id m = current_user_id
    /\ Chat.processing_time m = Some (Chat.r_processing_time resp)
    /\ ((VectorStore.clock_at vs k <= VectorStore.clock_at vs (S k))%Q ->
        (0 <= Chat.r_processing_time resp)%Q).
Proof.
  cbv zeta.
  destruct (answer_question_returns settings distance embed_api invoke
              request_question current_user_id 5 (Chat.llm s))
    as (a & l' & Ea & Hq & Ht & Hsrc).
  unfold Chat.ask_question, try_exceptM, bindM, zoom, modify, ret.
  rewrite Ea. cbn [Chat.llm Chat.set_llm].
  unfold LLM.time, zoom, VectorStore.wall_clock. cbn.
  do 3 eexists. split; [reflexivity |]. cbn.
  split; [exact Hq |].
  split; [| split].
  - destruct Hsrc as [-> | (hits & vs1 & vs2 & Hs & ->)]; [simpl; lia |].
    rewrite length_map.
    pose proof (search_hits_bound _ _ _ _ _ _ _ _ _ Hs ltac:(lia)). lia.
  - destruct Hsrc as [-> | (hits & vs1 & vs2 & Hs & ->)]; [constructor |].
    apply List.Forall_forall. intros src Hin. apply in_map_iff in Hin.
    destruct Hin as (hit & <- & _). apply source_of_content_bound.
  - repeat (split; [reflexivity |]).
    intros Hmono. rewrite Ht.
    change 0%Q with (inject_Z 0). rewrite <- (round_inject 0 3).
    apply round_mono. unfold inject_Z. lra.
Qed.

(** The first question of a deployment without keys: one message is stored. *)
Lemma ask_question_always_answers_witness :
  exists resp s',
    Chat.ask_question Config.default_settings unit_cosine_distance unreachable_embed_api
      unreachable_llm "What is in my documents?" 7 fresh_chat = (Ok resp, s')
    /\ length (Chat.chat_messages s') = 1%nat
    /\ (0 <= Chat.r_processing_time resp)%Q.
Proof.
  destruct (ask_question_always_answers Config.default_settings unit_cosine_distance
              unreachable_embed_api unreachable_llm "What is in my documents?" 7 fresh_chat)
    as (resp & s' & m & E & _ & _ & _ & Hstored & _ & _ & _ & _ & Htime).
  exists resp, s'. split; [exact E |]. split; [rewrite Hstored; reflexivity |].
  apply Htime. apply Qle_bool_iff. reflexivity.
Defined.

(* ===================================================================== *)
(** * Paging and clearing the chat history                              *)
(* ===================================================================== *)

Lemma skipn_incl {A} (n : nat) (l : list A) (x : A) : In x (skipn n l) -> In x l.
Proof.
  revert l. induction n as [| n IH]; intros [| a l]; simpl; try tauto.
  intros H. right. apply IH. exact H.
Qed.

Section SortedFacts.

Context {A B : Type} (R : A -> A -> Prop).

Lemma sorted_skipn (n : nat) (l : list A) :
  StronglySorted R l -> StronglySorted R (skipn n l).
Proof.
  revert l. induction n as [| n IH]; intros l Hl; [exact Hl |].
  destruct l as [| a l]; [exact Hl |]. simpl. apply IH.
  inversion Hl; assumption.
Qed.

Lemma sorted_firstn (n : nat) (l : list A) :
  StronglySorted R l -> StronglySorted R (firstn n l).
Proof.
  revert l. induction n as [| n IH]; intros l Hl; simpl; [constructor |].
  destruct l as [| a l]; [constructor |].
  inversion Hl as [| ? ? Hs Hall]; subst.
  constructor; [apply IH; exact Hs |].
  apply List.Forall_forall. intros b Hb.
  rewrite List.Forall_forall in Hall. apply Hall.
  eapply firstn_incl. exact Hb.
Qed.

Lemma sorted_map (f : A -> B) (S : B -> B -> Prop) (l : list A) :
  (forall a b, R a b -> S (f a) (f b)) ->
  StronglySorted R l -> StronglySorted S (map f l).
Proof.
  intros Hf. induction 1 as [| a l Hs IH Hall]; simpl; constructor; [exact IH |].
  apply List.Forall_forall. intros y Hy. apply in_map_iff in Hy.
  destruct Hy as (b & <- & Hb). apply Hf.
  rewrite List.Forall_forall in Hall. apply Hall. exact Hb.
Qed.

End SortedFacts.

(** X14.  When the session answers its two statements, a page of the chat
    history leaves the table as it is; [total] counts all messages of the
    caller whatever the page, the page holds [min(limit, total - offset)]
    items, at most [limit], from the latest to the earliest, every item
    shows a stored message of the caller, and a first page that has room
    for all shows each of the caller's messages once: no message of
    another user appears.  When the session fails on either statement, the
    handler passes the exception on. *)
Theorem chat_history_page_is_bounded_and_private
    (limit offset : nat) (current_user_id : Z) (s : Chat.State) :
  (Chat.db_fault_at s (Chat.db_calls s) = None ->
   Chat.db_fault_at s (S (Chat.db_calls s)) = None ->
   exists response,
     Chat.get_chat_history limit offset current_user_id s
     = (Ok response, Chat.tick_db (Chat.tick_db s))
     /\ Chat.total response = Z.of_nat (length (history_of current_user_id s))
     /\ length (Chat.messages response)
        = Nat.min limit (length (history_of current_user_id s) - offset)
     /\ (length (Chat.messages response) <= limit)%nat
     /\ Forall (fun item =>
                  exists m, In m (Chat.chat_messages s)
                            /\ Chat.user_id m = current_user_id
                            /\ item = Chat.history_item m)
          (Chat.messages response)
     /\ StronglySorted (fun a b => (Chat.h_created_at b <= Chat.h_created_at a)%Q)
          (Chat.messages response)
     /\ (offset = 0%nat ->
         (length (history_of current_user_id s) <= limit)%nat ->
         Permutation (Chat.messages response)
           (map Chat.history_item (history_of current_user_id s))))
  /\ (forall e,
        Chat.db_fault_at s (Chat.db_calls s) = Some e ->
        Chat.get_chat_history limit offset current_user_id s = (Raise e, Chat.tick_db s))
  /\ (forall e,
        Chat.db_fault_at s (Chat.db_calls s) = None ->
        Chat.db_fault_at s (S (Chat.db_calls s)) = Some e ->
        Chat.get_chat_history limit offset current_user_id s
        = (Raise e, Chat.tick_db (Chat.tick_db s))).
Proof.
  split; [| split; intros e; apply get_chat_history_failed].
  intros H0 H1. rewrite (get_chat_history_answered _ _ _ _ H0 H1).
  eexists. split; [reflexivity |]. cbn [Chat.total Chat.messages].
  split; [reflexivity |].
  set (sorted := Chat.newest_first (history_of current_user_id s)).
  assert (length sorted = length (history_of current_user_id s)) as Hsame
    by apply (Permutation_length (chat_newest_first_perm _)).
  assert (length (map Chat.history_item (firstn limit (skipn offset sorted)))
          = Nat.min limit (length (history_of current_user_id s) - offset)) as Hlen
    by (rewrite length_map, length_firstn, length_skipn, Hsame; reflexivity).
  split; [exact Hlen |]. split; [rewrite Hlen; lia |].
  split; [| split].
  - apply List.Forall_forall. intros item Hin. apply in_map_iff in Hin.
    destruct Hin as (m & <- & Hm). exists m.
    apply firstn_incl, skipn_incl in Hm.
    apply (Permutation_in _ (chat_newest_first_perm _)) in Hm.
    unfold history_of in Hm. apply filter_In in Hm. destruct Hm as [Hin Hu].
    repeat split; [exact Hin | lia].
  - apply (sorted_map (fun a b => (Chat.created_at b <= Chat.created_at a)%Q));
      [intros a b Hab; exact Hab |].
    apply sorted_firstn, sorted_skipn, chat_newest_first_sorted.
  - intros -> Hroom. subst sorted. rewrite skipn_O.
    rewrite firstn_all2 by (rewrite Hsame; exact Hroom).
    apply Permutation_map, chat_newest_first_perm.
Qed.

(** User 7 sees the two turns of their own, the later one first; when the
    database is down the handler raises. *)
Lemma chat_history_page_is_bounded_and_private_witness :
  (exists response s',
      Chat.get_chat_history 50 0 7 two_user_chat = (Ok response, s')
      /\ Chat.total response = 2
      /\ map Chat.h_id (Chat.messages response) = [3; 1])
  /\ fst (Chat.get_chat_history 50 0 7 chat_database_down)
     = Raise (Exception "database is locked").
Proof.
  destruct (chat_history_page_is_bounded_and_private 50 0 7 two_user_chat)
    as (Hanswered & _).
  destruct (chat_history_page_is_bounded_and_private 50 0 7 chat_database_down)
    as (_ & Hdown & _).
  split.
  - destruct (Hanswered eq_refl eq_refl) as (response & E & Htotal & _).
    exists response. eexists. split; [exact E |]. split; [exact Htotal |].
    pose proof (f_equal (fun p => match fst p with
                                  | Ok r => map Chat.h_id (Chat.messages r)
                                  | Raise _ => []
                                  end) E) as Hids.
    vm_compute in Hids. symmetry. exact Hids.
  - rewrite (Hdown (Exception "database is locked") eq_refl). reflexivity.
Defined.

(** X15.  Pages fit together: the page of [limit1] items at [offset]
    followed by the page of [limit2] items at [offset + limit1] is the page
    of [limit1 + limit2] items at [offset]. *)
Theorem chat_history_pages_concatenate
    (limit1 limit2 offset : nat) (current_user_id : Z) (s : Chat.State) :
  history_page limit1 offset current_user_id s
    ++ history_page limit2 (offset + limit1) current_user_id s
  = history_page (limit1 + limit2) offset current_user_id s.
Proof.
  unfold history_page.
  destruct (Chat.db_fault_at s (Chat.db_calls s)) as [e |] eqn:H0.
  { rewrite !(proj1 (get_chat_history_failed _ _ _ _ e) H0). reflexivity. }
  destruct (Chat.db_fault_at s (S (Chat.db_calls s))) as [e |] eqn:H1.
  { rewrite !(proj2 (get_chat_history_failed _ _ _ _ e) H0 H1). reflexivity. }
  rewrite !(get_chat_history_answered _ _ _ _ H0 H1).
  cbn [fst Chat.messages].
  rewrite <- map_app. f_equal.
  rewrite <- (take_take_drop _ limit1 limit2). f_equal.
  rewrite skipn_skipn, (Nat.add_comm limit1 offset). reflexivity.
Qed.

(** The history of user 7, newest first, page by page; user 8 sees one
    turn; a turn stored with an earlier time than the turns before it comes
    after them. *)
Example chat_history_second_page :
  map Chat.h_id (history_page 1 1 7 two_user_chat) = [1]
  /\ map Chat.h_id (history_page 2 0 7 two_user_chat) = [3; 1]
  /\ map Chat.h_id (history_page 50 0 8 two_user_chat) = [2]
  /\ map Chat.h_id (history_page 50 0 7 chat_clock_set_back) = [3; 1; 4].
Proof. vm_compute. repeat split. Qed.

Section HistoryFacts.

Lemma filter_filter {A} (p q : A -> bool) (l : list A) :
  List.filter p (List.filter q l) = List.filter (fun x => q x && p x) l.
Proof.
  induction l as [| x l IH]; simpl; [reflexivity |].
  destruct (q x); simpl; [destruct (p x) |]; now rewrite IH.
Qed.

Lemma filter_filter_all {A} (p q : A -> bool) (l : list A) :
  (forall x, In x l -> q x = true -> p x = true) ->
  List.filter q (List.filter p l) = List.filter q l.
Proof.
  intros H. rewrite filter_filter. apply List.filter_ext_in.
  intros x Hx. destruct (q x) eqn:Eq; [rewrite (H x Hx Eq); reflexivity |].
  apply andb_false_r.
Qed.

Lemma NoDup_map_In_inj {A B} (f : A -> B) (l : list A) (a b : A) :
  List.NoDup (map f l) -> In a l -> In b l -> f a = f b -> a = b.
Proof.
  induction l as [| x l IH]; simpl; [tauto |].
  intros Hnd Ha Hb Hf. apply NoDup_cons_iff in Hnd. destruct Hnd as [Hx Hnd].
  destruct Ha as [-> | Ha], Hb as [-> | Hb]; try reflexivity.
  - exfalso. apply Hx. rewrite Hf. apply in_map. exact Hb.
  - exfalso. apply Hx. rewrite <- Hf. apply in_map. exact Ha.
  - apply IH; assumption.
Qed.

(** The loop of [clear_chat_history]. *)
Lemma delete_loop (messages : list Chat.ChatMessage) (s : Chat.State) :
  let s' := fold_left (fun s0 msg => Chat.db_delete msg s0) messages s in
  Chat.chat_messages s'
  = List.filter
      (fun m => negb (existsb (fun msg => Chat.id m =? Chat.id msg) messages))
      (Chat.chat_messages s)
  /\ Chat.next_id s' = Chat.next_id s
  /\ Chat.llm s' = Chat.llm s.
Proof.
  cbv zeta. revert s. induction messages as [| msg messages IH]; intros s.
  - simpl. split; [symmetry; apply filter_all; reflexivity | split; reflexivity].
  - cbn [fold_left]. destruct (IH (Chat.db_delete msg s)) as (Hm & Hn & Hl).
    rewrite Hm, Hn, Hl. cbn [Chat.db_delete Chat.chat_messages Chat.next_id Chat.llm].
    split; [| split; reflexivity].
    rewrite filter_filter. apply List.filter_ext. intros m. cbn [existsb].
    rewrite negb_orb. reflexivity.
Qed.

(** A history read after the caller's messages are gone is empty. *)
Lemma history_of_nobody (limit offset : nat) (current_user_id : Z) (s s' : Chat.State)
    (response : Chat.ChatHistoryResponse) :
  history_of current_user_id s = [] ->
  Chat.get_chat_history limit offset current_user_id s = (Ok response, s') ->
  Chat.messages response = [] /\ Chat.total response = 0.
Proof.
  intros Hempty.
  destruct (Chat.db_fault_at s (Chat.db_calls s)) as [e |] eqn:H0.
  { rewrite (proj1 (get_chat_history_failed _ _ _ _ e) H0). discriminate. }
  destruct (Chat.db_fault_at s (S (Chat.db_calls s))) as [e |] eqn:H1.
  { rewrite (proj2 (get_chat_history_failed _ _ _ _ e) H0 H1). discriminate. }
  rewrite (get_chat_history_answered _ _ _ _ H0 H1), Hempty.
  intros H. injection H as <- _. simpl. rewrite skipn_nil, firstn_nil. auto.
Qed.

End HistoryFacts.

(** X16.  When the session answers, [clear_chat_history] reports how many
    messages the caller had and leaves none of them: a history read
    afterwards is empty, with a total of 0; what remains are stored
    messages of other users, and when message ids are unique (as primary
    keys are) every other user's history is unchanged.  When the session
    fails, the handler passes the exception on and removes nothing. *)
Theorem clear_history_removes_own_messages (current_user_id : Z) (s : Chat.State) :
  (Chat.db_fault_at s (Chat.db_calls s) = None ->
   exists s',
     Chat.clear_chat_history current_user_id s
     = (Ok ("Cleared " +:+ str_Z (Z.of_nat (length (history_of current_user_id s)))
              +:+ " messages from chat history"), s')
     /\ history_of current_user_id s' = []
     /\ (forall limit offset response s'',
           Chat.get_chat_history limit offset current_user_id s' = (Ok response, s'') ->
           Chat.messages response = [] /\ Chat.total response = 0)
     /\ (forall m, In m (Chat.chat_messages s') ->
           In m (Chat.chat_messages s) /\ Chat.user_id m <> current_user_id)
     /\ Chat.next_id s' = Chat.next_id s
     /\ (List.NoDup (map Chat.id (Chat.chat_messages s)) ->
         forall other, other <> current_user_id ->
                       history_of other s' = history_of other s))
  /\ (forall e,
        Chat.db_fault_at s (Chat.db_calls s) = Some e ->
        Chat.clear_chat_history current_user_id s = (Raise e, Chat.tick_db s)
        /\ Chat.chat_messages (Chat.tick_db s) = Chat.chat_messages s).
Proof.
  unfold Chat.clear_chat_history, Chat.select_by_user, Chat.db_call, bindM, gets, modify, ret.
  split; [| intros e H0; rewrite H0; split; reflexivity].
  intros H0. rewrite H0.
  change (List.filter (fun m => Chat.user_id m =? current_user_id)
            (Chat.chat_messages (Chat.tick_db s)))
    with (history_of current_user_id s).
  destruct (delete_loop (history_of current_user_id s) (Chat.tick_db s)) as (Hm & Hn & _).
  cbv zeta in Hm, Hn.
  change (Chat.chat_messages (Chat.tick_db s)) with (Chat.chat_messages s) in Hm.
  change (Chat.next_id (Chat.tick_db s)) with (Chat.next_id s) in Hn.
  eexists. split; [reflexivity |].
  assert (forall m, In m (Chat.chat_messages
                            (fold_left (fun s0 msg => Chat.db_delete msg s0)
                               (history_of current_user_id s) (Chat.tick_db s))) ->
            In m (Chat.chat_messages s) /\ Chat.user_id m <> current_user_id) as Hrest.
  { intros m Hin. rewrite Hm in Hin. apply filter_In in Hin. destruct Hin as [Hin Hkeep].
    split; [exact Hin |]. intros Hu.
    apply negb_true_iff in Hkeep.
    assert (existsb (fun msg => Chat.id m =? Chat.id msg) (history_of current_user_id s)
            = true) as Hex; [| congruence].
    apply existsb_exists. exists m. split; [| apply Z.eqb_refl].
    unfold history_of. apply filter_In. split; [exact Hin | lia]. }
  assert (history_of current_user_id
            (fold_left (fun s0 msg => Chat.db_delete msg s0)
               (history_of current_user_id s) (Chat.tick_db s)) = []) as Hempty.
  { unfold history_of at 1. apply filter_none. intros m Hin.
    destruct (Hrest m Hin) as [_ Hu]. lia. }
  split; [exact Hempty |]. split; [| split; [exact Hrest | split; [exact Hn |]]].
  - intros limit offset response s''. apply history_of_nobody. exact Hempty.
  - intros Hnd other Hother. unfold history_of at 1 3. rewrite Hm.
    apply filter_filter_all. intros m Hin Hu.
    apply negb_true_iff. apply not_true_is_false. intros Hex.
    apply existsb_exists in Hex. destruct Hex as (x & Hx & Hid).
    unfold history_of in Hx. apply filter_In in Hx. destruct Hx as [Hx Hxu].
    assert (m = x) by (apply (NoDup_map_In_inj Chat.id _ _ _ Hnd Hin Hx); lia).
    subst x. lia.
Qed.

(** The keys of the stored turns are pairwise different. *)
Lemma two_user_chat_keys : List.NoDup (map Chat.id (Chat.chat_messages two_user_chat)).
Proof.
  simpl. repeat constructor; simpl; intuition discriminate.
Qed.

(** User 7 clears two messages; the one of user 8 stays.  With the database
    down nothing is cleared. *)
Lemma clear_history_removes_own_messages_witness :
  (exists s',
      Chat.clear_chat_history 7 two_user_chat
      = (Ok "Cleared 2 messages from chat history", s')
      /\ history_of 7 s' = []
      /\ history_of 8 s' = [turn 2 "Who signed?" 8 11%Q])
  /\ fst (Chat.clear_chat_history 7 chat_database_down)
     = Raise (Exception "database is locked").
Proof.
  destruct (clear_history_removes_own_messages 7 two_user_chat) as [Hanswered _].
  destruct (clear_history_removes_own_messages 7 chat_database_down) as [_ Hdown].
  split.
  - destruct (Hanswered eq_refl) as (s' & E & Hmine & _ & _ & _ & Hothers).
    exists s'. split; [exact E |]. split; [exact Hmine |].
    rewrite (Hothers two_user_chat_keys 8); [reflexivity | discriminate].
  - rewrite (proj1 (Hdown (Exception "database is locked") eq_refl)). reflexivity.
Defined.

(** X17.  When the session answers, [delete_chat_message] raises Not-Found
    and removes nothing when no message with that id belongs to the
    caller; otherwise it removes the messages with that id and no other,
    which, ids being unique, is exactly the one message, the rest keeping
    their order.  When the session fails, the handler passes the exception
    on and removes nothing. *)
Theorem delete_chat_message_removes_one
    (message_id current_user_id : Z) (s : Chat.State) :
  (Chat.db_fault_at s (Chat.db_calls s) = None ->
   ((forall m, In m (Chat.chat_messages s) -> Chat.id m = message_id ->
       Chat.user_id m <> current_user_id) ->
    Chat.delete_chat_message message_id current_user_id s
    = (Raise (HTTPException 404 "Message not found"), Chat.tick_db s))
   /\ (forall m,
         In m (Chat.chat_messages s) -> Chat.id m = message_id ->
         Chat.user_id m = current_user_id ->
         exists s',
           Chat.delete_chat_message message_id current_user_id s
           = (Ok "Chat message deleted successfully", s')
           /\ (forall x, In x (Chat.chat_messages s') <->
                         In x (Chat.chat_messages s) /\ Chat.id x <> message_id)
           /\ (List.NoDup (map Chat.id (Chat.chat_messages s)) ->
               exists before after,
                 Chat.chat_messages s = before ++ m :: after
                 /\ Chat.chat_messages s' = before ++ after)))
  /\ (forall e,
        Chat.db_fault_at s (Chat.db_calls s) = Some e ->
        Chat.delete_chat_message message_id current_user_id s = (Raise e, Chat.tick_db s))
  /\ Chat.chat_messages (Chat.tick_db s) = Chat.chat_messages s.
Proof.
  unfold Chat.delete_chat_message, Chat.select_owned, Chat.db_call,
    bindM, gets, modify, ret, raise.
  split; [| split; [intros e H0; rewrite H0; reflexivity | reflexivity]].
  intros H0. rewrite H0.
  change (Chat.chat_messages (Chat.tick_db s)) with (Chat.chat_messages s).
  split.
  - intros Hnone.
    destruct (List.find _ (Chat.chat_messages s)) as [m |] eqn:Efind; [| reflexivity].
    apply find_some in Efind. destruct Efind as [Hin Hm].
    apply andb_prop in Hm. destruct Hm as [Hid Hu].
    exfalso. apply (Hnone m Hin); lia.
  - intros m Hin Hid Hu.
    destruct (List.find _ (Chat.chat_messages s)) as [m' |] eqn:Efind.
    + apply find_some in Efind. destruct Efind as [Hin' Hm'].
      apply andb_prop in Hm'. destruct Hm' as [Hid' Hu'].
      eexists. split; [reflexivity |].
      cbn [Chat.db_delete Chat.chat_messages Chat.tick_db].
      replace (Chat.id m') with message_id by lia.
      split.
      * intros x. rewrite filter_In. rewrite negb_true_iff, Z.eqb_neq. tauto.
      * intros Hnd. apply in_split in Hin. destruct Hin as (before & after & Hsplit).
        exists before, after. split; [exact Hsplit |].
        rewrite Hsplit in Hnd |- *. rewrite map_app in Hnd. cbn [map] in Hnd.
        pose proof (NoDup_remove_2 _ _ _ Hnd) as Hfresh.
        rewrite List.filter_app. cbn [List.filter].
        replace (Chat.id m =? message_id) with true by (symmetry; lia). cbn [negb].
        rewrite !filter_all; [reflexivity | |];
          intros x Hx; apply negb_true_iff, Z.eqb_neq; intros Hxid;
          apply Hfresh; apply in_or_app; [right | left];
          rewrite Hid, <- Hxid; apply in_map; exact Hx.
    + exfalso. pose proof (find_none _ _ Efind m Hin) as Hf. simpl in Hf.
      apply andb_false_iff in Hf. destruct Hf; lia.
Qed.

(** User 7 deletes message 3, and cannot delete message 2 of user 8; with
    the database down the handler raises. *)
Lemma delete_chat_message_removes_one_witness :
  (exists s',
      Chat.delete_chat_message 3 7 two_user_chat
      = (Ok "Chat message deleted successfully", s')
      /\ Chat.chat_messages s'
         = [turn 1 "What changed?" 7 10%Q; turn 2 "Who signed?" 8 11%Q])
  /\ fst (Chat.delete_chat_message 2 7 two_user_chat)
     = Raise (HTTPException 404 "Message not found")
  /\ fst (Chat.delete_chat_message 3 7 chat_database_down)
     = Raise (Exception "database is locked").
Proof.
  destruct (delete_chat_message_removes_one 3 7 two_user_chat) as [Hanswered _].
  destruct (delete_chat_message_removes_one 2 7 two_user_chat) as [Hanswered' _].
  destruct (delete_chat_message_removes_one 3 7 chat_database_down) as (_ & Hdown & _).
  destruct (Hanswered eq_refl) as [_ Hmine].
  destruct (Hanswered' eq_refl) as [Hforeign _].
  split; [| split].
  - destruct (Hmine (turn 3 "When is it due?" 7 12%Q)) as (s' & E & _ & _);
      [simpl; tauto | reflexivity | reflexivity |].
    exists s'. split; [exact E |].
    pose proof (f_equal (fun p => Chat.chat_messages (snd p)) E) as Hleft.
    vm_compute in Hleft. symmetry. exact Hleft.
  - rewrite Hforeign; [reflexivity |].
    intros m [<- | [<- | [<- | []]]] Hid; simpl in *; lia.
  - rewrite (Hdown (Exception "database is locked") eq_refl). reflexivity.
Defined.

(* ===================================================================== *)
(** * Ownership and listing of documents                                *)
(* ===================================================================== *)

(** X18.  A document that does not exist or belongs to another user is not
    found: when the database answers, [get_document], [delete_document] and
    [reprocess_document] raise the same 404 and change nothing but the count
    of database calls: no row, file, index entry or task.  When the database
    call raises, the three handlers pass the exception on, again without
    changing anything. *)
Theorem foreign_documents_are_not_found
    (settings : Config.Settings) (document_id current_user_id : Z) (s : Documents.State) :
  (Documents.db_fault_at s (Documents.db_calls s) = None ->
   (forall d, Documents.documents s !! document_id = Some d ->
              Documents.user_id d <> current_user_id) ->
   Documents.get_document document_id current_user_id s
   = (Raise (HTTPException 404 "Document not found"), Documents.tick_db s)
   /\ Documents.delete_document settings document_id current_user_id s
      = (Raise (HTTPException 404 "Document not found"), Documents.tick_db s)
   /\ Documents.reprocess_document settings document_id current_user_id s
      = (Raise (HTTPException 404 "Document not found"), Documents.tick_db s))
  /\ (forall e,
        Documents.db_fault_at s (Documents.db_calls s) = Some e ->
        Documents.get_document document_id current_user_id s
        = (Raise e, Documents.tick_db s)
        /\ Documents.delete_document settings document_id current_user_id s
           = (Raise e, Documents.tick_db s)
        /\ Documents.reprocess_document settings document_id current_user_id s
           = (Raise e, Documents.tick_db s)).
Proof.
  unfold Documents.get_document, Documents.delete_document, Documents.reprocess_document.
  unfold Documents.select_owned, Documents.select_document, Documents.db_call.
  unfold bindM, gets, ret, raise.
  split.
  - intros Hdb Hforeign. rewrite Hdb. cbn [Documents.documents Documents.tick_db].
    destruct (Documents.documents s !! document_id) as [d |] eqn:Hrow.
    + specialize (Hforeign d eq_refl).
      replace (Documents.user_id d =? current_user_id) with false by (symmetry; lia).
      repeat split.
    + repeat split.
  - intros e Hdb. rewrite Hdb. repeat split.
Qed.

(** User 8 can neither fetch, delete nor reprocess the report of user 7,
    which stays stored. *)
Lemma foreign_documents_are_not_found_witness :
  fst (Documents.get_document 1 8 one_report)
  = Raise (HTTPException 404 "Document not found")
  /\ fst (Documents.delete_document Config.default_settings 1 8 one_report)
     = Raise (HTTPException 404 "Document not found")
  /\ fst (Documents.reprocess_document Config.default_settings 1 8 one_report)
     = Raise (HTTPException 404 "Document not found")
  /\ Documents.documents
       (snd (Documents.delete_document Config.default_settings 1 8 one_report))
     !! 1 = Some report_row.
Proof.
  destruct (foreign_documents_are_not_found Config.default_settings 1 8 one_report)
    as [Hforeign _].
  destruct Hforeign as (Hget & Hdelete & Hreprocess).
  - reflexivity.
  - intros d Hd. vm_compute in Hd. injection Hd as <-. discriminate.
  - rewrite Hget, Hdelete, Hreprocess. repeat split.
Defined.

(** X19.  A stored upload can be fetched: when a valid file is written and
    the database answers, the file is counted as successful with a response
    that shows a pending document with the size and the lower-cased type of
    the file; [get_document] with the returned id gives the caller that same
    response, and gives any other user 404. *)
Theorem uploaded_document_can_be_fetched
    (settings : Config.Settings) (current_user_id : Z) (file : Documents.UploadFile)
    (t : Documents.Tally) (s : Documents.State) :
  is_valid_upload settings file = true ->
  DocumentProcessor.write_fault (Documents.storage s)
    (DocumentProcessor.writes (Documents.storage s)) = None ->
  (forall k, Documents.db_fault_at s k = None) ->
  exists r s1,
    Documents.upload_one settings current_user_id file t s
    = (Ok (Documents.count_successful r t), s1)
    /\ Documents.r_id r = Documents.next_id s
    /\ Documents.r_status r = "pending"
    /\ Documents.r_file_size r = Z.of_nat (length (Documents.upload_body file))
    /\ Documents.r_file_type r = lower (DocumentProcessor.suffix (Documents.upload_filename file))
    /\ Documents.get_document (Documents.r_id r) current_user_id s1
       = (Ok r, Documents.tick_db s1)
    /\ (forall other, other <> current_user_id ->
          Documents.get_document (Documents.r_id r) other s1
          = (Raise (HTTPException 404 "Document not found"), Documents.tick_db s1)).
Proof.
  unfold is_valid_upload, Documents.upload_one, try_exceptM.
  destruct (DocumentProcessor.validate_file _ _ _) as [is_valid error_msg].
  simpl. intros -> Hwrite Hdb. simpl.
  unfold Documents.add_and_flush, Documents.refresh, Documents.select_document,
    Documents.utcnow, DocumentProcessor.save_file.
  unfold bindM, zoom, Documents.db_call, VectorStore.wall_clock, gets, modify, ret.
  rewrite Hwrite. simpl. rewrite Hdb. simpl. rewrite Hdb. simpl.
  rewrite lookup_insert_eq.
  do 2 eexists. split; [reflexivity |].
  cbn [Documents.model_validate Documents.r_id Documents.r_status Documents.r_file_size
       Documents.r_file_type Documents.id Documents.status Documents.file_size
       Documents.file_type Documents.status_value].
  do 4 (split; [reflexivity |]).
  unfold Documents.get_document, Documents.select_owned, Documents.select_document,
    Documents.db_call, bindM, gets, ret, raise.
  cbn [Documents.db_fault_at Documents.db_calls Documents.documents Documents.tick_db
       Documents.write_row Documents.set_storage Documents.set_vector_store
       Documents.add_task].
  rewrite !Hdb. simpl. rewrite lookup_insert_eq. simpl.
  split.
  - rewrite Z.eqb_refl. reflexivity.
  - intros other Hother.
    replace (current_user_id =? other) with false by (symmetry; lia). reflexivity.
Qed.

(** User 7 uploads the notes and fetches them under id 1; user 8 gets 404. *)
Lemma uploaded_document_can_be_fetched_witness :
  exists r s1,
    Documents.upload_one Config.default_settings 7 notes_txt
      {| Documents.uploaded_documents := []; Documents.n_successful := 0;
         Documents.n_failed := 0 |} fresh_documents
    = (Ok {| Documents.uploaded_documents := [r]; Documents.n_successful := 1;
             Documents.n_failed := 0 |}, s1)
    /\ fst (Documents.get_document 1 7 s1) = Ok r
    /\ fst (Documents.get_document 1 8 s1)
       = Raise (HTTPException 404 "Document not found").
Proof.
  destruct (uploaded_document_can_be_fetched Config.default_settings 7 notes_txt
              {| Documents.uploaded_documents := []; Documents.n_successful := 0;
                 Documents.n_failed := 0 |} fresh_documents)
    as (r & s1 & E & Hid & _ & _ & _ & Hmine & Hothers).
  - vm_compute. reflexivity.
  - reflexivity.
  - intros k. reflexivity.
  - exists r, s1. split; [exact E |]. change (Documents.next_id fresh_documents) with 1 in Hid.
    rewrite Hid in Hmine, Hothers. rewrite Hmine, (Hothers 8) by discriminate.
    split; reflexivity.
Defined.

Section ListingFacts.

Lemma sum_total_of (xs : list Z) : Documents.sum xs = total_of xs.
Proof.
  unfold Documents.sum, total_of. apply fold_symmetric; intros; lia.
Qed.

Lemma insert_by_created_at_In (d x : Documents.Document) (l : list Documents.Document) :
  In x (Documents.insert_by_created_at d l) <-> x = d \/ In x l.
Proof.
  induction l as [| y l IH]; simpl.
  - intuition.
  - destruct (Qle_bool (Documents.created_at y) (Documents.created_at d)); simpl;
      [intuition |].
    rewrite IH. intuition.
Qed.

Lemma insert_by_created_at_sorted (d : Documents.Document) (l : list Documents.Document) :
  StronglySorted (fun a b => (Documents.created_at b <= Documents.created_at a)%Q) l ->
  StronglySorted (fun a b => (Documents.created_at b <= Documents.created_at a)%Q)
    (Documents.insert_by_created_at d l).
Proof.
  induction l as [| y l IH]; intros Hl; simpl.
  - constructor; constructor.
  - destruct (Qle_bool (Documents.created_at y) (Documents.created_at d)) eqn:E.
    + apply Qle_bool_iff in E. constructor; [assumption |].
      constructor; [exact E |].
      inversion Hl as [| ? ? _ Hall]; subst.
      eapply List.Forall_impl; [| exact Hall].
      intros a Ha. simpl in Ha. eapply Qle_trans; eassumption.
    + inversion Hl as [| ? ? Hs Hall]; subst.
      constructor; [apply IH; assumption |].
      apply List.Forall_forall. intros a Ha.
      apply insert_by_created_at_In in Ha. destruct Ha as [-> | Ha].
      * assert (~ (Documents.created_at y <= Documents.created_at d)%Q) as Hn
          by (intros H; apply Qle_bool_iff in H; congruence).
        apply Qnot_le_lt in Hn. apply Qlt_le_weak. exact Hn.
      * rewrite List.Forall_forall in Hall. apply Hall. exact Ha.
Qed.

Lemma newest_first_In (rows : list Documents.Document) (x : Documents.Document) :
  In x (Documents.newest_first rows) <-> In x rows.
Proof.
  unfold Documents.newest_first. induction rows as [| d rows IH]; simpl; [tauto |].
  rewrite insert_by_created_at_In, IH. intuition.
Qed.

Lemma newest_first_sorted (rows : list Documents.Document) :
  StronglySorted (fun a b => (Documents.created_at b <= Documents.created_at a)%Q)
    (Documents.newest_first rows).
Proof.
  unfold Documents.newest_first. induction rows as [| d rows IH]; simpl.
  - constructor.
  - apply insert_by_created_at_sorted. exact IH.
Qed.

Lemma sorted_map_model_validate (rows : list Documents.Document) :
  StronglySorted (fun a b => (Documents.created_at b <= Documents.created_at a)%Q) rows ->
  StronglySorted (fun a b => (Documents.r_created_at b <= Documents.r_created_at a)%Q)
    (map Documents.model_validate rows).
Proof.
  induction rows as [| d rows IH]; intros Hs; simpl; [constructor |].
  inversion Hs as [| ? ? Hs' Hall]; subst.
  constructor; [apply IH; assumption |].
  apply List.Forall_forall. intros r Hr. apply in_map_iff in Hr.
  destruct Hr as (x & <- & Hx). rewrite List.Forall_forall in Hall. apply (Hall x Hx).
Qed.

End ListingFacts.

(** X20.  When the database answers, [list_documents] lists exactly the rows
    of the caller, latest first, and its totals agree with the list: [total]
    is the number of listed documents, [total_chunks] and [total_embeddings]
    are the sums of their counts.  When the database call raises, the
    exception is passed on. *)
Theorem list_documents_shows_own_documents (current_user_id : Z) (s : Documents.State) :
  (Documents.db_fault_at s (Documents.db_calls s) = None ->
   exists response,
     Documents.list_documents current_user_id s = (Ok response, Documents.tick_db s)
     /\ Documents.l_total response
        = Z.of_nat (length (Documents.l_documents response))
     /\ Documents.l_total_chunks response
        = total_of (map Documents.r_chunk_count (Documents.l_documents response))
     /\ Documents.l_total_embeddings response
        = total_of (map Documents.r_embedding_count (Documents.l_documents response))
     /\ (forall r,
           In r (Documents.l_documents response) <->
           exists k d, Documents.documents s !! k = Some d
                       /\ Documents.user_id d = current_user_id
                       /\ r = Documents.model_validate d)
     /\ StronglySorted
          (fun a b => (Documents.r_created_at b <= Documents.r_created_at a)%Q)
          (Documents.l_documents response))
  /\ (forall e,
        Documents.db_fault_at s (Documents.db_calls s) = Some e ->
        Documents.list_documents current_user_id s = (Raise e, Documents.tick_db s)).
Proof.
  unfold Documents.list_documents, Documents.select_by_user, Documents.db_call.
  unfold bindM, gets, ret.
  split; [| intros e ->; reflexivity].
  intros ->. cbn [Documents.documents Documents.tick_db].
  set (rows := Documents.newest_first _).
  eexists. split; [reflexivity |].
  cbn [Documents.l_total Documents.l_documents Documents.l_total_chunks
       Documents.l_total_embeddings].
  split; [now rewrite length_map |].
  split; [rewrite sum_total_of, map_map; reflexivity |].
  split; [rewrite sum_total_of, map_map; reflexivity |].
  split; [| apply sorted_map_model_validate, newest_first_sorted].
  intros r. rewrite in_map_iff. unfold rows. split.
  - intros (d & <- & Hd). apply (proj1 (newest_first_In _ _)) in Hd.
    apply filter_In in Hd. destruct Hd as [Hd Hu].
    apply in_map_iff in Hd. destruct Hd as ([k d'] & Hsnd & Hkd). simpl in Hsnd. subst d'.
    apply (proj2 (list_elem_of_In _ _)) in Hkd.
    apply (proj1 (elem_of_map_to_list _ _ _)) in Hkd.
    exists k, d. repeat split; [exact Hkd | lia].
  - intros (k & d & Hkd & Hu & ->). exists d. split; [reflexivity |].
    apply newest_first_In. apply filter_In. split; [| lia].
    apply in_map_iff. exists (k, d). split; [reflexivity |].
    apply list_elem_of_In. apply elem_of_map_to_list. exact Hkd.
Qed.

(** User 7 is shown the one report. *)
Lemma list_documents_shows_own_documents_witness :
  exists response,
    fst (Documents.list_documents 7 one_report) = Ok response
    /\ Documents.l_total response = 1
    /\ In (Documents.model_validate report_row) (Documents.l_documents response).
Proof.
  destruct (list_documents_shows_own_documents 7 one_report) as [Hhealthy _].
  destruct (Hhealthy eq_refl) as (response & E & Htotal & _ & _ & Hrows & _).
  exists response. rewrite E. split; [reflexivity |]. split.
  - pose proof (f_equal (fun p => match fst p with
                                  | Ok r => Documents.l_total r
                                  | Raise _ => 0
                                  end) E) as Hone.
    vm_compute in Hone. symmetry. exact Hone.
  - apply Hrows. exists 1, report_row. repeat split.
Defined.

(** Deleting from a store whose client is opened first. *)
Lemma delete_document_after_open (settings : Config.Settings) (document_id : Z)
    (vs : VectorStore.State) :
  VectorStore._initialized vs = false ->
  VectorStore.fault_at vs (VectorStore.calls vs) = None ->
  VectorStore.delete_document settings document_id vs
  = VectorStore.delete_document settings document_id
      (VectorStore.set_initialized (truthy (Config.OPENAI_API_KEY settings))
         (VectorStore.tick_call (VectorStore.Open (Config.VECTOR_STORE_PATH settings)) vs)).
Proof.
  intros Hi Hf.
  assert (VectorStore._ensure_initialized settings vs
          = (Ok tt,
             VectorStore.set_initialized (truthy (Config.OPENAI_API_KEY settings))
               (VectorStore.tick_call
                  (VectorStore.Open (Config.VECTOR_STORE_PATH settings)) vs))) as Hopen.
  { unfold VectorStore._ensure_initialized, bindM, VectorStore.client_call, modify.
    rewrite Hi, Hf. reflexivity. }
  unfold VectorStore.delete_document, bindM.
  rewrite Hopen.
  rewrite (ensure_initialized_noop settings
             (VectorStore.set_initialized (truthy (Config.OPENAI_API_KEY settings))
                (VectorStore.tick_call
                   (VectorStore.Open (Config.VECTOR_STORE_PATH settings)) vs)) eq_refl).
  reflexivity.
Qed.

(** X21.  Deleting a document of the caller removes its row whenever the
    vector store holds its client or can open it, whatever the index client
    and the disk do after that, because the handler ignores what
    [delete_document] of the vector store and [delete_file] return: with the
    database answering, the handler returns the success message and the row
    is gone; tasks already queued stay queued.  The chunks are gone if the
    index client answers, and are all still there if the first call of the
    deletion fails; the file is gone if the removal succeeds (or it was not
    there), and the directory is unchanged if the removal raises.  When the
    vector store cannot open its client, the exception escapes the handler
    and nothing is removed: the row, the file and the chunks stay. *)
Theorem delete_document_removes_row
    (settings : Config.Settings) (document_id current_user_id : Z)
    (s : Documents.State) (d : Documents.Document) :
  Documents.db_fault_at s (Documents.db_calls s) = None ->
  Documents.documents s !! document_id = Some d ->
  Documents.id d = document_id ->
  Documents.user_id d = current_user_id ->
  let vs := Documents.vector_store s in
  let st := Documents.storage s in
  let first :=
    if VectorStore._initialized vs then VectorStore.calls vs
    else S (VectorStore.calls vs) in
  (VectorStore._initialized vs = true
   \/ VectorStore.fault_at vs (VectorStore.calls vs) = None ->
   exists s',
     Documents.delete_document settings document_id current_user_id s
     = (Ok ("Document '" +:+ Documents.original_filename d +:+ "' deleted successfully"), s')
     /\ Documents.documents s' = delete document_id (Documents.documents s)
     /\ Documents.documents s' !! document_id = None
     /\ Documents.background_tasks s' = Documents.background_tasks s
     /\ (VectorStore.fault_at vs first = None ->
         VectorStore.fault_at vs (S first) = None ->
         Forall (fun e => VectorStore.document_id (VectorStore.metadata e) <> document_id)
           (VectorStore.collection (Documents.vector_store s')))
     /\ (is_Some (VectorStore.fault_at vs first) ->
         VectorStore.collection (Documents.vector_store s') = VectorStore.collection vs)
     /\ (DocumentProcessor.write_fault st (DocumentProcessor.writes st) = None ->
         DocumentProcessor.files (Documents.storage s') !! Documents.file_path d = None)
     /\ (is_Some (DocumentProcessor.write_fault st (DocumentProcessor.writes st)) ->
         DocumentProcessor.files (Documents.storage s') = DocumentProcessor.files st))
  /\ (forall e,
        VectorStore._initialized vs = false ->
        VectorStore.fault_at vs (VectorStore.calls vs) = Some e ->
        exists s',
          Documents.delete_document settings document_id current_user_id s = (Raise e, s')
          /\ Documents.documents s' = Documents.documents s
          /\ Documents.storage s' = Documents.storage s
          /\ VectorStore.collection (Documents.vector_store s') = VectorStore.collection vs
          /\ Documents.background_tasks s' = Documents.background_tasks s).
Proof.
  intros Hdb Hrow Hid Howner. cbv zeta.
  unfold Documents.delete_document, Documents.select_owned, Documents.select_document,
    Documents.db_call, bindM, gets, ret, raise, zoom, modify.
  rewrite Hdb. cbn [Documents.documents Documents.tick_db]. rewrite Hrow.
  replace (Documents.user_id d =? current_user_id) with true by (symmetry; lia).
  change (Documents.vector_store (Documents.tick_db s)) with (Documents.vector_store s).
  split.
  - intros Hopen.
    assert (exists vs1,
               VectorStore.delete_document settings document_id (Documents.vector_store s)
               = VectorStore.delete_document settings document_id vs1
               /\ VectorStore._initialized vs1 = true
               /\ VectorStore.collection vs1
                  = VectorStore.collection (Documents.vector_store s)
               /\ VectorStore.fault_at vs1 = VectorStore.fault_at (Documents.vector_store s)
               /\ VectorStore.calls vs1
                  = if VectorStore._initialized (Documents.vector_store s)
                    then VectorStore.calls (Documents.vector_store s)
                    else S (VectorStore.calls (Documents.vector_store s)))
      as (vs1 & -> & Hinit & Hcoll & Hfault & Hcalls).
    { destruct (VectorStore._initialized (Documents.vector_store s)) eqn:Hi.
      - exists (Documents.vector_store s). auto.
      - destruct Hopen as [Hopen | Hopen]; [discriminate |].
        eexists. split; [apply (delete_document_after_open _ _ _ Hi Hopen) |].
        repeat split. }
    destruct (delete_document_outcome settings document_id _ Hinit)
      as (ok & vs' & Edel & _ & Hcases).
    rewrite Edel. rewrite Hcoll, Hfault, Hcalls in Hcases.
    cbn [Documents.storage Documents.set_vector_store Documents.tick_db].
    destruct (DocumentProcessor.delete_file (Documents.file_path d) (Documents.storage s))
      as [removed st'] eqn:Efile.
    eexists. split; [reflexivity |].
    cbn [Documents.documents Documents.delete_row Documents.set_storage
         Documents.set_vector_store Documents.tick_db Documents.background_tasks
         Documents.vector_store Documents.storage].
    rewrite Hid.
    split; [reflexivity |]. split; [apply lookup_delete_eq |]. split; [reflexivity |].
    split; [| split; [| split]].
    + intros F1 F2. destruct Hcases as [(_ & _ & Hc) | (_ & _ & [[e F] | [e F]])];
        [| congruence | congruence].
      rewrite Hc. apply List.Forall_forall. intros e He Hd.
      apply filter_In in He. destruct He as [He Hkeep]. apply negb_true_iff in Hkeep.
      assert (existsb (String.eqb (VectorStore.id e))
                (map VectorStore.id
                   (List.filter
                      (fun e0 => VectorStore.document_id (VectorStore.metadata e0)
                                 =? document_id)
                      (VectorStore.collection (Documents.vector_store s)))) = true)
        as Hin; [| congruence].
      apply existsb_eqb_In. apply in_map. apply filter_In. split; [exact He | lia].
    + intros [e F]. destruct Hcases as [(_ & Hnone & _) | (_ & Hc & _)];
        [congruence | exact Hc].
    + intros Hw. unfold DocumentProcessor.delete_file in Efile.
      destruct (DocumentProcessor.files (Documents.storage s) !! Documents.file_path d)
        eqn:Hfile.
      * rewrite Hw in Efile. injection Efile as _ <-. apply lookup_delete_eq.
      * injection Efile as _ <-. exact Hfile.
    + intros [e Hw]. unfold DocumentProcessor.delete_file in Efile.
      destruct (DocumentProcessor.files (Documents.storage s) !! Documents.file_path d).
      * rewrite Hw in Efile. injection Efile as _ <-. reflexivity.
      * injection Efile as _ <-. reflexivity.
  - intros e Hi Hf.
    assert (VectorStore._ensure_initialized settings (Documents.vector_store s)
            = (Raise e,
               VectorStore.tick_call (VectorStore.Open (Config.VECTOR_STORE_PATH settings))
                 (Documents.vector_store s))) as Hopen.
    { unfold VectorStore._ensure_initialized, bindM, VectorStore.client_call, modify.
      rewrite Hi, Hf. reflexivity. }
    unfold VectorStore.delete_document, bindM. rewrite Hopen.
    eexists. split; [reflexivity |]. repeat split.
Qed.

(** User 7 deletes the report: row and chunks are gone.  When the index
    cannot be opened, the same request fails and the row stays. *)
Lemma delete_document_removes_row_witness :
  (exists s',
      Documents.delete_document Config.default_settings 1 7 one_report
      = (Ok "Document 'report.txt' deleted successfully", s')
      /\ Documents.documents s' !! 1 = None
      /\ Forall (fun e => VectorStore.document_id (VectorStore.metadata e) <> 1)
           (VectorStore.collection (Documents.vector_store s')))
  /\ (exists s',
        Documents.delete_document Config.default_settings 1 7 report_index_down
        = (Raise (Exception "unable to open database file"), s')
        /\ Documents.documents s' !! 1 = Some report_row).
Proof.
  split.
  - destruct (delete_document_removes_row Config.default_settings 1 7 one_report report_row)
      as [Hopen _]; try reflexivity.
    destruct (Hopen (or_introl eq_refl)) as (s' & E & _ & Hgone & _ & Hpurged & _).
    exists s'. split; [exact E |]. split; [exact Hgone |].
    apply Hpurged; reflexivity.
  - destruct (delete_document_removes_row Config.default_settings 1 7 report_index_down
                report_row) as [_ Hdown]; try reflexivity.
    destruct (Hdown (Exception "unable to open database file") eq_refl eq_refl)
      as (s' & E & Hrows & _).
    exists s'. split; [exact E |]. rewrite Hrows. reflexivity.
Defined.

(* ===================================================================== *)
(** * Batches, ingestion and deletion                                   *)
(* ===================================================================== *)

Section BatchFacts.

Variable settings : Config.Settings.

Ltac failed_file :=
  do 2 eexists; split; [reflexivity |]; split; [simpl; lia |]; left;
  split; reflexivity.

(** The two ways the loop body ends. *)
Lemma upload_one_outcome (current_user_id : Z) (file : Documents.UploadFile)
    (t : Documents.Tally) (s : Documents.State) :
  exists t' s',
    Documents.upload_one settings current_user_id file t s = (Ok t', s')
    /\ Documents.next_id s <= Documents.next_id s'
    /\ ((t' = Documents.count_failed t
         /\ Documents.background_tasks s' = Documents.background_tasks s)
        \/ exists r task,
             t' = Documents.count_successful r t
             /\ untouched r
             /\ Documents.r_id r = Documents.next_id s
             /\ Documents.next_id s' = Documents.next_id s + 1
             /\ Documents.background_tasks s' = Documents.background_tasks s ++ [task]
             /\ Documents.task_document_id task = Documents.r_id r
             /\ Documents.task_user_id task = current_user_id
             /\ Documents.task_document_name task = Documents.upload_filename file).
Proof.
  unfold Documents.upload_one, try_exceptM.
  destruct (DocumentProcessor.validate_file _ _ _) as [is_valid error_msg].
  destruct is_valid; simpl; [| failed_file].
  unfold Documents.add_and_flush, Documents.refresh, Documents.select_document,
    Documents.utcnow, DocumentProcessor.save_file.
  unfold bindM, zoom, Documents.db_call, VectorStore.wall_clock, gets, modify, ret, raise.
  destruct (DocumentProcessor.write_fault _ _); simpl; [failed_file |].
  destruct (Documents.db_fault_at s (Documents.db_calls s)); simpl; [failed_file |].
  destruct (Documents.db_fault_at s (S (Documents.db_calls s))); simpl; [failed_file |].
  rewrite lookup_insert_eq.
  do 2 eexists. split; [reflexivity |]. split; [simpl; lia |]. right.
  do 2 eexists. split; [reflexivity |].
  split; [repeat split |]. simpl. split; [reflexivity |]. split; [lia |].
  repeat split.
Qed.

Lemma upload_loop_outcome (current_user_id : Z) (files : list Documents.UploadFile)
    (t : Documents.Tally) (s : Documents.State) :
  exists t' s' new_documents new_tasks,
    Documents.upload_loop settings current_user_id files t s = (Ok t', s')
    /\ Documents.uploaded_documents t' = Documents.uploaded_documents t ++ new_documents
    /\ Documents.n_successful t'
       = Documents.n_successful t + Z.of_nat (length new_documents)
    /\ Documents.background_tasks s' = Documents.background_tasks s ++ new_tasks
    /\ map Documents.task_document_id new_tasks = map Documents.r_id new_documents
    /\ Forall (fun task => Documents.task_user_id task = current_user_id) new_tasks
    /\ Forall untouched new_documents
    /\ Documents.next_id s <= Documents.next_id s'
    /\ Forall (fun r => Documents.next_id s <= Documents.r_id r < Documents.next_id s')
         new_documents
    /\ StronglySorted Z.lt (map Documents.r_id new_documents).
Proof.
  revert t s. induction files as [| file files IH]; intros t s.
  - exists t, s, [], []. simpl. rewrite !app_nil_r.
    repeat split; try reflexivity; try constructor; lia.
  - destruct (upload_one_outcome current_user_id file t s)
      as (t1 & s1 & E1 & Hnext & Hcase).
    destruct (IH t1 s1)
      as (t' & s' & docs & tasks & E & Hup & Hn & Htasks & Hids & Hu & Hfresh
          & Hnext' & Hrange & Hsorted).
    assert (Documents.upload_loop settings current_user_id (file :: files) t s
            = (Ok t', s')) as Eloop
      by (cbn [Documents.upload_loop]; unfold bindM; rewrite E1; exact E).
    destruct Hcase as [[-> Ht1] | (r & task & -> & Hr & Hrid & Hs1 & Ht1 & Htid & Htu & _)].
    + exists t', s', docs, tasks. split; [exact Eloop |].
      simpl in Hup, Hn. rewrite Ht1 in Htasks.
      repeat (split; [assumption || lia |]).
      split; [| exact Hsorted].
      eapply List.Forall_impl; [| exact Hrange]. simpl. intros x Hx. lia.
    + exists t', s', (r :: docs), (task :: tasks). split; [exact Eloop |].
      simpl in Hup, Hn. rewrite <- app_assoc in Hup. simpl in Hup.
      rewrite Ht1, <- app_assoc in Htasks. simpl in Htasks.
      split; [exact Hup |].
      split; [cbn [length]; lia |].
      split; [exact Htasks |].
      split; [simpl; congruence |].
      split; [constructor; assumption |].
      split; [constructor; assumption |].
      split; [lia |].
      split.
      * constructor; [lia |].
        eapply List.Forall_impl; [| exact Hrange]. simpl. intros x Hx. lia.
      * simpl. constructor; [exact Hsorted |].
        apply List.Forall_forall. intros i Hi. apply in_map_iff in Hi.
        destruct Hi as (x & <- & Hx). rewrite List.Forall_forall in Hrange.
        specialize (Hrange x Hx). lia.
Qed.

End BatchFacts.

(** X22.  [upload_documents] schedules one ingestion task per document it
    returns, in the same order and for the same ids, all for the caller, and
    schedules nothing else; it leaves earlier tasks in place.  Every
    returned document is pending with zero counts and no preview, error or
    processing time, and the returned ids are new and strictly increasing. *)
Theorem upload_schedules_one_task_per_stored_document
    (settings : Config.Settings) (files : list Documents.UploadFile)
    (current_user_id : Z) (s s' : Documents.State) (response : Documents.UploadResponse) :
  Documents.upload_documents settings files current_user_id s = (Ok response, s') ->
  exists new_tasks,
    Documents.background_tasks s' = Documents.background_tasks s ++ new_tasks
    /\ map Documents.task_document_id new_tasks
       = map Documents.r_id (Documents.documents_out response)
    /\ Z.of_nat (length new_tasks) = Documents.successful response
    /\ Forall (fun task => Documents.task_user_id task = current_user_id) new_tasks
    /\ Forall untouched (Documents.documents_out response)
    /\ Forall (fun r => Documents.next_id s <= Documents.r_id r < Documents.next_id s')
         (Documents.documents_out response)
    /\ StronglySorted Z.lt (map Documents.r_id (Documents.documents_out response)).
Proof.
  unfold Documents.upload_documents.
  destruct files as [| file files]; [intros H; discriminate H |].
  destruct (upload_loop_outcome settings current_user_id (file :: files)
              {| Documents.uploaded_documents := []; Documents.n_successful := 0;
                 Documents.n_failed := 0 |} s)
    as (t' & s1 & docs & tasks & E & Hup & Hn & Htasks & Hids & Hu & Hfresh
        & _ & Hrange & Hsorted).
  unfold bindM. rewrite E. unfold ret. intros H. injection H as <- <-.
  simpl in Hup, Hn. cbn [Documents.documents_out Documents.successful].
  rewrite Hup. exists tasks.
  split; [exact Htasks |]. split; [exact Hids |].
  split; [rewrite Hn; apply (f_equal (@length Z)) in Hids; rewrite !length_map in Hids; lia |].
  repeat (split; [assumption |]). exact Hsorted.
Qed.

(** Of a text file and a Word file, one is stored and one task is queued. *)
Lemma upload_schedules_one_task_per_stored_document_witness :
  exists response s' task,
    Documents.upload_documents Config.default_settings [notes_txt; slides_docx] 7
      fresh_documents = (Ok response, s')
    /\ Documents.background_tasks s' = [task]
    /\ map Documents.r_id (Documents.documents_out response)
       = [Documents.task_document_id task]
    /\ Documents.successful response = 1.
Proof.
  destruct (Documents.upload_documents Config.default_settings [notes_txt; slides_docx] 7
              fresh_documents) as [[response | e] s'] eqn:E;
    [| vm_compute in E; discriminate E].
  destruct (upload_schedules_one_task_per_stored_document _ _ _ _ _ _ E)
    as (new_tasks & Htasks & Hids & Hcount & _).
  pose proof (f_equal (fun p => match fst p with
                                | Ok r => Documents.successful r
                                | Raise _ => 0
                                end) E) as Hone.
  vm_compute in Hone. symmetry in Hone.
  change (Documents.successful response = 1) in Hone.
  rewrite Hone in Hcount.
  destruct new_tasks as [| task [| task' rest]]; try (simpl in Hcount; lia).
  exists response, s', task. split; [reflexivity |]. split; [exact Htasks |].
  split; [symmetry; exact Hids | exact Hone].
Defined.

(** X23.  One run of the ingestion task touches only its document: provided
    the row is stored under its id, rows of other documents, the upload
    directory and the task list are unchanged; when the document has no row
    the run changes neither the table nor the index; otherwise the row
    afterwards has the same id, owner, names, path, type, size and creation
    time as before. *)
Theorem ingestion_touches_only_its_document
    (settings : Config.Settings) (text_splitter : Z -> Z -> string -> list string)
    (pdf_pages : list byte -> result (list string))
    (embed_api : string -> result (list Q))
    (document_id : Z) (file_path file_type : string)
    (user_id : Z) (document_name : string) (s : Documents.State) :
  let s' := snd (Documents.process_document_background settings text_splitter pdf_pages
                   embed_api document_id file_path file_type user_id document_name s) in
  (forall d, Documents.documents s !! document_id = Some d -> Documents.id d = document_id) ->
  (forall other, other <> document_id ->
     Documents.documents s' !! other = Documents.documents s !! other)
  /\ Documents.storage s' = Documents.storage s
  /\ Documents.background_tasks s' = Documents.background_tasks s
  /\ (Documents.documents s !! document_id = None ->
      Documents.documents s' = Documents.documents s
      /\ Documents.journal s' = Documents.journal s
      /\ Documents.vector_store s' = Documents.vector_store s)
  /\ (forall d,
        Documents.documents s !! document_id = Some d ->
        exists d',
          Documents.documents s' !! document_id = Some d'
          /\ Documents.id d' = Documents.id d
          /\ Documents.user_id d' = Documents.user_id d
          /\ Documents.filename d' = Documents.filename d
          /\ Documents.original_filename d' = Documents.original_filename d
          /\ Documents.file_path d' = Documents.file_path d
          /\ Documents.file_type d' = Documents.file_type d
          /\ Documents.file_size d' = Documents.file_size d
          /\ Documents.created_at d' = Documents.created_at d).
Proof.
  cbv zeta. intros Hkey.
  unfold Documents.process_document_background, Documents.record_failure.
  unfold Documents.select_document, Documents.commit, Documents.utcnow.
  unfold try_exceptM, bindM, zoom, Documents.db_call, VectorStore.wall_clock,
    gets, modify, ret, lift.
  destruct (Documents.documents s !! document_id) as [d |] eqn:Hrow.
  - pose proof (Hkey d eq_refl) as Hid. subst document_id.
    repeat (simpl; rewrite ?Hrow, ?lookup_insert_eq;
            match goal with
            | |- context [match Documents.db_fault_at ?s ?k with _ => _ end] =>
                destruct (Documents.db_fault_at s k)
            | |- context [match DocumentProcessor.extract_text ?a ?b ?c ?d with _ => _ end] =>
                destruct (DocumentProcessor.extract_text a b c d)
            | |- context [negb (truthy ?x)] => destruct (truthy x) eqn:?
            | |- context [match DocumentProcessor.split_text ?a ?b ?c with _ => _ end] =>
                destruct (DocumentProcessor.split_text a b c) eqn:?
            | |- context [let (_, _) := VectorStore.add_documents ?a ?b ?c ?d ?e ?f ?g in _] =>
                destruct (VectorStore.add_documents a b c d e f g) as [[? | ?] ?] eqn:?
            end);
      simpl; rewrite ?Hrow;
      (split; [intros other Hother; rewrite ?lookup_insert_ne by congruence; reflexivity |]);
      (split; [reflexivity |]); (split; [reflexivity |]);
      (split; [intros Hnone; discriminate Hnone |]);
      intros d0 Hd0; injection Hd0 as <-;
      rewrite ?lookup_insert_eq; eexists; (split; [reflexivity |]);
      simpl; repeat split.
  - repeat (simpl; rewrite ?Hrow;
            match goal with
            | |- context [match Documents.db_fault_at ?s ?k with _ => _ end] =>
                destruct (Documents.db_fault_at s k)
            end);
      simpl; rewrite ?Hrow; simpl;
      (split; [intros; reflexivity |]); (split; [reflexivity |]); (split; [reflexivity |]);
      (split; [intros _; repeat split |]);
      intros d0 Hd0; discriminate Hd0.
Qed.

(** Ingesting the uploaded notes leaves the directory, the task list and
    other ids alone. *)
Lemma ingestion_touches_only_its_document_witness :
  Documents.storage (snd (run_notes_task after_upload)) = Documents.storage after_upload
  /\ Documents.background_tasks (snd (run_notes_task after_upload))
     = Documents.background_tasks after_upload
  /\ Documents.documents (snd (run_notes_task after_upload)) !! 2
     = Documents.documents after_upload !! 2.
Proof.
  destruct (ingestion_touches_only_its_document Config.default_settings one_chunk_splitter
              rejecting_pdf_reader unreachable_embed_api
              1 "./uploads/9f1c2d3e4b5a69788796a5b4c3d2e1f0.txt" ".txt" 7 "notes.txt"
              after_upload)
    as (Hothers & Hstorage & Htasks & _).
  - intros d Hd. vm_compute in Hd. injection Hd as <-. reflexivity.
  - split; [exact Hstorage |]. split; [exact Htasks |]. apply Hothers. discriminate.
Defined.

(* ===================================================================== *)
(** * The detailed health check                                         *)
(* ===================================================================== *)

Lemma get_total_count_initialized (settings : Config.Settings) (s : VectorStore.State) :
  VectorStore._initialized s = true ->
  VectorStore.get_total_count settings s
  = (Ok (match VectorStore.fault_at s (VectorStore.calls s) with
         | None => Z.of_nat (length (VectorStore.collection s))
         | Some _ => 0
         end), VectorStore.tick_call VectorStore.Count s).
Proof.
  intros Hinit. unfold VectorStore.get_total_count.
  rewrite (bind_ensure_initialized settings _ s Hinit).
  unfold VectorStore.count, VectorStore.client_call, try_exceptM, bindM, gets, ret.
  destruct (VectorStore.fault_at s (VectorStore.calls s)); reflexivity.
Qed.

(** X24.  With the vector store initialized, [detailed_health_check] always
    answers [healthy] with the vector store reported available:
    [total_embeddings] is the number of entries, or 0 when the index client
    fails; [llm_available] tells whether a backend was chosen, and
    [max_file_size_mb] is the size limit in units of 1024 * 1024 bytes.
    When the vector store cannot be initialized the exception escapes the
    handler. *)
Theorem detailed_health_counts_unreachable_index_as_empty
    (settings : Config.Settings) (APP_NAME APP_VERSION : string) (s : LLM.State) :
  let vs := LLM.vector_store s in
  (VectorStore._initialized vs = true ->
   exists report s',
     Health.detailed_health_check settings APP_NAME APP_VERSION s = (Ok report, s')
     /\ Health.d_status report = "healthy"
     /\ Health.available (Health.vector_store (Health.services report)) = true
     /\ (VectorStore.fault_at vs (VectorStore.calls vs) = None ->
         Health.total_embeddings (Health.vector_store (Health.services report))
         = Z.of_nat (length (VectorStore.collection vs)))
     /\ (is_Some (VectorStore.fault_at vs (VectorStore.calls vs)) ->
         Health.total_embeddings (Health.vector_store (Health.services report)) = 0)
     /\ LLM.llm_available (Health.llm (Health.services report))
        = match LLM._llm (LLM._ensure_initialized settings (LLM.service s)) with
          | Some _ => true
          | None => false
          end
     /\ (Health.max_file_size_mb (Health.config report) * inject_Z (1024 * 1024)
         == inject_Z (Config.MAX_FILE_SIZE settings))%Q)
  /\ (forall e,
        VectorStore._initialized vs = false ->
        VectorStore.fault_at vs (VectorStore.calls vs) = Some e ->
        exists s',
          Health.detailed_health_check settings APP_NAME APP_VERSION s = (Raise e, s')).
Proof.
  cbv zeta. split.
  - intros Hinit.
    unfold Health.detailed_health_check, LLM.health_check, bindM, zoom, modify, gets, ret.
    cbn [LLM.vector_store LLM.set_service].
    rewrite (get_total_count_initialized settings _ Hinit).
    do 2 eexists. split; [reflexivity |].
    cbn [Health.d_status Health.available Health.vector_store Health.services
         Health.total_embeddings Health.llm LLM.llm_available Health.max_file_size_mb
         Health.config LLM.service].
    split; [reflexivity |]. split; [reflexivity |].
    split; [intros ->; reflexivity |].
    split; [intros [e ->]; reflexivity |].
    split; [reflexivity |].
    field. intros H; discriminate H.
  - intros e Hinit Hf.
    unfold Health.detailed_health_check, LLM.health_check, bindM, zoom, modify, gets, ret.
    cbn [LLM.vector_store LLM.set_service].
    unfold VectorStore.get_total_count, VectorStore._ensure_initialized, bindM.
    rewrite Hinit. unfold VectorStore.client_call. rewrite Hf.
    eexists. reflexivity.
Qed.

(** The running index reports its one entry and a limit of 10 MB; an index
    that cannot be opened makes the check fail. *)
Lemma detailed_health_counts_unreachable_index_as_empty_witness :
  (exists report,
      fst (Health.detailed_health_check Config.default_settings "AI Knowledge Assistant"
             "1.0.0" running_llm) = Ok report
      /\ Health.total_embeddings (Health.vector_store (Health.services report)) = 1
      /\ (Health.max_file_size_mb (Health.config report) == 10)%Q)
  /\ fst (Health.detailed_health_check Config.default_settings "AI Knowledge Assistant"
            "1.0.0" broken_llm)
     = Raise (Exception "unable to open database file").
Proof.
  destruct (detailed_health_counts_unreachable_index_as_empty Config.default_settings
              "AI Knowledge Assistant" "1.0.0" running_llm) as [Hrunning _].
  destruct (detailed_health_counts_unreachable_index_as_empty Config.default_settings
              "AI Knowledge Assistant" "1.0.0" broken_llm) as [_ Hbroken].
  split.
  - destruct (Hrunning eq_refl) as (report & s' & E & _ & _ & Hcount & _ & _ & Hmb).
    exists report. rewrite E. split; [reflexivity |]. split; [apply Hcount; reflexivity |].
    change (inject_Z (Config.MAX_FILE_SIZE Config.default_settings))
      with (10 * inject_Z (1024 * 1024))%Q in Hmb.
    apply (Qmult_inj_r _ _ (inject_Z (1024 * 1024))); [discriminate | exact Hmb].
  - destruct (Hbroken (Exception "unable to open database file") eq_refl eq_refl)
      as [s' E].
    rewrite E. reflexivity.
Defined.

(* ===================================================================== *)
(** * Uploading and deleting again                                      *)
(* ===================================================================== *)

Section RoundTripFacts.

Variable settings : Config.Settings.
Variable text_splitter : Z -> Z -> string -> list string.
Variable pdf_pages : list byte -> result (list string).
Variable embed_api : string -> result (list Q).

(** A task whose document is gone finds nothing to do. *)
Lemma task_without_row (document_id : Z) (file_path file_type : string)
    (user_id : Z) (document_name : string) (s : Documents.State) :
  Documents.documents s !! document_id = None ->
  exists s',
    Documents.process_document_background settings text_splitter pdf_pages embed_api
      document_id file_path file_type user_id document_name s = (Ok tt, s')
    /\ Documents.documents s' = Documents.documents s
    /\ Documents.journal s' = Documents.journal s
    /\ Documents.storage s' = Documents.storage s
    /\ Documents.vector_store s' = Documents.vector_store s
    /\ Documents.background_tasks s' = Documents.background_tasks s.
Proof.
  intros Hrow.
  unfold Documents.process_document_background, Documents.record_failure.
  unfold Documents.select_document, Documents.commit, Documents.utcnow.
  unfold try_exceptM, bindM, zoom, Documents.db_call, VectorStore.wall_clock,
    gets, modify, ret, lift.
  repeat (simpl; rewrite ?Hrow;
          match goal with
          | |- context [match Documents.db_fault_at ?s ?k with _ => _ end] =>
              destruct (Documents.db_fault_at s k)
          end);
    simpl; rewrite ?Hrow; eexists; (split; [reflexivity |]); repeat split.
Qed.

End RoundTripFacts.

(** X25.  Uploading a file and deleting the document again restores the
    store: with a disk and a database that answer, an initialized vector
    store, no task waiting, the next id free in the table and in the index
    and the storage path free in the directory, the upload of a valid file
    followed by [delete_document] leaves the table, the upload directory and
    the collection as they were before the upload; the ingestion task that
    the upload queued then runs without effect, because its document is
    gone. *)
Theorem upload_then_delete_restores_the_store
    (settings : Config.Settings) (text_splitter : Z -> Z -> string -> list string)
    (pdf_pages : list byte -> result (list string))
    (embed_api : string -> result (list Q))
    (current_user_id : Z) (file : Documents.UploadFile)
    (t : Documents.Tally) (s : Documents.State) :
  let st := Documents.storage s in
  let stored_path :=
    DocumentProcessor.os_path_join (Config.UPLOAD_DIR settings)
      (DocumentProcessor.uuid4_hex st (DocumentProcessor.uuids_drawn st)
         +:+ lower (DocumentProcessor.suffix (Documents.upload_filename file))) in
  is_valid_upload settings file = true ->
  (forall k, DocumentProcessor.write_fault st k = None) ->
  (forall k, Documents.db_fault_at s k = None) ->
  VectorStore._initialized (Documents.vector_store s) = true ->
  Documents.documents s !! Documents.next_id s = None ->
  DocumentProcessor.files st !! stored_path = None ->
  Forall (fun e => VectorStore.document_id (VectorStore.metadata e) <> Documents.next_id s)
    (VectorStore.collection (Documents.vector_store s)) ->
  Documents.background_tasks s = [] ->
  exists r s1 s2 s3,
    Documents.upload_one settings current_user_id file t s
    = (Ok (Documents.count_successful r t), s1)
    /\ Documents.delete_document settings (Documents.r_id r) current_user_id s1
       = (Ok ("Document '" +:+ Documents.upload_filename file +:+ "' deleted successfully"),
          s2)
    /\ Documents.documents s2 = Documents.documents s
    /\ DocumentProcessor.files (Documents.storage s2) = DocumentProcessor.files st
    /\ VectorStore.collection (Documents.vector_store s2)
       = VectorStore.collection (Documents.vector_store s)
    /\ Documents.run_next_task settings text_splitter pdf_pages embed_api s2 = (Ok tt, s3)
    /\ Documents.documents s3 = Documents.documents s
    /\ Documents.vector_store s3 = Documents.vector_store s2
    /\ Documents.background_tasks s3 = [].
Proof.
  cbv zeta. intros Hvalid Hwrite Hdb Hinit Hfresh Hpath Hindex Htasks.
  assert (VectorStore._initialized (VectorStore.tick_clock (Documents.vector_store s)) = true)
    as Hinit' by exact Hinit.
  destruct (delete_document_outcome settings (Documents.next_id s) _ Hinit')
    as (ok & vs' & Edel & _ & Hcases).
  assert (VectorStore.collection vs' = VectorStore.collection (Documents.vector_store s))
    as Hcoll.
  { destruct Hcases as [(_ & _ & Hc) | (_ & Hc & _)]; [| exact Hc].
    rewrite Hc. simpl. rewrite List.Forall_forall in Hindex.
    rewrite (filter_none
               (fun e => VectorStore.document_id (VectorStore.metadata e)
                         =? Documents.next_id s)
               (VectorStore.collection (Documents.vector_store s))) by
      (intros e He; apply Z.eqb_neq; apply Hindex; exact He).
    apply filter_all. reflexivity. }
  eassert (Documents.upload_one settings current_user_id file t s
           = (Ok (Documents.count_successful (Documents.model_validate _) t), _)) as Eup.
  { unfold is_valid_upload in Hvalid.
    unfold Documents.upload_one, try_exceptM.
    destruct (DocumentProcessor.validate_file _ _ _) as [is_valid error_msg].
    simpl in Hvalid. subst is_valid. simpl.
    unfold Documents.add_and_flush, Documents.refresh, Documents.select_document,
      Documents.utcnow, DocumentProcessor.save_file.
    unfold bindM, zoom, Documents.db_call, VectorStore.wall_clock, gets, modify, ret.
    rewrite Hwrite. simpl. rewrite Hdb. simpl. rewrite Hdb. simpl.
    rewrite lookup_insert_eq. reflexivity. }
  match type of Eup with
  | _ = (Ok (Documents.count_successful ?r t), ?s1) =>
      exists r, s1;
      eassert (Documents.delete_document settings (Documents.next_id s) current_user_id s1
               = (Ok _, _)) as Edoc
  end.
  { unfold Documents.delete_document, Documents.select_owned, Documents.select_document,
      Documents.db_call, bindM, gets, ret, raise, zoom, modify.
    cbn -[VectorStore.delete_document DocumentProcessor.delete_file].
    rewrite !Hdb.
    cbn -[VectorStore.delete_document DocumentProcessor.delete_file].
    rewrite lookup_insert_eq.
    cbn -[VectorStore.delete_document DocumentProcessor.delete_file].
    rewrite Z.eqb_refl.
    cbn -[VectorStore.delete_document DocumentProcessor.delete_file].
    rewrite Edel.
    cbn -[DocumentProcessor.delete_file].
    unfold DocumentProcessor.delete_file. cbn.
    rewrite lookup_insert_eq, Hwrite. cbn. reflexivity. }
  match type of Edoc with
  | _ = (_, ?s2) =>
      exists s2,
        (snd (Documents.run_next_task settings text_splitter pdf_pages embed_api s2))
  end.
  cbn [Documents.r_id Documents.model_validate Documents.id].
  split; [exact Eup |]. split; [exact Edoc |].
  split; [apply delete_insert_id; exact Hfresh |].
  split; [apply delete_insert_id; exact Hpath |].
  split; [exact Hcoll |].
  unfold Documents.run_next_task. cbn -[Documents.process_document_background].
  rewrite !Htasks. cbn -[Documents.process_document_background].
  match goal with
  | |- context [Documents.process_document_background ?a ?b ?c ?d ?i ?p ?ty ?u ?n ?s0] =>
      destruct (task_without_row a b c d i p ty u n s0)
        as (s3 & E3 & H1 & H2 & H3 & H4 & H5);
        [cbn; apply lookup_delete_eq |];
      rewrite E3
  end.
  cbn [snd]. split; [reflexivity |]. rewrite H1, H4, H5. cbn.
  split; [apply delete_insert_id; exact Hfresh |].
  split; reflexivity.
Qed.

(** Beside the stored report, the notes are uploaded and deleted again. *)
Lemma upload_then_delete_restores_the_store_witness :
  exists r s1 s2 s3,
    Documents.upload_one Config.default_settings 7 notes_txt
      {| Documents.uploaded_documents := []; Documents.n_successful := 0;
         Documents.n_failed := 0 |} one_report
    = (Ok {| Documents.uploaded_documents := [r]; Documents.n_successful := 1;
             Documents.n_failed := 0 |}, s1)
    /\ Documents.r_id r = 2
    /\ fst (Documents.delete_document Config.default_settings 2 7 s1)
       = Ok "Document 'notes.txt' deleted successfully"
    /\ s2 = snd (Documents.delete_document Config.default_settings 2 7 s1)
    /\ Documents.documents s2 = Documents.documents one_report
    /\ DocumentProcessor.files (Documents.storage s2) = ∅
    /\ Documents.run_next_task Config.default_settings one_chunk_splitter
         rejecting_pdf_reader unreachable_embed_api s2 = (Ok tt, s3)
    /\ Documents.documents s3 = Documents.documents one_report.
Proof.
  destruct (upload_then_delete_restores_the_store Config.default_settings
              one_chunk_splitter rejecting_pdf_reader unreachable_embed_api 7 notes_txt
              {| Documents.uploaded_documents := []; Documents.n_successful := 0;
                 Documents.n_failed := 0 |} one_report)
    as (r & s1 & s2 & s3 & Eup & Edel & Hrows & Hfiles & _ & Erun & Hrows' & _).
  - vm_compute. reflexivity.
  - intros k. reflexivity.
  - intros k. reflexivity.
  - reflexivity.
  - vm_compute. reflexivity.
  - vm_compute. reflexivity.
  - repeat constructor. discriminate.
  - reflexivity.
  - pose proof (f_equal (fun p => match fst p with
                                  | Ok t => map Documents.r_id (Documents.uploaded_documents t)
                                  | Raise _ => []
                                  end) Eup) as Hid.
    vm_compute in Hid. injection Hid as Hid. symmetry in Hid.
    change (Documents.r_id r = 2) in Hid.
    rewrite Hid in Edel.
    exists r, s1, s2, s3. split; [exact Eup |]. split; [exact Hid |].
    rewrite Edel. repeat split; assumption.
Defined.
